(** * BannerForge (forge.py): a shallow embedding and its verified properties

    The development follows the layout of [forge.py]: a small model of the
    Python values the program computes with (strings, unbounded integers,
    binary64 floats, exceptions), then the utilities, the palette table, the
    SVG accent generators and composer, the PNG compositor, the ASCII banner
    wrapper, the tagline fallback, the template table and the CLI commands
    [svg], [png] and [batch].  The theorems come after all definitions. *)

From Stdlib Require Import ZArith List String Ascii Bool Lia SpecFloat DecimalString.
From stdpp Require Import gmap strings.
Import ListNotations.

Local Open Scope Z_scope.

(** ** Python values *)

(** Exceptions the modelled code can raise. *)
Inductive exn : Type :=
| KeyError (key : string)
| RuntimeError (msg : string)
| ValueError (msg : string)
| OverflowError (msg : string)
| UnboundLocalError (name : string)
| IndexError (msg : string)
| ZeroDivisionError (msg : string).

Inductive result (A : Type) : Type :=
| Ok (a : A)
| Err (e : exn).
Arguments Ok {A} a.
Arguments Err {A} e.

Definition is_ok {A} (r : result A) : bool :=
  match r with Ok _ => true | Err _ => false end.

Module Py.

(** *** Strings *)

Definition str_of_int (z : Z) : string := NilZero.string_of_int (Z.to_int z).

(** [sep.join(parts)] *)
Fixpoint join (sep : string) (parts : list string) : string :=
  match parts with
  | [] => ""
  | [p] => p
  | p :: rest => p +:+ sep +:+ join sep rest
  end.

(** [s.replace(a, b)] for single characters [a] and [b]. *)
Fixpoint replace_char (a b : ascii) (s : string) : string :=
  match s with
  | EmptyString => EmptyString
  | String c s' => String (if Ascii.eqb c a then b else c) (replace_char a b s')
  end.

(** [s[:n]] for a non-negative literal bound [n]. *)
Fixpoint take (n : nat) (s : string) : string :=
  match n, s with
  | S k, String c s' => String c (take k s')
  | _, _ => EmptyString
  end.

(** [s[n:]] for a non-negative bound [n]. *)
Fixpoint drop (n : nat) (s : string) : string :=
  match n, s with
  | S k, String _ s' => drop k s'
  | _, _ => s
  end.

Definition lower_char (c : ascii) : ascii :=
  let n := nat_of_ascii c in
  if ((65 <=? n) && (n <=? 90))%nat then ascii_of_nat (n + 32) else c.

(** [s.lower()] on characters below U+0080. *)
Fixpoint lower (s : string) : string :=
  match s with
  | EmptyString => EmptyString
  | String c s' => String (lower_char c) (lower s')
  end.

(** [c in s] for a single character [c]. *)
Fixpoint contains_char (c : ascii) (s : string) : bool :=
  match s with
  | EmptyString => false
  | String d s' => Ascii.eqb c d || contains_char c s'
  end.

(** [s.split(c)] for a single-character separator: never empty. *)
Fixpoint split_char (c : ascii) (s : string) : list string :=
  match s with
  | EmptyString => [EmptyString]
  | String d s' =>
      if Ascii.eqb d c then EmptyString :: split_char c s'
      else match split_char c s' with
           | [] => [String d EmptyString]
           | h :: t => String d h :: t
           end
  end.

(** [s.lstrip(c)] for a single character [c]. *)
Fixpoint lstrip_char (c : ascii) (s : string) : string :=
  match s with
  | String d s' => if Ascii.eqb d c then lstrip_char c s' else s
  | EmptyString => EmptyString
  end.

(** [s.endswith(suffix)] *)
Definition endswith (s suffix : string) : bool :=
  let n := String.length s in
  let k := String.length suffix in
  (k <=? n)%nat && String.eqb (drop (n - k) s) suffix.

(** Truthiness of an optional string: [None] and [""] are false. *)
Definition truthy (o : option string) : bool :=
  match o with
  | Some (String _ _) => true
  | _ => false
  end.

(** [l[:n]] on a list, for any integer [n]. *)
Definition slice_to {A} (n : Z) (l : list A) : list A :=
  if n <? 0 then firstn (Z.to_nat (Z.of_nat (List.length l) + n)) l
  else firstn (Z.to_nat n) l.

(** [range(0, stop, step)] for a positive [step]. *)
Definition range_step (stop step : Z) : list Z :=
  map (fun i => Z.of_nat i * step) (seq 0 (Z.to_nat ((stop + step - 1) / step))).

(** [range(stop)] *)
Definition range (stop : Z) : list Z := range_step stop 1.

(** *** binary64 floats *)

Definition float := spec_float.
Definition prec : Z := 53.
Definition emax : Z := 1024.

Definition fmul : float -> float -> float := SFmul prec emax.
Definition fdiv : float -> float -> float := SFdiv prec emax.
Definition fadd : float -> float -> float := SFadd prec emax.
Definition fsub : float -> float -> float := SFsub prec emax.

(** Conversion of an integer, rounding to nearest even. *)
Definition float_of_int_raw (z : Z) : float := binary_normalize prec emax z 0 false.

(** [float(z)]: raises when [z] is out of the binary64 range. *)
Definition float_of_int (z : Z) : result float :=
  match float_of_int_raw z with
  | S754_infinity _ => Err (OverflowError "int too large to convert to float")
  | f => Ok f
  end.

(** The literal [n/d] written in decimal, e.g. [0.65] is [lit 65 100]:
    the nearest binary64 to the decimal fraction. *)
Definition lit (n d : Z) : float := fdiv (float_of_int_raw n) (float_of_int_raw d).

(** [int(x)] on a float: truncation towards zero. *)
Definition int_of_float (x : float) : result Z :=
  match x with
  | S754_zero _ => Ok 0
  | S754_finite s m e =>
      let a := if 0 <=? e then Z.pos m * 2 ^ e else Z.pos m / 2 ^ (- e) in
      Ok (if s then - a else a)
  | S754_infinity _ => Err (OverflowError "cannot convert float infinity to integer")
  | S754_nan => Err (ValueError "cannot convert float NaN to integer")
  end.

(** Digits of a non-negative integer. *)
Definition digits (z : Z) : string := NilZero.string_of_uint (N.to_uint (Z.to_N z)).

Fixpoint zeros (n : nat) : string :=
  match n with O => "" | S k => String "0" (zeros k) end.

Fixpoint strip_trailing_zeros_rev (s : list ascii) : list ascii :=
  match s with
  | "0"%char :: s' => strip_trailing_zeros_rev s'
  | _ => s
  end.

Definition strip_trailing_zeros (s : string) : string :=
  string_of_list_ascii (rev (strip_trailing_zeros_rev (rev (list_ascii_of_string s)))).

(** [num/den >= 10^p] for positive [num], [den]. *)
Definition ge_pow10 (num den p : Z) : bool :=
  if 0 <=? p then den * 10 ^ p <=? num else den <=? num * 10 ^ (- p).

Fixpoint adjust_up (fuel : nat) (num den p : Z) : Z :=
  match fuel with
  | O => p
  | S f => if ge_pow10 num den (p + 1) then adjust_up f num den (p + 1) else p
  end.

Fixpoint adjust_down (fuel : nat) (num den p : Z) : Z :=
  match fuel with
  | O => p
  | S f => if ge_pow10 num den p then p else adjust_down f num den (p - 1)
  end.

(** The decimal exponent [p] with [10^p <= num/den < 10^(p+1)]. *)
Definition floor_log10 (num den : Z) : Z :=
  let est := (Z.log2 num - Z.log2 den) * 30103 / 100000 in
  adjust_up 4 num den (adjust_down 4 num den est).

(** Shortest decimal digits that read back as [m * 2^e], searched by
    increasing digit count [n]; returns the digit string and the position
    [decpt] of the decimal point ([0.d1d2... * 10^decpt]). *)
Fixpoint shortest_search (fuel : nat) (n : Z) (v lo hi den p : Z) (incl : bool)
  : string * Z :=
  let k := p - n + 1 in
  let sc_num := if 0 <=? k then 1 else 10 ^ (- k) in
  let sc_den := if 0 <=? k then 10 ^ k else 1 in
  (* candidate c stands for c * 10^k = c * sc_den / sc_num *)
  let d_lo := (v * sc_num) / (den * sc_den) in
  let d_hi := d_lo + 1 in
  let inside c :=
    let x := c * sc_den * den in
    if incl then (lo * sc_num <=? x) && (x <=? hi * sc_num)
    else (lo * sc_num <? x) && (x <? hi * sc_num) in
  let dist c := Z.abs (c * sc_den * den - v * sc_num) in
  let pick :=
    match inside d_lo, inside d_hi with
    | true, true =>
        if dist d_lo <? dist d_hi then Some d_lo
        else if dist d_hi <? dist d_lo then Some d_hi
        else Some (if Z.even d_lo then d_lo else d_hi)
    | true, false => Some d_lo
    | false, true => Some d_hi
    | false, false => None
    end in
  match pick with
  | Some c =>
      let ds := digits c in
      (strip_trailing_zeros ds, k + Z.of_nat (String.length ds))
  | None =>
      match fuel with
      | O => (digits d_lo, k + Z.of_nat (String.length (digits d_lo)))
      | S f => shortest_search f (n + 1) v lo hi den p incl
      end
  end.

Definition shortest_digits (m : positive) (e : Z) : string * Z :=
  let boundary := (Z.pos m =? 2 ^ (prec - 1)) && (3 - emax - prec <? e) in
  let sh := e - 2 in
  let up := if 0 <=? sh then 2 ^ sh else 1 in
  let den := if 0 <=? sh then 1 else 2 ^ (- sh) in
  let v := 4 * Z.pos m * up in
  let hi := (4 * Z.pos m + 2) * up in
  let lo := (if boundary then 4 * Z.pos m - 1 else 4 * Z.pos m - 2) * up in
  shortest_search 17 1 v lo hi den (floor_log10 v den) (Z.even (Z.pos m)).

Definition exp_digits (z : Z) : string :=
  let d := digits (Z.abs z) in
  (if z <? 0 then "-" else "+") +:+ (if Z.abs z <? 10 then "0" +:+ d else d).

(** [repr(x)], also what an f-string field [{x}] shows for a float. *)
Definition repr_float (x : float) : string :=
  match x with
  | S754_zero s => if s then "-0.0" else "0.0"
  | S754_infinity s => if s then "-inf" else "inf"
  | S754_nan => "nan"
  | S754_finite s m e =>
      let '(ds, decpt) := shortest_digits m e in
      let n := Z.of_nat (String.length ds) in
      let body :=
        if (-4 <? decpt) && (decpt <=? 16) then
          if decpt <=? 0 then "0." +:+ zeros (Z.to_nat (- decpt)) +:+ ds
          else if n <=? decpt then ds +:+ zeros (Z.to_nat (decpt - n)) +:+ ".0"
          else take (Z.to_nat decpt) ds +:+ "." +:+ drop (Z.to_nat decpt) ds
        else
          take 1 ds +:+ (if 1 <? n then "." +:+ drop 1 ds else "")
          +:+ "e" +:+ exp_digits (decpt - 1) in
      if s then "-" +:+ body else body
  end.

End Py.

(** ** Utilities *)

(** *** [strip_ansi]: [re.sub(r'\033\[[0-9;]+m', '', text)] *)

Definition ESC : ascii := ascii_of_nat 27.

(** The character class [[0-9;]]. *)
Definition is_param (c : ascii) : bool :=
  let n := nat_of_ascii c in
  ((48 <=? n) && (n <=? 57))%nat || Ascii.eqb c ";".

(** The rest of [[0-9;]+m] once one class character has been read: the
    greedy run, then [m].  A shorter run never helps, since it would have
    to be followed by [m] where a class character stands. *)
Fixpoint match_params (s : string) : option string :=
  match s with
  | String c s' =>
      if is_param c then match_params s'
      else if Ascii.eqb c "m" then Some s' else None
  | EmptyString => None
  end.

(** A match of the pattern at the start of [s]: what follows the match. *)
Definition match_ansi (s : string) : option string :=
  match s with
  | String e (String b (String c s')) =>
      if Ascii.eqb e ESC && Ascii.eqb b "[" && is_param c
      then match_params s' else None
  | _ => None
  end.

(** [re.sub] with the empty replacement: leftmost matches, scanned left to
    right, never overlapping.  [fuel] bounds the characters left. *)
Fixpoint sub_ansi (fuel : nat) (s : string) : string :=
  match fuel with
  | O => s
  | S f =>
      match match_ansi s with
      | Some rest => sub_ansi f rest
      | None =>
          match s with
          | EmptyString => EmptyString
          | String c s' => String c (sub_ansi f s')
          end
      end
  end.

Definition strip_ansi (text : string) : string :=
  sub_ansi (String.length text) text.

(** ** Color palettes *)

(** A palette is a dict from role to hex color, as in the source. *)
Abbreviation palette := (gmap string string).

Definition mk_palette (bg accent text muted gradient_start gradient_end : string)
  : palette :=
  list_to_map [("bg", bg); ("accent", accent); ("text", text); ("muted", muted);
               ("gradient_start", gradient_start); ("gradient_end", gradient_end)].

Definition PALETTES : gmap string palette :=
  list_to_map
    [("stealth",   mk_palette "#0a0f14" "#00ffff" "#ffffff" "#9aa4ad" "#00ffff" "#0088ff");
     ("ember",     mk_palette "#0f0a07" "#ff8a3b" "#f5e9e3" "#c9b5a3" "#ff8a3b" "#ff4d4d");
     ("forest",    mk_palette "#0d1b0e" "#4ade80" "#e8f5e9" "#81c784" "#4ade80" "#22c55e");
     ("ocean",     mk_palette "#0a1628" "#38bdf8" "#e0f2fe" "#7dd3fc" "#38bdf8" "#0ea5e9");
     ("sunset",    mk_palette "#1a0f1e" "#f472b6" "#fce7f3" "#f9a8d4" "#f472b6" "#ec4899");
     ("neon",      mk_palette "#000000" "#00ff41" "#00ff41" "#39ff14" "#00ff41" "#39ff14");
     ("royal",     mk_palette "#1e1b4b" "#fbbf24" "#fef3c7" "#fcd34d" "#fbbf24" "#f59e0b");
     ("cyberpunk", mk_palette "#0d0221" "#ff006e" "#f72585" "#b5179e" "#ff006e" "#8338ec");
     ("matrix",    mk_palette "#000000" "#00ff00" "#00ff00" "#008f00" "#00ff00" "#00aa00")].

(** [d[key]] on a dict: [KeyError] when the key is absent. *)
Definition getitem {V} (d : gmap string V) (key : string) : result V :=
  match d !! key with
  | Some v => Ok v
  | None => Err (KeyError key)
  end.

(** [get_palette]: [PALETTES.get(name, PALETTES["stealth"])]; the default
    argument is evaluated before the lookup. *)
Definition get_palette (name : string) : result palette :=
  match getitem PALETTES "stealth" with
  | Ok fallback => Ok (default fallback (PALETTES !! name))
  | Err e => Err e
  end.

(** The six color roles of a palette. *)
Definition palette_fields : list string :=
  ["bg"; "accent"; "text"; "muted"; "gradient_start"; "gradient_end"].

(** ** Hex colors *)

Definition hex_val (c : ascii) : option Z :=
  let n := Z.of_nat (nat_of_ascii c) in
  if (48 <=? n) && (n <=? 57) then Some (n - 48)
  else if (97 <=? n) && (n <=? 102) then Some (n - 87)
  else if (65 <=? n) && (n <=? 70) then Some (n - 55)
  else None.

Definition is_hex (c : ascii) : bool :=
  match hex_val c with Some _ => true | None => false end.

(** A color of the form [#rrggbb]. *)
Definition is_hex_color (s : string) : bool :=
  match s with
  | String "#" (String a (String b (String c (String d (String e (String f EmptyString)))))) =>
      is_hex a && is_hex b && is_hex c && is_hex d && is_hex e && is_hex f
  | _ => false
  end.

Module PyInt.

(** Whitespace that [int()] ignores around a literal (code points < 256). *)
Definition is_space (c : ascii) : bool :=
  let n := nat_of_ascii c in
  (((9 <=? n) && (n <=? 13)) || (n =? 32) || (n =? 133) || (n =? 160))%nat.

Fixpoint lstrip_space (s : string) : string :=
  match s with
  | String c s' => if is_space c then lstrip_space s' else s
  | EmptyString => EmptyString
  end.

Fixpoint all_space (s : string) : bool :=
  match s with
  | String c s' => is_space c && all_space s'
  | EmptyString => true
  end.

Definition skip_sign (s : string) : bool * string :=
  match s with
  | String "+" s' => (false, s')
  | String "-" s' => (true, s')
  | _ => (false, s)
  end.

(** The optional [0x] prefix, after which one underscore is allowed. *)
Definition skip_prefix16 (s : string) : string :=
  match s with
  | String "0" (String x s') =>
      if Ascii.eqb x "x" || Ascii.eqb x "X" then
        match s' with
        | String "_" s'' => s''
        | _ => s'
        end
      else s
  | _ => s
  end.

(** Hex digits with single underscores between them; [prev_us] tells that
    the previous character was an underscore, [seen] that a digit was
    read.  Returns the value and what follows the digits. *)
Fixpoint scan16 (acc : Z) (seen prev_us : bool) (s : string) : option (Z * string) :=
  match s with
  | String c s' =>
      if Ascii.eqb c "_" then
        if prev_us || negb seen then None else scan16 acc seen true s'
      else
        match hex_val c with
        | Some v => scan16 (16 * acc + v) true false s'
        | None => if prev_us || negb seen then None else Some (acc, s)
        end
  | EmptyString => if prev_us || negb seen then None else Some (acc, s)
  end.

(** [int(s, 16)] *)
Definition int16 (s : string) : result Z :=
  let '(neg, s1) := skip_sign (lstrip_space s) in
  match scan16 0 false false (skip_prefix16 s1) with
  | Some (v, rest) =>
      if all_space rest then Ok (if neg then - v else v)
      else Err (ValueError "invalid literal for int() with base 16")
  | None => Err (ValueError "invalid literal for int() with base 16")
  end.

End PyInt.

(** [_hex_to_rgb]: strip the leading [#]s, then read three two-character
    fields in base 16. *)
Definition _hex_to_rgb (hex_color : string) : result (Z * Z * Z) :=
  let hex_color := Py.lstrip_char "#" hex_color in
  let field i := PyInt.int16 (Py.take 2 (Py.drop i hex_color)) in
  match field 0%nat with
  | Err e => Err e
  | Ok r =>
      match field 2%nat with
      | Err e => Err e
      | Ok g =>
          match field 4%nat with
          | Err e => Err e
          | Ok b => Ok (r, g, b)
          end
      end
  end.

(** ** Numeric expressions of the layout code *)

Definition rbind {A B} (r : result A) (k : A -> result B) : result B :=
  match r with
  | Ok a => k a
  | Err e => Err e
  end.

Declare Scope result_scope.
Delimit Scope result_scope with result.
Notation "x <- r ;; k" := (rbind r (fun x => k))
  (at level 100, r at next level, right associativity) : result_scope.

Module Num.
Local Open Scope result_scope.

(** [z * x] with an int [z] and a float [x]. *)
Definition mul_if (z : Z) (x : Py.float) : result Py.float :=
  f <- Py.float_of_int z ;; Ok (Py.fmul f x).

(** [int(z * x)] *)
Definition int_mul (z : Z) (x : Py.float) : result Z :=
  f <- mul_if z x ;; Py.int_of_float f.

(** [a / b] on ints.  The operands are converted first, which agrees with
    Python's correctly rounded quotient for magnitudes below [2^53]. *)
Definition truediv (a b : Z) : result Py.float :=
  if b =? 0 then Err (ZeroDivisionError "division by zero")
  else
    fa <- Py.float_of_int a ;;
    fb <- Py.float_of_int b ;;
    Ok (Py.fdiv fa fb).

(** [x + z] and [x - z] with a float [x] and an int [z]. *)
Definition add_fi (x : Py.float) (z : Z) : result Py.float :=
  f <- Py.float_of_int z ;; Ok (Py.fadd x f).
Definition sub_fi (x : Py.float) (z : Z) : result Py.float :=
  f <- Py.float_of_int z ;; Ok (Py.fsub x f).

(** [{z * x}] inside an f-string. *)
Definition show_mul (z : Z) (x : Py.float) : result string :=
  f <- mul_if z x ;; Ok (Py.repr_float f).
End Num.

(** ** External collaborators *)

(** The [random] module: one global generator. *)
Class Random := {
  rng : Type;
  random_seed : Z -> rng;
  random_randint : Z -> Z -> rng -> result (Z * rng)
}.

(** What the code relies on: [randint(a, b)] returns some [a <= v <= b]. *)
Class RandomLaws (R : Random) : Prop := {
  randint_range : forall a b g, a <= b ->
    exists v g', random_randint a b g = Ok (v, g') /\ a <= v <= b
}.

(** A fill: an RGBA tuple or a color string. *)
Inductive fill : Type :=
| FillRGBA (r g b a : Z)
| FillColor (c : string).

(** Pillow: [Image], [ImageDraw], [ImageFont], [ImageFilter]. *)
Class Pillow := {
  image : Type;
  font : Type;
  Image_new : Z -> Z -> string -> result image;
  putpixel : image -> Z * Z -> Z * Z * Z * Z -> result image;
  textbbox : image -> string -> font -> result (Z * Z * Z * Z);
  draw_text : image -> Py.float * Py.float -> string -> font -> fill -> result image;
  draw_rectangle : image -> Z * Z -> Z * Z -> fill -> result image;
  GaussianBlur : Z -> image -> result image;
  truetype : string -> Z -> result font;
  load_default : font
}.

(** pyfiglet: [Figlet(font=font).renderText(text)]. *)
Class Figlet := {
  renderText : string -> string -> result string
}.

(** The process environment and the outcome of the optional imports. *)
Class Host := {
  isfile : string -> bool;
  utcnow_stamp : string;
  env_GEMINI_API_KEY : option string;
  has_pyfiglet : bool;
  has_Pillow : bool;
  has_yaml : bool
}.

(** ** The world: generator state, files written, lines echoed *)

Inductive artifact `{Pillow} : Type :=
| TextFile (content : string)
| ImageFile (img : image).

Record world `{Random} `{Pillow} : Type := World {
  w_rng : rng;
  w_writes : list (string * artifact);
  w_stdout : list string
}.

Section Effects.
Context `{R : Random} `{P : Pillow}.

(** A command: runs in a world, returns or raises, leaves a world. *)
Definition M (A : Type) : Type := world -> result A * world.

Definition ret {A} (a : A) : M A := fun w => (Ok a, w).
Definition raise {A} (e : exn) : M A := fun w => (Err e, w).
Definition bind {A B} (m : M A) (k : A -> M B) : M B :=
  fun w => match m w with
           | (Ok a, w') => k a w'
           | (Err e, w') => (Err e, w')
           end.
Definition lift {A} (r : result A) : M A := fun w => (r, w).

(** [with open(path, "w") as fh: fh.write(...)] and [img.save(path)].
    The world records the files a run has written; the write itself is
    taken to go through.  A path that cannot be opened and a text that
    cannot be encoded are outside this model: what is stated about a
    command holds of the runs in which its writes go through. *)
Definition write_file (path : string) (a : artifact) : M unit :=
  fun w => (Ok tt, World R P (w_rng w) (w_writes w ++ [(path, a)]) (w_stdout w)).

(** [click.echo(line)] *)
Definition echo (line : string) : M unit :=
  fun w => (Ok tt, World R P (w_rng w) (w_writes w) (w_stdout w ++ [line])).

(** [random.seed(n)] and [random.randint(a, b)] on the global generator. *)
Definition seed (n : Z) : M unit :=
  fun w => (Ok tt, World R P (random_seed n) (w_writes w) (w_stdout w)).
Definition randint (a b : Z) : M Z :=
  fun w => match random_randint a b (w_rng w) with
           | Ok (v, g) => (Ok v, World R P g (w_writes w) (w_stdout w))
           | Err e => (Err e, w)
           end.

(** [ensure_dir]: directories are not part of the world. *)
Definition ensure_dir (path : string) : M unit := ret tt.
End Effects.

Declare Scope cmd_scope.
Delimit Scope cmd_scope with cmd.
Notation "x <- m ;; k" := (bind m (fun x => k))
  (at level 100, m at next level, right associativity) : cmd_scope.
Notation "m ;;; k" := (bind m (fun _ => k))
  (at level 100, right associativity) : cmd_scope.

(** ** SVG templates *)

Definition dq : string := String (ascii_of_nat 34) EmptyString.
Definition nl : string := String (ascii_of_nat 10) EmptyString.

(** [q s] is [s] between double quotes. *)
Definition q (s : string) : string := dq +:+ s +:+ dq.

(** The lines of a template, each ended by a newline. *)
Fixpoint lines (ls : list string) : string :=
  match ls with
  | [] => EmptyString
  | l :: rest => l +:+ nl +:+ lines rest
  end.

Section SvgTemplates.
Variables (width height label bg grad_start grad_end filters accent x y
           font_family font_size text_fill text_style text subtitle animation : string).

Definition SVG_TEMPLATE_SIMPLE : string :=
  lines
    [ "<?xml version=" +:+ q "1.0" +:+ " encoding=" +:+ q "UTF-8" +:+ "?>";
      "<svg width=" +:+ q width +:+ " height=" +:+ q height
        +:+ " viewBox=" +:+ q ("0 0 " +:+ width +:+ " " +:+ height)
        +:+ " xmlns=" +:+ q "http://www.w3.org/2000/svg"
        +:+ " role=" +:+ q "img" +:+ " aria-label=" +:+ q label +:+ ">";
      "  <defs>";
      "    <linearGradient id=" +:+ q "grad1" +:+ " x1=" +:+ q "0%" +:+ " y1=" +:+ q "0%"
        +:+ " x2=" +:+ q "100%" +:+ " y2=" +:+ q "100%" +:+ ">";
      "      <stop offset=" +:+ q "0%" +:+ " style="
        +:+ q ("stop-color:" +:+ grad_start +:+ ";stop-opacity:1") +:+ " />";
      "      <stop offset=" +:+ q "100%" +:+ " style="
        +:+ q ("stop-color:" +:+ grad_end +:+ ";stop-opacity:1") +:+ " />";
      "    </linearGradient>";
      "    " +:+ filters;
      "  </defs>";
      "  <rect width=" +:+ q "100%" +:+ " height=" +:+ q "100%" +:+ " fill=" +:+ q bg +:+ " />";
      "  <!-- accent shapes -->";
      "  " +:+ accent;
      "  <!-- main text -->";
      "  <text x=" +:+ q x +:+ " y=" +:+ q y +:+ " font-family=" +:+ q font_family
        +:+ " font-size=" +:+ q font_size +:+ " font-weight=" +:+ q "700"
        +:+ " fill=" +:+ q text_fill +:+ " text-anchor=" +:+ q "middle" +:+ " "
        +:+ text_style +:+ ">" +:+ text +:+ "</text>";
      "  <!-- subtitle -->";
      "  " +:+ subtitle;
      "  " +:+ animation;
      "</svg>" ].

Definition SVG_ANIMATED_TEMPLATE : string :=
  lines
    [ "<?xml version=" +:+ q "1.0" +:+ " encoding=" +:+ q "UTF-8" +:+ "?>";
      "<svg width=" +:+ q width +:+ " height=" +:+ q height
        +:+ " viewBox=" +:+ q ("0 0 " +:+ width +:+ " " +:+ height)
        +:+ " xmlns=" +:+ q "http://www.w3.org/2000/svg" +:+ ">";
      "  <defs>";
      "    <linearGradient id=" +:+ q "animGrad" +:+ " x1=" +:+ q "0%" +:+ " y1=" +:+ q "0%"
        +:+ " x2=" +:+ q "100%" +:+ " y2=" +:+ q "0%" +:+ ">";
      "      <stop offset=" +:+ q "0%" +:+ " style=" +:+ q ("stop-color:" +:+ grad_start) +:+ ">";
      "        <animate attributeName=" +:+ q "stop-color" +:+ " values="
        +:+ q (grad_start +:+ ";" +:+ grad_end +:+ ";" +:+ grad_start)
        +:+ " dur=" +:+ q "3s" +:+ " repeatCount=" +:+ q "indefinite" +:+ "/>";
      "      </stop>";
      "      <stop offset=" +:+ q "100%" +:+ " style=" +:+ q ("stop-color:" +:+ grad_end) +:+ ">";
      "        <animate attributeName=" +:+ q "stop-color" +:+ " values="
        +:+ q (grad_end +:+ ";" +:+ grad_start +:+ ";" +:+ grad_end)
        +:+ " dur=" +:+ q "3s" +:+ " repeatCount=" +:+ q "indefinite" +:+ "/>";
      "      </stop>";
      "    </linearGradient>";
      "  </defs>";
      "  <rect width=" +:+ q "100%" +:+ " height=" +:+ q "100%" +:+ " fill=" +:+ q bg +:+ "/>";
      "  " +:+ accent;
      "  <text x=" +:+ q x +:+ " y=" +:+ q y +:+ " font-family=" +:+ q font_family
        +:+ " font-size=" +:+ q font_size +:+ " font-weight=" +:+ q "700"
        +:+ " fill=" +:+ q "url(#animGrad)" +:+ " text-anchor=" +:+ q "middle" +:+ ">";
      "    " +:+ text;
      "    <animate attributeName=" +:+ q "opacity" +:+ " values=" +:+ q "0.8;1;0.8"
        +:+ " dur=" +:+ q "2s" +:+ " repeatCount=" +:+ q "indefinite" +:+ "/>";
      "  </text>";
      "  " +:+ subtitle;
      "</svg>" ].
End SvgTemplates.

(** ** Accent generators *)

(** The markup of one particle:
    [<circle cx="{x}" cy="{y}" r="{r}" fill="{color}" opacity="{opacity}"/>]. *)
Definition circle_markup (color : string) (opacity : Py.float) (c : Z * Z * Z) : string :=
  let '(x, y, r) := c in
  "<circle cx=" +:+ q (Py.str_of_int x) +:+ " cy=" +:+ q (Py.str_of_int y)
  +:+ " r=" +:+ q (Py.str_of_int r) +:+ " fill=" +:+ q color
  +:+ " opacity=" +:+ q (Py.repr_float opacity) +:+ "/>".

Section Accents.
Context `{R : Random} `{P : Pillow}.
Local Open Scope result_scope.

(** Default opacities of the four generators. *)
Definition wave_opacity : Py.float := Py.lit 12 100.
Definition geometric_opacity : Py.float := Py.lit 1 10.
Definition grid_opacity : Py.float := Py.lit 5 100.
Definition particles_opacity : Py.float := Py.lit 8 100.

Definition svg_accent_wave (width height : Z) (color : string) (opacity : Py.float)
  : result string :=
  h65 <- Num.show_mul height (Py.lit 65 100) ;;
  w25 <- Num.show_mul width (Py.lit 25 100) ;;
  h4 <- Num.show_mul height (Py.lit 4 10) ;;
  w75 <- Num.show_mul width (Py.lit 75 100) ;;
  h9 <- Num.show_mul height (Py.lit 9 10) ;;
  h6 <- Num.show_mul height (Py.lit 6 10) ;;
  let w := Py.str_of_int width in
  let h := Py.str_of_int height in
  Ok ("<path d="
      +:+ q ("M0 " +:+ h65 +:+ " C " +:+ w25 +:+ " " +:+ h4 +:+ ", " +:+ w75 +:+ " " +:+ h9
             +:+ ", " +:+ w +:+ " " +:+ h6 +:+ " L " +:+ w +:+ " " +:+ h
             +:+ " L 0 " +:+ h +:+ " Z")
      +:+ " fill=" +:+ q color +:+ " opacity=" +:+ q (Py.repr_float opacity) +:+ " />").

Definition svg_accent_geometric (width height : Z) (color : string) (opacity : Py.float)
  : result string :=
  w15 <- Num.show_mul width (Py.lit 15 100) ;;
  h2 <- Num.show_mul height (Py.lit 2 10) ;;
  h15 <- Num.show_mul height (Py.lit 15 100) ;;
  let c1 := "<circle cx=" +:+ q w15 +:+ " cy=" +:+ q h2 +:+ " r=" +:+ q h15
            +:+ " fill=" +:+ q color +:+ " opacity=" +:+ q (Py.repr_float opacity) +:+ "/>" in
  w85 <- Num.show_mul width (Py.lit 85 100) ;;
  h8 <- Num.show_mul height (Py.lit 8 10) ;;
  h2' <- Num.show_mul height (Py.lit 2 10) ;;
  let c2 := "<circle cx=" +:+ q w85 +:+ " cy=" +:+ q h8 +:+ " r=" +:+ q h2'
            +:+ " fill=" +:+ q color +:+ " opacity="
            +:+ q (Py.repr_float (Py.fmul opacity (Py.lit 7 10))) +:+ "/>" in
  w7 <- Num.show_mul width (Py.lit 7 10) ;;
  h1 <- Num.show_mul height (Py.lit 1 10) ;;
  w2 <- Num.show_mul width (Py.lit 2 10) ;;
  h15' <- Num.show_mul height (Py.lit 15 100) ;;
  w8 <- Num.show_mul width (Py.lit 8 10) ;;
  h175 <- Num.show_mul height (Py.lit 175 1000) ;;
  let r := "<rect x=" +:+ q w7 +:+ " y=" +:+ q h1 +:+ " width=" +:+ q w2
           +:+ " height=" +:+ q h15' +:+ " fill=" +:+ q color +:+ " opacity="
           +:+ q (Py.repr_float (Py.fmul opacity (Py.lit 5 10)))
           +:+ " transform=" +:+ q ("rotate(15 " +:+ w8 +:+ " " +:+ h175 +:+ ")") +:+ "/>" in
  Ok (Py.join (nl +:+ "  ") [c1; c2; r]).

Definition svg_accent_grid (width height : Z) (color : string) (opacity : Py.float)
  : result string :=
  let spacing := 50 in
  let vertical x :=
    "<line x1=" +:+ q (Py.str_of_int x) +:+ " y1=" +:+ q "0" +:+ " x2=" +:+ q (Py.str_of_int x)
    +:+ " y2=" +:+ q (Py.str_of_int height) +:+ " stroke=" +:+ q color
    +:+ " opacity=" +:+ q (Py.repr_float opacity) +:+ "/>" in
  let horizontal y :=
    "<line x1=" +:+ q "0" +:+ " y1=" +:+ q (Py.str_of_int y) +:+ " x2=" +:+ q (Py.str_of_int width)
    +:+ " y2=" +:+ q (Py.str_of_int y) +:+ " stroke=" +:+ q color
    +:+ " opacity=" +:+ q (Py.repr_float opacity) +:+ "/>" in
  Ok (Py.join (nl +:+ "  ")
        (map vertical (Py.range_step width spacing)
         ++ map horizontal (Py.range_step height spacing))).

Local Open Scope cmd_scope.

(** One particle: three draws, in the order x, y, r. *)
Definition particle (width height : Z) (color : string) (opacity : Py.float) : M string :=
  x <- randint 0 width ;;
  y <- randint 0 height ;;
  r <- randint 2 8 ;;
  ret (circle_markup color opacity (x, y, r)).

(** [for _ in range(n): particles.append(...)] *)
Fixpoint particles_loop (n : nat) (width height : Z) (color : string)
         (opacity : Py.float) (particles : list string) : M (list string) :=
  match n with
  | O => ret particles
  | S k =>
      p <- particle width height color opacity ;;
      particles_loop k width height color opacity (particles ++ [p])
  end.

Definition svg_accent_particles (width height : Z) (color : string) (opacity : Py.float)
  : M string :=
  seed 42 ;;;
  particles <- particles_loop 30 width height color opacity [] ;;
  ret (Py.join (nl +:+ "  ") particles).
End Accents.

(** ** The vector composer: [write_svg] *)

(** The subtitle element for a subtitle [s] placed at [y] with font [size]. *)
Definition subtitle_element (s : string) (width y size : Z) (muted : string) : string :=
  "<text x=" +:+ q (Py.str_of_int (width / 2)) +:+ " y=" +:+ q (Py.str_of_int y)
  +:+ " font-family=" +:+ q "Inter,Arial,Helvetica"
  +:+ " font-size=" +:+ q (Py.str_of_int size)
  +:+ " fill=" +:+ q muted +:+ " text-anchor=" +:+ q "middle" +:+ ">" +:+ s +:+ "</text>".

Section Svg.
Context `{R : Random} `{P : Pillow}.

(** [accent_map.get(style, svg_accent_wave)(width, height, color)] *)
Definition accent_func (style : string) (width height : Z) (color : string) : M string :=
  if String.eqb style "wave" then lift (svg_accent_wave width height color wave_opacity)
  else if String.eqb style "geometric"
    then lift (svg_accent_geometric width height color geometric_opacity)
  else if String.eqb style "grid" then lift (svg_accent_grid width height color grid_opacity)
  else if String.eqb style "particles"
    then svg_accent_particles width height color particles_opacity
  else lift (svg_accent_wave width height color wave_opacity).

(** The subtitle element, built only for a non-empty subtitle. *)
Definition subtitle_tag (subtitle : option string) (width height : Z) (pal : palette)
  : result string :=
  (if Py.truthy subtitle then
     y <- Num.int_mul height (Py.lit 78 100) ;;
     size <- Num.int_mul height (Py.lit 75 1000) ;;
     muted <- getitem pal "muted" ;;
     Ok (subtitle_element (default "" subtitle) width y size muted)
   else Ok "")%result.

Definition glow_filter : string :=
  "<filter id=" +:+ q "glow" +:+ "><feGaussianBlur stdDeviation=" +:+ q "2"
  +:+ " result=" +:+ q "coloredBlur" +:+ "/><feMerge><feMergeNode in=" +:+ q "coloredBlur"
  +:+ "/><feMergeNode in=" +:+ q "SourceGraphic" +:+ "/></feMerge></filter>".

(** The document [write_svg] builds before it opens the file. *)
Definition svg_document (text : string) (subtitle : option string) (width height : Z)
           (pal : option palette) (style : string) (animated : bool) : M string :=
  (pal <- lift (match pal with Some p => Ok p | None => get_palette "stealth" end) ;;
   color <- lift (getitem pal "accent") ;;
   accent <- accent_func style width height color ;;
   sub <- lift (subtitle_tag subtitle width height pal) ;;
   let w := Py.str_of_int width in
   let h := Py.str_of_int height in
   let x := Py.str_of_int (width / 2) in
   if animated then
     lift (bg <- getitem pal "bg" ;;
           grad_start <- getitem pal "gradient_start" ;;
           grad_end <- getitem pal "gradient_end" ;;
           y <- Num.int_mul height (Py.lit 55 100) ;;
           font_size <- Num.int_mul height (Py.lit 2 10) ;;
           Ok (SVG_ANIMATED_TEMPLATE w h bg grad_start grad_end accent x
                 (Py.str_of_int y) "Orbitron,Inter,Arial" (Py.str_of_int font_size)
                 text sub))%result
   else
     let text_style :=
       if String.eqb style "glow" then "filter=" +:+ q "url(#glow)" else "" in
     lift (bg <- getitem pal "bg" ;;
           grad_start <- getitem pal "gradient_start" ;;
           grad_end <- getitem pal "gradient_end" ;;
           y <- Num.int_mul height (Py.lit 55 100) ;;
           font_size <- Num.int_mul height (Py.lit 2 10) ;;
           text_fill <- getitem pal "text" ;;
           Ok (SVG_TEMPLATE_SIMPLE w h text bg grad_start grad_end glow_filter accent x
                 (Py.str_of_int y) "Orbitron,Inter,Arial" (Py.str_of_int font_size)
                 text_fill text_style text sub ""))%result)%cmd.

Definition write_svg (path text : string) (subtitle : option string) (width height : Z)
           (pal : option palette) (style : string) (animated : bool) : M unit :=
  (svg <- svg_document text subtitle width height pal style animated ;;
   write_file path (TextFile svg))%cmd.
End Svg.

(** ** The raster compositor: [render_png_text] *)

Section Png.
Context `{R : Random} `{P : Pillow} `{H : Host}.
Local Open Scope result_scope.

Definition font_candidates : list string :=
  [ "/usr/share/fonts/truetype/dejavu/DejaVuSans-Bold.ttf";
    "/usr/share/fonts/truetype/liberation/LiberationSans-Bold.ttf";
    "/System/Library/Fonts/Helvetica.ttc";
    "C:\Windows\Fonts\arialbd.ttf";
    "/usr/share/fonts/TTF/DejaVuSans-Bold.ttf" ].

(** The loop over the candidates: a font that fails to load is skipped. *)
Fixpoint first_candidate (candidates : list string) (size : Z) : font :=
  match candidates with
  | [] => load_default
  | c :: rest =>
      if isfile c then
        match truetype c size with
        | Ok f => f
        | Err _ => first_candidate rest size
        end
      else first_candidate rest size
  end.

Definition load_font (font_path : option string) (size : Z) : result font :=
  match font_path with
  | Some p =>
      if Py.truthy font_path && isfile p then truetype p size
      else Ok (first_candidate font_candidates size)
  | None => Ok (first_candidate font_candidates size)
  end.

(** [x in effects] *)
Definition requested (effect : string) (effects : list string) : bool :=
  existsb (String.eqb effect) effects.

(** The inner loop of the gradient: one row of pixels. *)
Fixpoint gradient_row (img : image) (xs : list Z) (y alpha : Z) (pal : palette)
  : result image :=
  match xs with
  | [] => Ok img
  | x :: xs' =>
      accent <- getitem pal "accent" ;;
      rgb <- _hex_to_rgb accent ;;
      let '(r, g, b) := rgb in
      img' <- putpixel img (x, y) (r, g, b, alpha) ;;
      gradient_row img' xs' y alpha pal
  end.

(** The outer loop: [alpha = int(50 * (1 - y / height))] per row. *)
Fixpoint gradient_rows (img : image) (ys : list Z) (width height : Z) (pal : palette)
  : result image :=
  match ys with
  | [] => Ok img
  | y :: ys' =>
      ratio <- Num.truediv y height ;;
      alpha <- Py.int_of_float
                 (Py.fmul (Py.float_of_int_raw 50) (Py.fsub (Py.float_of_int_raw 1) ratio)) ;;
      img' <- gradient_row img (Py.range width) y alpha pal ;;
      gradient_rows img' ys' width height pal
  end.

Definition stage_gradient (effects : list string) (width height : Z) (pal : palette)
           (img : image) : result image :=
  if requested "gradient" effects
  then gradient_rows img (Py.range height) width height pal
  else Ok img.

(** Centered position of a text whose box is [bbox]; [anchor] is the
    vertical fraction of the height. *)
Definition centered (width height : Z) (anchor : Py.float) (bbox : Z * Z * Z * Z)
  : result (Py.float * Py.float) :=
  let '(x0, y0, x1, y1) := bbox in
  let text_width := x1 - x0 in
  let text_height := y1 - y0 in
  x <- Num.truediv (width - text_width) 2 ;;
  ha <- Num.mul_if height anchor ;;
  half <- Num.truediv text_height 2 ;;
  Ok (x, Py.fsub ha half).

Definition stage_shadow (effects : list string) (text : string) (title_font : font)
           (x y : Py.float) (img : image) : result image :=
  if requested "shadow" effects then
    let shadow_offset := 4 in
    sx <- Num.add_fi x shadow_offset ;;
    sy <- Num.add_fi y shadow_offset ;;
    draw_text img (sx, sy) text title_font (FillRGBA 0 0 0 128)
  else Ok img.

(** One pass of the glow: left, right, up, down by [offset]. *)
Definition glow_pass (text : string) (title_font : font) (x y : Py.float)
           (glow_color : fill) (img : image) (offset : Z) : result image :=
  xl <- Num.sub_fi x offset ;;
  img <- draw_text img (xl, y) text title_font glow_color ;;
  xr <- Num.add_fi x offset ;;
  img <- draw_text img (xr, y) text title_font glow_color ;;
  yu <- Num.sub_fi y offset ;;
  img <- draw_text img (x, yu) text title_font glow_color ;;
  yd <- Num.add_fi y offset ;;
  draw_text img (x, yd) text title_font glow_color.

Fixpoint glow_passes (text : string) (title_font : font) (x y : Py.float)
         (glow_color : fill) (img : image) (offsets : list Z) : result image :=
  match offsets with
  | [] => Ok img
  | o :: rest =>
      img' <- glow_pass text title_font x y glow_color img o ;;
      glow_passes text title_font x y glow_color img' rest
  end.

Definition stage_glow (effects : list string) (text : string) (title_font : font)
           (x y : Py.float) (pal : palette) (img : image) : result image :=
  if requested "glow" effects then
    accent <- getitem pal "accent" ;;
    rgb <- _hex_to_rgb accent ;;
    let '(r, g, b) := rgb in
    glow_passes text title_font x y (FillRGBA r g b 80) img [3; 2; 1]
  else Ok img.

Definition stage_main_text (text : string) (title_font : font) (x y : Py.float)
           (pal : palette) (img : image) : result image :=
  color <- getitem pal "text" ;;
  draw_text img (x, y) text title_font (FillColor color).

Definition stage_subtitle (subtitle : option string) (subtitle_font : font)
           (width height : Z) (pal : palette) (img : image) : result image :=
  if Py.truthy subtitle then
    let s := default "" subtitle in
    sub_bbox <- textbbox img s subtitle_font ;;
    pos <- centered width height (Py.lit 75 100) sub_bbox ;;
    muted <- getitem pal "muted" ;;
    draw_text img pos s subtitle_font (FillColor muted)
  else Ok img.

Definition stage_stripe (effects : list string) (width height : Z) (pal : palette)
           (img : image) : result image :=
  if requested "stripe" effects then
    accent <- getitem pal "accent" ;;
    rgb <- _hex_to_rgb accent ;;
    let '(r, g, b) := rgb in
    top <- Num.int_mul height (Py.lit 85 100) ;;
    draw_rectangle img (0, top) (width, height) (FillRGBA r g b 68)
  else Ok img.

Definition stage_blur (effects : list string) (img : image) : result image :=
  if requested "blur" effects && has_Pillow then GaussianBlur 1 img else Ok img.

(** The image [render_png_text] has composed when it reaches [img.save]. *)
Definition render_png_image (text : string) (subtitle : option string)
           (width height : Z) (pal : option palette) (font_path : option string)
           (effects : option (list string)) : result image :=
  if negb has_Pillow
  then Err (RuntimeError "Pillow is required. Install: pip install pillow")
  else
    pal <- match pal with Some p => Ok p | None => get_palette "stealth" end ;;
    let effects := default [] effects in
    bg <- getitem pal "bg" ;;
    img <- Image_new width height bg ;;
    img <- stage_gradient effects width height pal img ;;
    title_size <- Num.int_mul height (Py.lit 22 100) ;;
    title_font <- load_font font_path title_size ;;
    subtitle_size <- Num.int_mul height (Py.lit 7 100) ;;
    subtitle_font <- load_font font_path subtitle_size ;;
    bbox <- textbbox img text title_font ;;
    pos <- centered width height (Py.lit 35 100) bbox ;;
    let '(x, y) := pos in
    img <- stage_shadow effects text title_font x y img ;;
    img <- stage_glow effects text title_font x y pal img ;;
    img <- stage_main_text text title_font x y pal img ;;
    img <- stage_subtitle subtitle subtitle_font width height pal img ;;
    img <- stage_stripe effects width height pal img ;;
    img <- stage_blur effects img ;;
    Ok img.

Definition render_png_text (path text : string) (subtitle : option string)
           (width height : Z) (pal : option palette) (font_path : option string)
           (effects : option (list string)) : M unit :=
  (img <- lift (render_png_image text subtitle width height pal font_path effects) ;;
   write_file path (ImageFile img))%cmd.
End Png.

(** ** ASCII banners *)

Section Ascii.
Context `{F : Figlet} `{H : Host}.
Local Open Scope result_scope.

(** The ANSI color table of [ascii_banner]. *)
Definition colors : gmap string string :=
  list_to_map
    [("red", String ESC "[91m"); ("green", String ESC "[92m");
     ("yellow", String ESC "[93m"); ("blue", String ESC "[94m");
     ("magenta", String ESC "[95m"); ("cyan", String ESC "[96m");
     ("white", String ESC "[97m"); ("reset", String ESC "[0m")].

(** The wrapping applied when [colorize] is set:
    [f"{color_code}{banner}{colors['reset']}"]. *)
Definition colorized (color banner : string) : result string :=
  cyan <- getitem colors "cyan" ;;
  let color_code := default cyan (colors !! color) in
  reset <- getitem colors "reset" ;;
  Ok (color_code +:+ banner +:+ reset).

Definition ascii_banner (text font : string) (colorize : bool) (color : string)
  : result string :=
  if negb has_pyfiglet
  then Err (RuntimeError "pyfiglet is required. Install: pip install pyfiglet")
  else
    banner <- renderText font text ;;
    if colorize then colorized color banner else Ok banner.
End Ascii.

(** ** Tagline suggestions *)

Section Taglines.
Context `{H : Host}.
Local Open Scope result_scope.

(** The offline table of [gemini_generate_taglines]. *)
Definition fallbacks : gmap string (list string) :=
  list_to_map
    [("bannerforge", ["Forge Your Visual Identity"; "Create. Design. Deploy.";
                      "Professional Banners Made Simple"]);
     ("default", ["See What Others Miss"; "Innovation Through Design";
                  "Crafted with Precision"])].

(** [prompt.lower().split("'")[1] if "'" in prompt else "default"] *)
Definition fallback_key (prompt : string) : result string :=
  if Py.contains_char "'" prompt then
    match nth_error (Py.split_char "'" (Py.lower prompt)) 1 with
    | Some k => Ok k
    | None => Err (IndexError "list index out of range")
    end
  else Ok "default".

Definition gemini_generate_taglines (prompt : string) (n : Z) (api_key : option string)
  : result (list string) :=
  let api_key :=
    match api_key with
    | None => env_GEMINI_API_KEY
    | Some k => Some k
    end in
  if negb (Py.truthy api_key) then
    key <- fallback_key prompt ;;
    generic <- getitem fallbacks "default" ;;
    Ok (Py.slice_to n (default generic (fallbacks !! key)))
  else
    Ok (Py.slice_to n ["Creative Tagline 1"; "Creative Tagline 2"; "Creative Tagline 3"]).
End Taglines.

(** ** Templates *)

Record template : Type := Template {
  t_style : string;
  t_palette : string;
  t_effects : list string
}.

Definition TEMPLATES : gmap string template :=
  list_to_map
    [("minimal",      Template "wave" "stealth" []);
     ("professional", Template "grid" "royal" ["shadow"]);
     ("creative",     Template "geometric" "sunset" ["glow"; "gradient"]);
     ("tech",         Template "wave" "neon" ["glow"]);
     ("nature",       Template "wave" "forest" ["blur"]);
     ("cyberpunk",    Template "particles" "cyberpunk" ["glow"; "shadow"])].

(** ** CLI commands *)

Module Path.
(** The part of [p] up to and including its last slash. *)
Fixpoint head (p : string) : string :=
  match p with
  | EmptyString => EmptyString
  | String c p' =>
      if Py.contains_char "/" p then String c (head p') else EmptyString
  end.

Fixpoint all_slashes (s : string) : bool :=
  match s with
  | EmptyString => true
  | String c s' => Ascii.eqb c "/" && all_slashes s'
  end.

(** [s.rstrip("/")] *)
Fixpoint rstrip_slash (s : string) : string :=
  match s with
  | EmptyString => EmptyString
  | String c s' => if all_slashes s then EmptyString else String c (rstrip_slash s')
  end.

(** [os.path.dirname(p)] on POSIX paths. *)
Definition dirname (p : string) : string :=
  let h := head p in
  if all_slashes h then h else rstrip_slash h.

(** [os.path.join(a, b)] on POSIX paths. *)
Definition join (a b : string) : string :=
  match b with
  | String "/" _ => b
  | _ => if String.eqb a "" || Py.endswith a "/" then a +:+ b else a +:+ "/" +:+ b
  end.
End Path.

Section Commands.
Context `{R : Random} `{P : Pillow} `{F : Figlet} `{H : Host}.

(** [text.replace(' ', '_')[:30]] *)
Definition safe_name (text : string) : string :=
  Py.take 30 (Py.replace_char " " "_" text).

(** The template block of [svg]: a template, when given, sets the style
    and the palette. *)
Definition svg_apply_template (template : option string) (style palette : string)
  : result (string * string) :=
  (if Py.truthy template then
     tmpl <- getitem TEMPLATES (default "" template) ;;
     Ok (t_style tmpl, t_palette tmpl)
   else Ok (style, palette))%result.

(** The template block of [png]: a template, when given, sets the palette
    and the effects. *)
Definition png_apply_template (template : option string) (palette : string)
           (effects : list string) : result (string * list string) :=
  (if Py.truthy template then
     tmpl <- getitem TEMPLATES (default "" template) ;;
     Ok (t_palette tmpl, t_effects tmpl)
   else Ok (palette, effects))%result.

Local Open Scope cmd_scope.

(** The [--ai] block shared by [svg] and [png]. *)
Definition ai_subtitle (ai : bool) (subtitle : option string) (prompt : string)
  : M (option string) :=
  match subtitle with
  | None =>
      if ai then
        ideas <- lift (gemini_generate_taglines prompt 1 None) ;;
        match ideas with
        | idea :: _ => echo ("AI suggestion: " +:+ idea) ;;; ret (Some idea)
        | [] => raise (IndexError "list index out of range")
        end
      else ret None
  | Some _ => ret subtitle
  end.

(** [os.path.dirname(out) or "."] *)
Definition out_dir (out : string) : string :=
  match Path.dirname out with
  | EmptyString => "."
  | d => d
  end.

Definition default_out (out : option string) (text ext : string) : string :=
  match out with
  | Some o => o
  | None => "banner_" +:+ safe_name text +:+ "_" +:+ utcnow_stamp +:+ ext
  end.

Definition svg (text : string) (subtitle : option string) (width height : Z)
           (palette style : string) (animated : bool) (template out : option string)
           (ai : bool) : M unit :=
  cfg <- lift (svg_apply_template template style palette) ;;
  let '(style, palette) := cfg in
  pal <- lift (get_palette palette) ;;
  subtitle <- ai_subtitle ai subtitle
                ("Create subtitle for banner: '" +:+ text +:+ "'") ;;
  let out := default_out out text ".svg" in
  ensure_dir (out_dir out) ;;;
  write_svg out text subtitle width height (Some pal) style animated ;;;
  echo ("✓ Wrote SVG to " +:+ out).

Definition png (text : string) (subtitle : option string) (width height : Z)
           (palette : string) (effects : list string) (template out font : option string)
           (ai : bool) : M unit :=
  cfg <- lift (png_apply_template template palette effects) ;;
  let '(palette, effects) := cfg in
  pal <- lift (get_palette palette) ;;
  subtitle <- ai_subtitle ai subtitle ("Create subtitle for: '" +:+ text +:+ "'") ;;
  let out := default_out out text ".png" in
  ensure_dir (out_dir out) ;;;
  render_png_text out text subtitle width height (Some pal) font (Some effects) ;;;
  echo ("✓ Wrote PNG to " +:+ out).

(** One record of a batch spec; an absent field is [None]. *)
Record item : Type := Item {
  i_kind : option string;
  i_text : option string;
  i_subtitle : option string;
  i_palette : option string;
  i_width : option Z;
  i_height : option Z;
  i_style : option string;
  i_animated : option bool;
  i_font : option string;
  i_font_path : option string;
  i_effects : option (list string)
}.

(** The body of the loop of [batch].  [path] is the local variable of that
    name: it keeps its value from one iteration to the next. *)
Definition batch_item (outdir : string) (total : nat) (idx : nat) (it : item)
           (path : option string) : M (option string) :=
  let kind := default "svg" (i_kind it) in
  text <- lift (match i_text it with
                | Some t => Ok t
                | None => Err (KeyError "text")
                end) ;;
  let subtitle := i_subtitle it in
  let palette := default "stealth" (i_palette it) in
  let width := default 1200 (i_width it) in
  let height := default 300 (i_height it) in
  let name := safe_name text in
  echo ("[" +:+ Py.str_of_int (Z.of_nat idx) +:+ "/" +:+ Py.str_of_int (Z.of_nat total)
        +:+ "] Generating " +:+ kind +:+ ": " +:+ text) ;;;
  path <-
    (if String.eqb kind "ascii" then
       let path := Path.join outdir (name +:+ ".txt") in
       match ascii_banner text (default "standard" (i_font it)) false "cyan" with
       | Ok banner => write_file path (TextFile banner) ;;; ret (Some path)
       | Err e => write_file path (TextFile "") ;;; raise e
       end
     else if String.eqb kind "svg" then
       let path := Path.join outdir (name +:+ ".svg") in
       pal <- lift (get_palette palette) ;;
       write_svg path text subtitle width height (Some pal)
         (default "wave" (i_style it)) (default false (i_animated it)) ;;;
       ret (Some path)
     else if String.eqb kind "png" then
       let path := Path.join outdir (name +:+ ".png") in
       pal <- lift (get_palette palette) ;;
       render_png_text path text subtitle width height (Some pal)
         (i_font_path it) (Some (default [] (i_effects it))) ;;;
       ret (Some path)
     else ret path) ;;
  match path with
  | Some p => echo ("  ✓ " +:+ p) ;;; ret path
  | None => raise (UnboundLocalError "path")
  end.

(** [for idx, item in enumerate(data, 1): ...] *)
Fixpoint batch_loop (outdir : string) (total : nat) (idx : nat) (data : list item)
         (path : option string) : M unit :=
  match data with
  | [] => ret tt
  | it :: rest =>
      path' <- batch_item outdir total idx it path ;;
      batch_loop outdir total (S idx) rest path'
  end.

(** [batch]: [data] is what the JSON or YAML parser returned for [spec]. *)
Definition batch (spec : string) (data : list item) (outdir : string) : M unit :=
  (if (Py.endswith spec ".yaml" || Py.endswith spec ".yml") && negb has_yaml
   then raise (RuntimeError "PyYAML required for YAML. Install: pip install pyyaml")
   else ret tt) ;;;
  ensure_dir outdir ;;;
  batch_loop outdir (List.length data) 1 data None ;;;
  echo (nl +:+ "Batch complete: " +:+ Py.str_of_int (Z.of_nat (List.length data))
        +:+ " banners in " +:+ outdir).
End Commands.

(** ** Vocabulary of the statements *)

(** [f] applied to a returned value. *)
Definition rmap {A B} (f : A -> B) (r : result A) : result B :=
  match r with
  | Ok a => Ok (f a)
  | Err e => Err e
  end.

(** Number of positions of [s] at which [pat] starts. *)
Fixpoint occurrences (pat s : string) : nat :=
  match s with
  | EmptyString => if String.prefix pat EmptyString then 1%nat else 0%nat
  | String _ s' => ((if String.prefix pat s then 1 else 0) + occurrences pat s')%nat
  end.

(** [pat in s] *)
Definition contains (pat s : string) : bool := negb (occurrences pat s =? 0)%nat.

(** Some ANSI color sequence starts somewhere in [s]. *)
Fixpoint contains_ansi (s : string) : bool :=
  match s with
  | EmptyString => false
  | String _ s' => match match_ansi s with Some _ => true | None => contains_ansi s' end
  end.

(** A palette with exactly the six roles, each a [#rrggbb] color. *)
Definition palette_ok (p : palette) : bool :=
  forallb (fun field => match p !! field with
                        | Some c => is_hex_color c
                        | None => false
                        end) palette_fields
  && (size p =? 6)%nat.

(** The first [n] triples (x, y, r) that a generator in state [g] yields
    for a canvas: the pseudo-random sequence the particles are drawn from. *)
Fixpoint particle_draws `{R : Random} (n : nat) (width height : Z) (g : rng)
  : result (list (Z * Z * Z)) :=
  match n with
  | O => Ok []
  | S k =>
      match random_randint 0 width g with
      | Err e => Err e
      | Ok (x, g1) =>
          match random_randint 0 height g1 with
          | Err e => Err e
          | Ok (y, g2) =>
              match random_randint 2 8 g2 with
              | Err e => Err e
              | Ok (r, g3) =>
                  match particle_draws k width height g3 with
                  | Err e => Err e
                  | Ok rest => Ok ((x, y, r) :: rest)
                  end
              end
          end
      end
  end.

Definition in_canvas (width height : Z) (c : Z * Z * Z) : Prop :=
  let '(x, y, r) := c in 0 <= x <= width /\ 0 <= y <= height /\ 2 <= r <= 8.

(** The tagline lookup as the specification words it: the first table key
    that occurs in the lowercased requested text selects the list. *)
Definition taglines_by_substring (text : string) (n : Z) : list string :=
  let lowered := Py.lower text in
  let hit := find (fun kv => contains (fst kv) lowered)
                  (filter (fun kv => negb (String.eqb (fst kv) "default"))
                          (map_to_list fallbacks)) in
  Py.slice_to n
    (match hit with
     | Some kv => snd kv
     | None => default [] (fallbacks !! "default")
     end).

(** What follows the title element in a document: the subtitle slot is the
    last thing the templates fill in. *)
Definition svg_tail (animated : bool) (sub : string) : string :=
  if animated
  then lines ["  </text>"; "  " +:+ sub; "</svg>"]
  else lines ["  <!-- subtitle -->"; "  " +:+ sub; "  "; "</svg>"].

(** The font size of the subtitle as the specification words it:
    [0.075 * height], not truncated. *)
Definition spec_subtitle_font_size (height : Z) : Py.float :=
  Py.fmul (Py.lit 75 1000) (Py.float_of_int_raw height).

(** The title element of the request of the end-to-end example. *)
Definition test_title_element : string :=
  "<text x=" +:+ q "600" +:+ " y=" +:+ q "165" +:+ " font-family=" +:+ q "Orbitron,Inter,Arial"
  +:+ " font-size=" +:+ q "60" +:+ " font-weight=" +:+ q "700" +:+ " fill=" +:+ q "#ffffff"
  +:+ " text-anchor=" +:+ q "middle" +:+ " >Test</text>".

(** The two lists of the offline tagline table. *)
Definition bannerforge_taglines : list string :=
  ["Forge Your Visual Identity"; "Create. Design. Deploy.";
   "Professional Banners Made Simple"].

Definition generic_taglines : list string :=
  ["See What Others Miss"; "Innovation Through Design"; "Crafted with Precision"].

(** The hexadecimal digits. *)
Definition hex_chars : list ascii := list_ascii_of_string "0123456789abcdefABCDEF".

(** A two-digit field reads as [16 * hi + lo]. *)
Definition field_reads (a b : ascii) : bool :=
  match PyInt.int16 (String a (String b EmptyString)), hex_val a, hex_val b with
  | Ok v, Some x, Some y => (v =? 16 * x + y) && (0 <=? v) && (v <=? 255)
  | _, _, _ => false
  end.

(** Every role of a palette converts without raising. *)
Definition palette_converts (p : palette) : bool :=
  forallb (fun field => match p !! field with
                        | Some c => is_hex_color c && is_ok (_hex_to_rgb c)
                        | None => false
                        end) palette_fields.

(** The reset code that ends a colorized banner. *)
Definition reset_code : string := String ESC "[0m".

(** The codes of the color table. *)
Definition color_codes : list string :=
  [String ESC "[91m"; String ESC "[92m"; String ESC "[93m"; String ESC "[94m";
   String ESC "[95m"; String ESC "[96m"; String ESC "[97m"; String ESC "[0m"].

(** A command that, when it returns, has written exactly [k] files. *)
Definition adds_writes `{R : Random} `{P : Pillow} {A} (k : nat) (m : M A) : Prop :=
  forall w : world,
    match m w with
    | (Ok _, w') => List.length (w_writes w') = (List.length (w_writes w) + k)%nat
    | (Err _, _) => True
    end.

(** Kinds for which [batch] has a branch. *)
Definition known_kind (it : item) : bool :=
  let kind := default "svg" (i_kind it) in
  String.eqb kind "ascii" || String.eqb kind "svg" || String.eqb kind "png".

(** ** Reference collaborators

    Small executable stand-ins, used to run the commands on concrete
    requests. *)

(** CPython's generator: MT19937 as [_randommodule.c] drives it. *)
Module Mersenne.

Definition N : nat := 624.
Definition M : nat := 397.
Definition MATRIX_A : Z := 2567483615.
Definition UPPER_MASK : Z := 2147483648.
Definition LOWER_MASK : Z := 2147483647.

Definition u32 (z : Z) : Z := Z.land z 4294967295.

(** [mt[i]] *)
Definition word (mt : list Z) (i : nat) : Z := default 0 (mt !! i).

Definition mix (prev : Z) : Z := Z.lxor prev (Z.shiftr prev 30).

Fixpoint init_genrand_from (k : nat) (i : Z) (prev : Z) : list Z :=
  match k with
  | O => []
  | S k' =>
      let v := u32 (1812433253 * mix prev + i) in
      v :: init_genrand_from k' (i + 1) v
  end.

Definition init_genrand (s : Z) : list Z :=
  u32 s :: init_genrand_from (N - 1) 1 (u32 s).

(** The wrap of the index [i] shared by both loops of [init_by_array]. *)
Definition wrap (mt : list Z) (i : nat) : list Z * nat :=
  if (N <=? i)%nat then (<[0%nat := word mt (N - 1)]> mt, 1%nat) else (mt, i).

Fixpoint key_loop (k : nat) (key : list Z) (mt : list Z) (i j : nat) : list Z * nat :=
  match k with
  | O => (mt, i)
  | S k' =>
      let v := u32 (Z.lxor (word mt i) (mix (word mt (i - 1)) * 1664525)
                    + word key j + Z.of_nat j) in
      let '(mt, i) := wrap (<[i := v]> mt) (S i) in
      let j := if (List.length key <=? S j)%nat then 0%nat else S j in
      key_loop k' key mt i j
  end.

Fixpoint final_loop (k : nat) (mt : list Z) (i : nat) : list Z :=
  match k with
  | O => mt
  | S k' =>
      let v := u32 (Z.lxor (word mt i) (mix (word mt (i - 1)) * 1566083941)
                    - Z.of_nat i) in
      let '(mt, i) := wrap (<[i := v]> mt) (S i) in
      final_loop k' mt i
  end.

Definition init_by_array (key : list Z) : list Z :=
  let mt := init_genrand 19650218 in
  let '(mt, i) := key_loop (Nat.max N (List.length key)) key mt 1 0 in
  <[0%nat := 2147483648]> (final_loop (N - 1) mt i).

(** The 32-bit words of a non-negative integer, least significant first. *)
Fixpoint key_words (fuel : nat) (n : Z) : list Z :=
  match fuel with
  | O => []
  | S f => if n <? 4294967296 then [n] else u32 n :: key_words f (Z.shiftr n 32)
  end.

Definition state : Type := list Z * nat.

(** [random.seed(n)] for an int [n]. *)
Definition seed (n : Z) : state :=
  let n := Z.abs n in
  (init_by_array (key_words (S (Z.to_nat (Z.log2 n))) n), N).

Definition twist_word (cur next far : Z) : Z :=
  let y := Z.lor (Z.land cur UPPER_MASK) (Z.land next LOWER_MASK) in
  Z.lxor (Z.lxor far (Z.shiftr y 1)) (if Z.odd y then MATRIX_A else 0).

Fixpoint twist (k : nat) (kk : nat) (mt : list Z) : list Z :=
  match k with
  | O => mt
  | S k' =>
      let v := twist_word (word mt kk) (word mt ((kk + 1) mod N))
                          (word mt ((kk + M) mod N)) in
      twist k' (S kk) (<[kk := v]> mt)
  end.

Definition temper (y : Z) : Z :=
  let y := Z.lxor y (Z.shiftr y 11) in
  let y := Z.lxor y (Z.land (Z.shiftl y 7) 2636928640) in
  let y := Z.lxor y (Z.land (Z.shiftl y 15) 4022730752) in
  Z.lxor y (Z.shiftr y 18).

Definition genrand_uint32 (st : state) : Z * state :=
  let '(mt, index) := st in
  let '(mt, index) := if (N <=? index)%nat then (twist N 0 mt, 0%nat) else (mt, index) in
  (temper (word mt index), (mt, S index)).

(** [getrandbits(k)] for [k > 0]: whole words first, least significant
    first, the last one cut to the bits that remain. *)
Fixpoint getrandbits_words (words : nat) (k : Z) (st : state) : Z * state :=
  match words with
  | O => (0, st)
  | S w =>
      let '(r, st) := genrand_uint32 st in
      let r := if k <? 32 then Z.shiftr r (32 - k) else r in
      let '(rest, st) := getrandbits_words w (k - 32) st in
      (r + Z.shiftl rest 32, st)
  end.

Definition getrandbits (k : Z) (st : state) : Z * state :=
  if k <=? 32 then
    let '(r, st) := genrand_uint32 st in (Z.shiftr r (32 - k), st)
  else getrandbits_words (Z.to_nat ((k - 1) / 32 + 1)) k st.

(** [_randbelow(n)]: draw [n.bit_length()] bits until the value is below
    [n]; [fuel] bounds the number of draws. *)
Fixpoint randbelow (fuel : nat) (n : Z) (st : state) : option (Z * state) :=
  match fuel with
  | O => None
  | S f =>
      let '(r, st) := getrandbits (Z.log2 n + 1) st in
      if r <? n then Some (r, st) else randbelow f n st
  end.

(** [random.randint(a, b)] *)
Definition randint (a b : Z) (st : state) : result (Z * state) :=
  let width := b + 1 - a in
  if 0 <? width then
    match randbelow 1000 width st with
    | Some (r, st) => Ok (a + r, st)
    | None => Err (RuntimeError "no draw below the bound")
    end
  else Err (ValueError "empty range for randrange()").

End Mersenne.

(** CPython's [random] module behind the interface. *)
Definition mt19937 : Random := {|
  rng := Mersenne.state;
  random_seed := Mersenne.seed;
  random_randint := Mersenne.randint
|}.

Module Ref.

(** A linear congruential generator behind the [random] interface. *)
Definition lcg_next (g : Z) : Z := (1103515245 * g + 12345) mod 2147483648.

Definition lcg : Random := {|
  rng := Z;
  random_seed := fun n => n;
  random_randint := fun a b g =>
    if b <? a then Err (ValueError "empty range for randrange()")
    else Ok (a + lcg_next g mod (b - a + 1), lcg_next g)
|}.

(** Pillow as a recorder: an image is the list of drawing commands. *)
Inductive draw_cmd : Type :=
| New (width height : Z) (bg : string)
| PutPixel (xy : Z * Z) (rgba : Z * Z * Z * Z)
| Text (xy : Py.float * Py.float) (text : string) (fnt : string * Z) (f : fill)
| Rectangle (p0 p1 : Z * Z) (f : fill)
| Blur (radius : Z).

Definition recorder : Pillow := {|
  image := list draw_cmd;
  font := string * Z;
  Image_new := fun w h bg => Ok [New w h bg];
  putpixel := fun img xy c => Ok (img ++ [PutPixel xy c]);
  textbbox := fun _ s f => Ok (0, 0, Z.of_nat (String.length s) * (snd f / 2), snd f);
  draw_text := fun img xy s f fl => Ok (img ++ [Text xy s f fl]);
  draw_rectangle := fun img p0 p1 fl => Ok (img ++ [Rectangle p0 p1 fl]);
  GaussianBlur := fun r img => Ok (img ++ [Blur r]);
  truetype := fun path size => Ok (path, size);
  load_default := ("default", 10)
|}.

(** The stage a recorded command belongs to; a text drawn with a color
    string is named by that color. *)
Definition stage_label (c : draw_cmd) : string :=
  match c with
  | New _ _ _ => "canvas"
  | PutPixel _ _ => "gradient"
  | Text _ _ _ (FillRGBA _ _ _ 128) => "shadow"
  | Text _ _ _ (FillRGBA _ _ _ _) => "glow"
  | Text _ _ _ (FillColor color) => color
  | Rectangle _ _ _ => "stripe"
  | Blur _ => "blur"
  end.

(** A figlet that prints the text on one line. *)
Definition plain_figlet : Figlet := {|
  renderText := fun _ text => Ok (text +:+ nl)
|}.

(** A host with every optional library installed and no API key. *)
Definition full_host : Host := {|
  isfile := fun _ => false;
  utcnow_stamp := "20250101_000000";
  env_GEMINI_API_KEY := None;
  has_pyfiglet := true;
  has_Pillow := true;
  has_yaml := true
|}.

(** The same host on which the import of Pillow failed. *)
Definition host_without_pillow : Host := {|
  isfile := fun _ => false;
  utcnow_stamp := "20250101_000000";
  env_GEMINI_API_KEY := None;
  has_pyfiglet := true;
  has_Pillow := false;
  has_yaml := true
|}.

Definition world0 : @world lcg recorder := @World lcg recorder 0 [] [].

(** A batch record with only [kind] and [text] given. *)
Definition record (kind : option string) (text : option string) : item :=
  Item kind text None None None None None None None None None.

(** A batch of three records, the second one without [text]. *)
Definition batch_with_gap : list item :=
  [record (Some "svg") (Some "Alpha"); record (Some "svg") None;
   record None (Some "Beta")].

(** The "stealth" palette and the document of the request
    text="Test", subtitle="Sub", 1200x300, style "wave". *)
Definition stealth_palette : palette :=
  mk_palette "#0a0f14" "#00ffff" "#ffffff" "#9aa4ad" "#00ffff" "#0088ff".

Definition subtitled_document : string :=
  Eval vm_compute in
    match fst (@svg_document lcg recorder "Test" (Some "Sub") 1200 300
                 (Some stealth_palette) "wave" false world0) with
    | Ok doc => doc
    | Err _ => EmptyString
    end.

(** The subtitle element of that document. *)
Definition subtitled_element : string :=
  "<text x=" +:+ q "600" +:+ " y=" +:+ q "234" +:+ " font-family=" +:+ q "Inter,Arial,Helvetica"
  +:+ " font-size=" +:+ q "22" +:+ " fill=" +:+ q "#9aa4ad"
  +:+ " text-anchor=" +:+ q "middle" +:+ ">Sub</text>".

(** The calls recorded for text="Test", subtitle="Sub", 2x1, "stealth",
    with all five effects requested in the reverse of the pipeline order. *)
Definition traced_image : list draw_cmd :=
  Eval vm_compute in
    match @render_png_image recorder full_host "Test" (Some "Sub") 2 1
            (Some stealth_palette) None
            (Some ["blur"; "stripe"; "glow"; "shadow"; "gradient"]) with
    | Ok img => img
    | Err _ => []
    end.

End Ref.

(** * The rest of the commands *)

(** ** Font listing *)

(** [pyfiglet.FigletFont.getFonts()] *)
Class FigletFonts := {
  getFonts : list string
}.

(** [list_figlet_fonts]: no fonts when pyfiglet is missing. *)
Definition list_figlet_fonts `{H : Host} `{FF : FigletFonts} : list string :=
  if has_pyfiglet then getFonts else [].

Module PyList.
(** Insertion of [s] into a list ordered by code points. *)
Fixpoint insert (s : string) (l : list string) : list string :=
  match l with
  | [] => [s]
  | h :: t => if String.leb s h then s :: l else h :: insert s t
  end.

(** [sorted(l)] on strings. *)
Definition sorted (l : list string) : list string := fold_right insert [] l.
End PyList.

Module Cli.
Section Cli.
Context `{R : Random} `{P : Pillow} `{F : Figlet} `{FF : FigletFonts} `{H : Host}.
Local Open Scope cmd_scope.

(** [for line in ls: click.echo(line)] *)
Fixpoint echo_all (ls : list string) : M unit :=
  match ls with
  | [] => ret tt
  | l :: rest => echo l ;;; echo_all rest
  end.

(** The [ascii] command. *)
Definition ascii (text font color : string) (colorize : bool) (out : option string)
           (list_fonts : bool) : M unit :=
  if list_fonts then
    let fonts := list_figlet_fonts in
    echo ("Available fonts (" +:+ Py.str_of_int (Z.of_nat (List.length fonts)) +:+ "):") ;;;
    echo_all (map (fun f => "  - " +:+ f) (firstn 50 (PyList.sorted fonts))) ;;;
    echo (nl +:+ "... and more. Use --font <name> to select.")
  else
    banner <- lift (ascii_banner text font colorize color) ;;
    if Py.truthy out then
      let clean_banner := strip_ansi banner in
      write_file (default "" out) (TextFile clean_banner) ;;;
      echo ("✓ Wrote ASCII banner to " +:+ default "" out)
    else echo banner.

(** The [quick] command; [type] is one of ascii, svg, png, all. *)
Definition quick (text type : string) : M unit :=
  let name := safe_name text in
  (if String.eqb type "ascii" || String.eqb type "all" then
     banner <- lift (ascii_banner text "standard" true "cyan") ;;
     echo banner ;;;
     if String.eqb type "all"
     then write_file (name +:+ "_quick.txt") (TextFile (strip_ansi banner))
     else ret tt
   else ret tt) ;;;
  (if String.eqb type "svg" || String.eqb type "all" then
     let filename := name +:+ "_quick.svg" in
     pal <- lift (get_palette "stealth") ;;
     write_svg filename text None 1200 300 (Some pal) "wave" false ;;;
     echo ("✓ SVG: " +:+ filename)
   else ret tt) ;;;
  (if String.eqb type "png" || String.eqb type "all" then
     let filename := name +:+ "_quick.png" in
     pal <- lift (get_palette "stealth") ;;
     render_png_text filename text None 1200 300 (Some pal) None (Some ["shadow"]) ;;;
     echo ("✓ PNG: " +:+ filename)
   else ret tt).


End Cli.
End Cli.

(** ** Vocabulary of the further statements *)

(** A command that neither writes a file nor echoes a line. *)
Definition quiet `{R : Random} `{P : Pillow} {A} (m : M A) : Prop :=
  forall w : world,
    w_writes (snd (m w)) = w_writes w /\ w_stdout (snd (m w)) = w_stdout w.

(** [n] leading hash signs. *)
Fixpoint hashes (n : nat) : string :=
  match n with
  | O => EmptyString
  | S k => String "#" (hashes k)
  end.

(** The effect names the compositor knows. *)
Definition known_effects : list string := ["shadow"; "glow"; "gradient"; "stripe"; "blur"].

Definition is_known_effect (e : string) : bool := existsb (String.eqb e) known_effects.

(** The styles that have an accent generator of their own. *)
Definition accent_styles : list string := ["wave"; "geometric"; "grid"; "particles"].

(** A template that names a built-in palette, an accent style and known
    effects only. *)
Definition template_ok (t : template) : bool :=
  match PALETTES !! t_palette t with Some _ => true | None => false end
  && existsb (String.eqb (t_style t)) accent_styles
  && forallb is_known_effect (t_effects t).

(** A color sequence wrapped around another one. *)
Definition nested_code : string :=
  String ESC "[" +:+ String ESC "[0m" +:+ "0m".

(** The line echoed before a record of a batch is handled. *)
Definition progress_line (total idx : nat) (it : item) (text : string) : string :=
  "[" +:+ Py.str_of_int (Z.of_nat idx) +:+ "/" +:+ Py.str_of_int (Z.of_nat total)
  +:+ "] Generating " +:+ default "svg" (i_kind it) +:+ ": " +:+ text.

(** A command that writes to [paths], in this order, and to nothing else:
    all of them when it returns, the first ones when it raises. *)
Definition writes_to `{R : Random} `{P : Pillow} {A} (paths : list string) (m : M A)
  : Prop :=
  forall w : world,
    exists added,
      w_writes (snd (m w)) = w_writes w ++ added
      /\ (exists rest, paths = map fst added ++ rest)
      /\ (is_ok (fst (m w)) = true -> map fst added = paths).

(** The lists a tagline request can be cut from. *)
Definition canned_taglines : list string :=
  ["Creative Tagline 1"; "Creative Tagline 2"; "Creative Tagline 3"].




Module Ref2.

(** A host on which every path is a file. *)
Definition host_with_files : Host := {|
  isfile := fun _ => true;
  utcnow_stamp := "20250101_000000";
  env_GEMINI_API_KEY := None;
  has_pyfiglet := true;
  has_Pillow := true;
  has_yaml := true
|}.

(** A host without pyfiglet. *)
Definition host_without_pyfiglet : Host := {|
  isfile := fun _ => false;
  utcnow_stamp := "20250101_000000";
  env_GEMINI_API_KEY := None;
  has_pyfiglet := false;
  has_Pillow := true;
  has_yaml := true
|}.

(** A host with an API key in the environment. *)
Definition host_with_key : Host := {|
  isfile := fun _ => false;
  utcnow_stamp := "20250101_000000";
  env_GEMINI_API_KEY := Some "secret";
  has_pyfiglet := true;
  has_Pillow := true;
  has_yaml := true
|}.

(** A host on which the Liberation font is the only file. *)
Definition host_with_liberation : Host := {|
  isfile := String.eqb "/usr/share/fonts/truetype/liberation/LiberationSans-Bold.ttf";
  utcnow_stamp := "20250101_000000";
  env_GEMINI_API_KEY := None;
  has_pyfiglet := true;
  has_Pillow := true;
  has_yaml := true
|}.

Definition some_fonts : FigletFonts := {| getFonts := ["slant"; "banner"; "standard"] |}.

End Ref2.

(** * Verified properties *)

(** ** Palette registry *)

(** A boolean check on every entry of a table holds for every lookup. *)
Lemma table_check {V} (check : V -> bool) (table : gmap string V) :
  forallb (fun kv => check (snd kv)) (map_to_list table) = true ->
  map_Forall (fun _ v => check v = true) table.
Proof.
  intros Hall k v Hkv. rewrite forallb_forall in Hall.
  apply (Hall (k, v)). apply list_elem_of_In. now apply elem_of_map_to_list.
Qed.

Lemma PALETTES_all_ok : map_Forall (fun _ p => palette_ok p = true) PALETTES.
Proof. apply table_check. vm_compute. reflexivity. Qed.

(** Closes [is_Some (table !! key)] or [exists v, table !! key = Some v]
    for a key that is in a closed table. *)
Ltac key_present :=
  match goal with
  | |- is_Some ?l =>
      let v := eval vm_compute in l in
      match v with Some ?x => exists x; vm_compute; reflexivity end
  | |- exists v, ?l = Some v =>
      let v := eval vm_compute in l in
      match v with Some ?x => exists x; vm_compute; reflexivity end
  end.

Lemma PALETTES_stealth : exists p, PALETTES !! "stealth" = Some p.
Proof. key_present. Qed.

Lemma palette_ok_field (p : palette) (field : string) :
  palette_ok p = true -> In field palette_fields ->
  exists c, p !! field = Some c /\ is_hex_color c = true.
Proof.
  unfold palette_ok. intros Hok Hin.
  apply andb_prop in Hok as [Hall _].
  rewrite forallb_forall in Hall. specialize (Hall field Hin).
  destruct (p !! field) as [c|]; [eauto | discriminate].
Qed.

(** C5. Palette lookup never fails: a recognized name resolves to its own
    palette, which has exactly the six roles, each a well-formed [#rrggbb]
    color; an unrecognized name resolves to the palette stored under
    "stealth", and no lookup raises. *)
Theorem get_palette_never_fails (name : string) :
  (is_Some (PALETTES !! name) ->
   exists p, PALETTES !! name = Some p /\ get_palette name = Ok p
             /\ palette_ok p = true
             /\ forall field, In field palette_fields ->
                  exists c, p !! field = Some c /\ is_hex_color c = true)
  /\ (PALETTES !! name = None ->
      exists p, PALETTES !! "stealth" = Some p /\ get_palette name = Ok p
                /\ palette_ok p = true).
Proof.
  destruct PALETTES_stealth as [st Hst].
  assert (Hget : get_palette name = Ok (default st (PALETTES !! name))).
  { unfold get_palette, getitem. rewrite Hst. reflexivity. }
  split.
  - intros [p Hp]. exists p. rewrite Hget, Hp. simpl.
    pose proof (PALETTES_all_ok name p Hp) as Hok.
    repeat split; auto. intros field Hin. now apply palette_ok_field.
  - intros Hnone. exists st. rewrite Hget, Hnone. simpl.
    repeat split; auto. exact (PALETTES_all_ok _ _ Hst).
Qed.

Lemma get_palette_never_fails_witness :
  (exists p, PALETTES !! "ocean" = Some p /\ get_palette "ocean" = Ok p
             /\ palette_ok p = true
             /\ forall field, In field palette_fields ->
                  exists c, p !! field = Some c /\ is_hex_color c = true)
  /\ (exists p, PALETTES !! "stealth" = Some p /\ get_palette "no-such-palette" = Ok p
                /\ palette_ok p = true).
Proof.
  split.
  - apply (proj1 (get_palette_never_fails "ocean")). key_present.
  - apply (proj2 (get_palette_never_fails "no-such-palette")). vm_compute. reflexivity.
Defined.

(** ** Hex colors *)

Lemma is_hex_in (c : ascii) : is_hex c = true -> In c hex_chars.
Proof.
  destruct c as [[] [] [] [] [] [] [] []]; vm_compute; intros H;
    first [discriminate H | tauto].
Qed.

Lemma field_reads_all :
  forallb (fun a => forallb (field_reads a) hex_chars) hex_chars = true.
Proof. vm_compute. reflexivity. Qed.

Lemma int16_two_digits (a b : ascii) :
  is_hex a = true -> is_hex b = true ->
  exists v, PyInt.int16 (String a (String b EmptyString)) = Ok v /\ 0 <= v <= 255.
Proof.
  intros Ha Hb. apply is_hex_in in Ha. apply is_hex_in in Hb.
  pose proof field_reads_all as Hall.
  rewrite forallb_forall in Hall. specialize (Hall a Ha).
  rewrite forallb_forall in Hall. specialize (Hall b Hb).
  unfold field_reads in Hall.
  destruct (PyInt.int16 _) as [v|]; [| discriminate].
  destruct (hex_val a); [| discriminate]. destruct (hex_val b); [| discriminate].
  exists v. split; [reflexivity | lia].
Qed.

Lemma is_hex_not_hash (c : ascii) : is_hex c = true -> Ascii.eqb c "#" = false.
Proof.
  intros H. apply is_hex_in in H. vm_compute in H.
  repeat (destruct H as [<- | H]; [reflexivity |]). contradiction.
Qed.

Lemma hex_to_rgb_hex_color (s : string) :
  is_hex_color s = true ->
  exists r g b, _hex_to_rgb s = Ok (r, g, b)
                /\ 0 <= r <= 255 /\ 0 <= g <= 255 /\ 0 <= b <= 255.
Proof.
  unfold is_hex_color. intros H.
  destruct s as [| h s]; [discriminate |].
  destruct (Ascii.eqb_spec h "#") as [-> | Hh];
    [| destruct h as [[] [] [] [] [] [] [] []]; try discriminate; congruence].
  destruct s as [| c1 [| c2 [| c3 [| c4 [| c5 [| c6 [| ? ?]]]]]]]; try discriminate.
  repeat (apply andb_prop in H as [H ?]).
  destruct (int16_two_digits c1 c2) as (r & Hr & ?); auto.
  destruct (int16_two_digits c3 c4) as (g & Hg & ?); auto.
  destruct (int16_two_digits c5 c6) as (b & Hb & ?); auto.
  exists r, g, b. split; [| auto].
  unfold _hex_to_rgb. cbn [Py.lstrip_char].
  change (Ascii.eqb "#" "#") with true. cbn iota.
  cbn [Py.lstrip_char]. rewrite (is_hex_not_hash c1) by assumption.
  cbn [Py.drop Py.take]. rewrite Hr, Hg, Hb. reflexivity.
Qed.

(** C10. A string made of [#] and six hexadecimal digits converts to a
    triple of integers in 0..255; the table holds nine palettes, every color
    of which has that form and converts without raising, the accent read by
    the gradient, glow and stripe effects included. *)
Theorem hex_to_rgb_builtin_palettes :
  (forall s, is_hex_color s = true ->
     exists r g b, _hex_to_rgb s = Ok (r, g, b)
                   /\ 0 <= r <= 255 /\ 0 <= g <= 255 /\ 0 <= b <= 255)
  /\ size PALETTES = 9%nat
  /\ map_Forall (fun _ p => palette_converts p = true) PALETTES
  /\ (forall name p, PALETTES !! name = Some p ->
        exists accent r g b, p !! "accent" = Some accent
                             /\ _hex_to_rgb accent = Ok (r, g, b)).
Proof.
  split; [exact hex_to_rgb_hex_color |].
  split; [vm_compute; reflexivity |].
  split.
  - apply table_check. vm_compute. reflexivity.
  - intros name p Hp.
    pose proof (PALETTES_all_ok name p Hp) as Hok.
    destruct (palette_ok_field p "accent" Hok) as (c & Hc & Hhex).
    { vm_compute. tauto. }
    destruct (hex_to_rgb_hex_color c Hhex) as (r & g & b & Hrgb & _).
    exists c, r, g, b. auto.
Qed.

Lemma hex_to_rgb_builtin_palettes_witness :
  (exists r g b, _hex_to_rgb "#ff8a3b" = Ok (r, g, b)
                 /\ 0 <= r <= 255 /\ 0 <= g <= 255 /\ 0 <= b <= 255)
  /\ (exists accent r g b, mk_palette "#0f0a07" "#ff8a3b" "#f5e9e3" "#c9b5a3" "#ff8a3b" "#ff4d4d"
                             !! "accent" = Some accent
                           /\ _hex_to_rgb accent = Ok (r, g, b)).
Proof.
  split.
  - apply (proj1 hex_to_rgb_builtin_palettes "#ff8a3b"). reflexivity.
  - apply (proj2 (proj2 (proj2 hex_to_rgb_builtin_palettes)) "ember"). reflexivity.
Defined.

(** ** ANSI styling *)

Lemma match_params_before_esc (s t : string) :
  match_params s = None -> match_params (s +:+ String ESC t) = None.
Proof.
  induction s as [| c s IH].
  - reflexivity.
  - simpl. destruct (is_param c); [exact IH |].
    destruct (Ascii.eqb c "m"); [discriminate | reflexivity].
Qed.

(** A match cannot run over an escape character that follows the text. *)
Lemma match_ansi_before_esc (c : ascii) (s t : string) :
  match_ansi (String c s) = None ->
  match_ansi (String c s +:+ String ESC t) = None.
Proof.
  intros H.
  destruct s as [| b [| p s]].
  - destruct t; simpl; [reflexivity |].
    destruct (Ascii.eqb c ESC); reflexivity.
  - simpl. change (is_param ESC) with false.
    now rewrite andb_false_r.
  - revert H. simpl.
    destruct (Ascii.eqb c ESC && Ascii.eqb b "[" && is_param p); [| reflexivity].
    apply match_params_before_esc.
Qed.

Lemma length_append (s t : string) :
  String.length (s +:+ t) = (String.length s + String.length t)%nat.
Proof. induction s as [| c s IH]; simpl; [reflexivity | now f_equal]. Qed.

(** Text without a color sequence passes through [re.sub] unchanged, up to
    the escape character that follows it. *)
Lemma sub_ansi_clean (s t : string) :
  forall fuel,
    contains_ansi s = false ->
    (String.length s <= fuel)%nat ->
    sub_ansi fuel (s +:+ String ESC t)
    = s +:+ sub_ansi (fuel - String.length s) (String ESC t).
Proof.
  induction s as [| c s IH]; intros fuel Hclean Hfuel.
  - cbn. now rewrite Nat.sub_0_r.
  - cbn [contains_ansi] in Hclean.
    destruct (match_ansi (String c s)) eqn:Hm; [discriminate Hclean |].
    destruct fuel as [| fuel]; [cbn in Hfuel; lia |].
    cbn [sub_ansi]. rewrite (match_ansi_before_esc c s t Hm).
    change (String c s +:+ String ESC t) with (String c (s +:+ String ESC t)).
    change (S fuel - String.length (String c s))%nat with (fuel - String.length s)%nat.
    change (String c s +:+ ?x) with (String c (s +:+ x)).
    f_equal. apply IH; [assumption | cbn in Hfuel; lia].
Qed.

Lemma colors_are_codes :
  map_Forall (fun _ code => existsb (String.eqb code) color_codes = true) colors.
Proof. apply table_check. vm_compute. reflexivity. Qed.

Lemma color_code_matches (code rest : string) :
  In code color_codes -> match_ansi (code +:+ rest) = Some rest.
Proof.
  intros Hin. cbn in Hin.
  repeat (destruct Hin as [<- | Hin]; [reflexivity |]). contradiction.
Qed.

Lemma colorized_shape (color banner : string) :
  exists code, In code color_codes
               /\ colorized color banner = Ok (code +:+ banner +:+ reset_code).
Proof.
  unfold colorized, getitem.
  assert (Hcyan : colors !! "cyan" = Some (String ESC "[96m")) by (vm_compute; reflexivity).
  assert (Hreset : colors !! "reset" = Some reset_code) by (vm_compute; reflexivity).
  rewrite Hcyan, Hreset. cbn [rbind].
  destruct (colors !! color) as [code |] eqn:Hc; cbn [default].
  - exists code. split; [| reflexivity].
    pose proof (colors_are_codes color code Hc) as Hin. cbn beta in Hin.
    apply existsb_exists in Hin as (x & Hx & Heq).
    apply String.eqb_eq in Heq. now subst.
  - exists (String ESC "[96m"). split; [cbn; tauto | reflexivity].
Qed.

Lemma append_empty (s : string) : s +:+ EmptyString = s.
Proof.
  induction s as [| c s IH]; [reflexivity |].
  change (String c (s +:+ EmptyString) = String c s). now f_equal.
Qed.

Lemma sub_ansi_empty (fuel : nat) : sub_ansi fuel EmptyString = EmptyString.
Proof. destruct fuel; reflexivity. Qed.

Lemma sub_ansi_banner_reset (banner : string) (fuel : nat) :
  contains_ansi banner = false ->
  (String.length banner + 4 <= fuel)%nat ->
  sub_ansi fuel (banner +:+ reset_code) = banner.
Proof.
  intros Hclean Hfuel. unfold reset_code.
  rewrite sub_ansi_clean by (assumption || lia).
  destruct (fuel - String.length banner)%nat as [| k] eqn:Hk; [exfalso; lia |].
  cbn [sub_ansi]. change (match_ansi (String ESC "[0m")) with (Some EmptyString).
  cbn iota. rewrite sub_ansi_empty. apply append_empty.
Qed.

Lemma strip_ansi_colorized (color banner colored : string) :
  contains_ansi banner = false ->
  colorized color banner = Ok colored ->
  strip_ansi colored = banner.
Proof.
  intros Hclean Hcol.
  destruct (colorized_shape color banner) as (code & Hin & Heq).
  rewrite Heq in Hcol. injection Hcol as <-.
  unfold strip_ansi.
  assert (Hlen : exists n, String.length code = S n).
  { cbn in Hin. repeat (destruct Hin as [<- | Hin]; [cbn; eauto |]). contradiction. }
  destruct Hlen as [n Hn].
  rewrite length_append, Hn. cbn [Nat.add sub_ansi].
  rewrite (color_code_matches code _ Hin).
  apply sub_ansi_banner_reset; [assumption |].
  rewrite length_append. cbn. lia.
Qed.

(** C9. Stripping ANSI styling undoes colorizing: for a rendered banner
    that holds no ANSI color sequence and any color name, known or not, the
    colorized banner is the banner between a color code and the reset code,
    and [strip_ansi] maps it back to the banner that [ascii_banner] returns
    without [colorize]. *)
Theorem strip_ansi_ascii_banner `{F : Figlet} `{H : Host}
        (text fnt color banner : string) :
  has_pyfiglet = true ->
  renderText fnt text = Ok banner ->
  contains_ansi banner = false ->
  ascii_banner text fnt false color = Ok banner
  /\ exists colored,
       ascii_banner text fnt true color = Ok colored
       /\ (exists code, colored = code +:+ banner +:+ reset_code)
       /\ strip_ansi colored = banner.
Proof.
  intros Hfig Hrender Hclean.
  unfold ascii_banner. rewrite Hfig, Hrender. cbn [negb rbind].
  split; [reflexivity |].
  destruct (colorized_shape color banner) as (code & Hin & Heq).
  exists (code +:+ banner +:+ reset_code).
  split; [exact Heq |]. split; [eauto |].
  now apply (strip_ansi_colorized color).
Qed.

Lemma strip_ansi_ascii_banner_witness :
  @ascii_banner Ref.plain_figlet Ref.full_host "Hi" "standard" false "magenta"
  = Ok ("Hi" +:+ nl)
  /\ exists colored,
       @ascii_banner Ref.plain_figlet Ref.full_host "Hi" "standard" true "magenta"
       = Ok colored
       /\ (exists code, colored = code +:+ ("Hi" +:+ nl) +:+ reset_code)
       /\ strip_ansi colored = "Hi" +:+ nl.
Proof.
  apply (@strip_ansi_ascii_banner Ref.plain_figlet Ref.full_host
           "Hi" "standard" "magenta" ("Hi" +:+ nl)); reflexivity.
Defined.

(** ** Template application *)

Lemma TEMPLATES_key_truthy (name : string) (tmpl : template) :
  TEMPLATES !! name = Some tmpl -> Py.truthy (Some name) = true.
Proof.
  destruct name; [| reflexivity].
  intros H. vm_compute in H. discriminate H.
Qed.

(** C1, as stated, fails: with the template "professional" and the explicit
    palette "ocean", both commands resolve the palette to "royal", and the
    document that [svg] writes is filled with the background of "royal",
    [#1e1b4b], not with that of "ocean", [#0a1628]. *)
Lemma template_override_counterexample :
  svg_apply_template (Some "professional") "wave" "ocean" = Ok ("grid", "royal")
  /\ svg_apply_template (Some "professional") "wave" "ocean" <> Ok ("grid", "ocean")
  /\ png_apply_template (Some "professional") "ocean" [] = Ok ("royal", ["shadow"])
  /\ png_apply_template (Some "professional") "ocean" [] <> Ok ("ocean", ["shadow"])
  /\ match w_writes
             (snd (@svg Ref.lcg Ref.recorder Ref.full_host "Test" None 1200 300
                     "ocean" "wave" false (Some "professional") (Some "out.svg") false
                     Ref.world0)) with
     | [(path, TextFile doc)] =>
         path = "out.svg"
         /\ contains ("fill=" +:+ q "#1e1b4b") doc = true
         /\ contains "#0a1628" doc = false
     | _ => False
     end.
Proof.
  assert (Hsvg : svg_apply_template (Some "professional") "wave" "ocean"
                 = Ok ("grid", "royal")) by (vm_compute; reflexivity).
  assert (Hpng : png_apply_template (Some "professional") "ocean" []
                 = Ok ("royal", ["shadow"])) by (vm_compute; reflexivity).
  split; [exact Hsvg |]. split; [rewrite Hsvg; discriminate |].
  split; [exact Hpng |]. split; [rewrite Hpng; discriminate |].
  vm_compute. repeat split; reflexivity.
Qed.

(** C1, amended. A recognized template replaces the per-call values: [svg]
    takes its style and palette from the template, [png] its palette and
    effects, whatever the caller passed; only without a template are the
    per-call values used. *)
Theorem template_values_replace_explicit
        (name : string) (tmpl : template) (style palette : string)
        (effects : list string) :
  TEMPLATES !! name = Some tmpl ->
  svg_apply_template (Some name) style palette = Ok (t_style tmpl, t_palette tmpl)
  /\ png_apply_template (Some name) palette effects = Ok (t_palette tmpl, t_effects tmpl)
  /\ svg_apply_template None style palette = Ok (style, palette)
  /\ png_apply_template None palette effects = Ok (palette, effects).
Proof.
  intros Hname. pose proof (TEMPLATES_key_truthy name tmpl Hname) as Htruthy.
  unfold svg_apply_template, png_apply_template, getitem.
  rewrite Htruthy. change (default "" (Some name)) with name.
  rewrite Hname. repeat split; reflexivity.
Qed.

Lemma template_values_replace_explicit_witness :
  svg_apply_template (Some "professional") "wave" "ocean" = Ok ("grid", "royal")
  /\ png_apply_template (Some "professional") "ocean" ["glow"] = Ok ("royal", ["shadow"])
  /\ svg_apply_template None "wave" "ocean" = Ok ("wave", "ocean")
  /\ png_apply_template None "ocean" ["glow"] = Ok ("ocean", ["glow"]).
Proof.
  apply (template_values_replace_explicit
           "professional" (Template "grid" "royal" ["shadow"]) "wave" "ocean" ["glow"]).
  vm_compute. reflexivity.
Defined.

(** ** Missing raster backend *)

(** C6, as stated, fails: on a host whose import of Pillow failed nothing
    is reported ahead of the calls, and two invocations in a row raise the
    missing-backend error each. *)
Lemma missing_pillow_counterexample :
  let render := @render_png_text Ref.lcg Ref.recorder Ref.host_without_pillow in
  let first := render "one.png" "One" None 1200 300 None None None Ref.world0 in
  let second := render "two.png" "Two" None 1200 300 None None None (snd first) in
  fst first = Err (RuntimeError "Pillow is required. Install: pip install pillow")
  /\ fst second = Err (RuntimeError "Pillow is required. Install: pip install pillow")
  /\ w_stdout (snd second) = [] /\ w_writes (snd second) = [].
Proof. vm_compute. repeat split; reflexivity. Qed.

(** C6, amended. A failed import of Pillow is silent; the guard at the top
    of [render_png_text] raises the missing-backend [RuntimeError] on every
    invocation, before anything is drawn or written. *)
Theorem render_png_text_raises_per_call
        `{R : Random} `{P : Pillow} `{H : Host}
        (path text : string) (subtitle : option string) (width height : Z)
        (pal : option palette) (font_path : option string)
        (effects : option (list string)) (w : world) :
  has_Pillow = false ->
  render_png_text path text subtitle width height pal font_path effects w
  = (Err (RuntimeError "Pillow is required. Install: pip install pillow"), w).
Proof.
  intros Hmissing.
  unfold render_png_text, render_png_image, bind, lift.
  rewrite Hmissing. reflexivity.
Qed.

Lemma render_png_text_raises_per_call_witness :
  @render_png_text Ref.lcg Ref.recorder Ref.host_without_pillow
    "out.png" "Test" None 1200 300 None None (Some ["glow"]) Ref.world0
  = (Err (RuntimeError "Pillow is required. Install: pip install pillow"), Ref.world0).
Proof.
  apply (@render_png_text_raises_per_call Ref.lcg Ref.recorder Ref.host_without_pillow).
  reflexivity.
Defined.

(** ** Tagline fallback *)

Lemma lower_char_quote (c : ascii) :
  Ascii.eqb "'" (Py.lower_char c) = Ascii.eqb "'" c.
Proof. destruct c as [[] [] [] [] [] [] [] []]; reflexivity. Qed.

Lemma contains_char_lower (s : string) :
  Py.contains_char "'" (Py.lower s) = Py.contains_char "'" s.
Proof.
  induction s as [| c s IH]; [reflexivity |].
  cbn [Py.lower Py.contains_char]. now rewrite lower_char_quote, IH.
Qed.

Lemma lower_append (s t : string) : Py.lower (s +:+ t) = Py.lower s +:+ Py.lower t.
Proof.
  induction s as [| c s IH]; [reflexivity |].
  change (String (Py.lower_char c) (Py.lower (s +:+ t))
          = String (Py.lower_char c) (Py.lower s +:+ Py.lower t)).
  now f_equal.
Qed.

Lemma contains_char_append (c : ascii) (s t : string) :
  Py.contains_char c (s +:+ String c t) = true.
Proof.
  induction s as [| d s IH].
  - change (Ascii.eqb c c || Py.contains_char c t = true).
    now rewrite Ascii.eqb_refl.
  - change (Ascii.eqb c d || Py.contains_char c (s +:+ String c t) = true).
    rewrite IH. apply orb_true_r.
Qed.

(** Splitting after a piece that holds no separator. *)
Lemma split_char_piece (c : ascii) (s t : string) :
  Py.contains_char c s = false ->
  Py.split_char c (s +:+ String c t) = s :: Py.split_char c t.
Proof.
  induction s as [| d s IH]; intros Hs.
  - change (Py.split_char c (String c t) = EmptyString :: Py.split_char c t).
    cbn [Py.split_char]. now rewrite Ascii.eqb_refl.
  - cbn [Py.contains_char] in Hs. apply orb_false_elim in Hs as [Hd Hs].
    change (Py.split_char c (String d (s +:+ String c t)) = String d s :: Py.split_char c t).
    cbn [Py.split_char]. rewrite Ascii.eqb_sym, Hd, (IH Hs). reflexivity.
Qed.

Lemma split_char_nonempty (c : ascii) (s : string) :
  (1 <= List.length (Py.split_char c s))%nat.
Proof.
  induction s as [| d s IH]; cbn [Py.split_char List.length]; [lia |].
  destruct (Ascii.eqb d c); cbn [List.length]; [lia |].
  destruct (Py.split_char c s); cbn [List.length] in *; lia.
Qed.

(** A text that holds the separator splits into two pieces at least. *)
Lemma split_char_contains (c : ascii) (s : string) :
  Py.contains_char c s = true -> (2 <= List.length (Py.split_char c s))%nat.
Proof.
  induction s as [| d s IH]; cbn [Py.contains_char Py.split_char]; [discriminate |].
  intros Hc. rewrite (Ascii.eqb_sym d c).
  destruct (Ascii.eqb c d); cbn [orb] in Hc.
  - pose proof (split_char_nonempty c s). cbn [List.length]. lia.
  - specialize (IH Hc). destruct (Py.split_char c s); cbn [List.length] in *; lia.
Qed.

Lemma fallback_key_total (prompt : string) :
  exists key, fallback_key prompt = Ok key.
Proof.
  unfold fallback_key. destruct (Py.contains_char "'" prompt) eqn:Hq; [| now eexists].
  rewrite <- contains_char_lower in Hq. apply split_char_contains in Hq.
  destruct (Py.split_char "'" (Py.lower prompt)) as [| a [| b rest]];
    cbn [List.length] in Hq; try lia.
  now eexists.
Qed.

Lemma fallbacks_lookup (key : string) :
  fallbacks !! key
  = if String.eqb key "bannerforge" then Some bannerforge_taglines
    else if String.eqb key "default" then Some generic_taglines
    else None.
Proof.
  unfold fallbacks. cbn [list_to_map foldr uncurry fst snd].
  rewrite !lookup_insert, lookup_empty.
  destruct (String.eqb_spec key "bannerforge") as [-> | Hb].
  - now rewrite decide_True.
  - rewrite decide_False by congruence.
    destruct (String.eqb_spec key "default") as [-> | Hd].
    + now rewrite decide_True.
    + now rewrite decide_False by congruence.
Qed.

Lemma slice_to_nonneg {A} (n : Z) (l : list A) :
  0 <= n -> Py.slice_to n l = firstn (Z.to_nat n) l.
Proof. intros Hn. unfold Py.slice_to. destruct (Z.ltb_spec n 0); [lia | reflexivity]. Qed.

(** C8, as stated, fails: for the requested text "My BannerForge" the table
    key occurs in the lowercased text, so a substring match selects the
    "bannerforge" list, while the code returns the generic list. *)
Lemma tagline_substring_counterexample :
  @gemini_generate_taglines Ref.full_host
    "Create subtitle for banner: 'My BannerForge'" 3 None
  = Ok generic_taglines
  /\ taglines_by_substring "My BannerForge" 3 = bannerforge_taglines
  /\ @gemini_generate_taglines Ref.full_host
       "Create subtitle for banner: 'My BannerForge'" 3 None
     <> Ok (taglines_by_substring "My BannerForge" 3).
Proof.
  assert (Hcode : @gemini_generate_taglines Ref.full_host
                    "Create subtitle for banner: 'My BannerForge'" 3 None
                  = Ok generic_taglines) by (vm_compute; reflexivity).
  assert (Hspec : taglines_by_substring "My BannerForge" 3 = bannerforge_taglines)
    by (vm_compute; reflexivity).
  repeat split; try assumption.
  rewrite Hcode, Hspec. discriminate.
Qed.

Lemma split_char_absent (c : ascii) (s : string) :
  Py.contains_char c s = false -> Py.split_char c s = [s].
Proof.
  induction s as [| d s IH]; [reflexivity |].
  cbn [Py.contains_char Py.split_char]. intros Hc.
  apply orb_false_elim in Hc as [Hd Hs].
  rewrite (Ascii.eqb_sym d c), Hd, (IH Hs). reflexivity.
Qed.

(** The key of a prompt that holds an apostrophe: the lowercased text
    between the first apostrophe and the next one, or the end. *)
Lemma fallback_key_between (a b : string) :
  Py.contains_char "'" a = false ->
  Py.contains_char "'" b = false ->
  fallback_key (a +:+ "'" +:+ b) = Ok (Py.lower b)
  /\ forall c, fallback_key (a +:+ "'" +:+ b +:+ "'" +:+ c) = Ok (Py.lower b).
Proof.
  intros Ha Hb. unfold fallback_key. split; [| intros c].
  - change (a +:+ "'" +:+ b) with (a +:+ String "'" b).
    rewrite contains_char_append, lower_append.
    change (Py.lower (String "'" b)) with (String "'" (Py.lower b)).
    rewrite split_char_piece by now rewrite contains_char_lower.
    rewrite split_char_absent by now rewrite contains_char_lower.
    reflexivity.
  - change (a +:+ "'" +:+ b +:+ "'" +:+ c) with (a +:+ String "'" (b +:+ String "'" c)).
    rewrite contains_char_append, lower_append.
    change (Py.lower (String "'" (b +:+ String "'" c)))
      with (String "'" (Py.lower (b +:+ String "'" c))).
    rewrite lower_append.
    change (Py.lower (String "'" c)) with (String "'" (Py.lower c)).
    rewrite split_char_piece by now rewrite contains_char_lower.
    rewrite split_char_piece by now rewrite contains_char_lower.
    reflexivity.
Qed.

(** C8, amended. Without a credential the suggestion is computed offline
    from a fixed table, for every prompt: the key is "default" for a prompt
    without apostrophe, and otherwise the lowercased text between the first
    apostrophe of the prompt and the next one, or the end of the prompt
    when there is no other. The key must equal a table key exactly:
    "bannerforge" selects its list, and any other key selects the generic
    list. The list is cut to its first [n] entries. *)
Theorem tagline_fallback_exact_key `{H : Host} (prompt : string) (n : Z) :
  Py.truthy env_GEMINI_API_KEY = false ->
  0 <= n ->
  exists key,
    gemini_generate_taglines prompt n None
    = Ok (firstn (Z.to_nat n)
            (if String.eqb key "bannerforge"
             then bannerforge_taglines else generic_taglines))
    /\ (Py.contains_char "'" prompt = false -> key = "default")
    /\ (forall a b,
          Py.contains_char "'" a = false -> Py.contains_char "'" b = false ->
          prompt = a +:+ "'" +:+ b -> key = Py.lower b)
    /\ (forall a b c,
          Py.contains_char "'" a = false -> Py.contains_char "'" b = false ->
          prompt = a +:+ "'" +:+ b +:+ "'" +:+ c -> key = Py.lower b).
Proof.
  intros Hkey Hn.
  destruct (fallback_key_total prompt) as [key Hfk].
  exists key. split; [| split; [| split]].
  - unfold gemini_generate_taglines, getitem.
    rewrite Hkey, Hfk. cbn [negb rbind].
    rewrite !fallbacks_lookup. cbn [String.eqb Ascii.eqb Bool.eqb rbind default].
    rewrite slice_to_nonneg by assumption.
    destruct (String.eqb key "bannerforge"); [reflexivity |].
    destruct (String.eqb key "default"); reflexivity.
  - intros Hnone. unfold fallback_key in Hfk. rewrite Hnone in Hfk. congruence.
  - intros a b Ha Hb ->.
    rewrite (proj1 (fallback_key_between a b Ha Hb)) in Hfk. congruence.
  - intros a b c Ha Hb ->.
    rewrite (proj2 (fallback_key_between a b Ha Hb) c) in Hfk. congruence.
Qed.

Lemma tagline_fallback_exact_key_witness :
  exists key,
    @gemini_generate_taglines Ref.full_host
      "Create subtitle for banner: 'BannerForge's best'" 2 None
    = Ok (firstn (Z.to_nat 2)
            (if String.eqb key "bannerforge"
             then bannerforge_taglines else generic_taglines))
    /\ (Py.contains_char "'" "Create subtitle for banner: 'BannerForge's best'" = false ->
        key = "default")
    /\ (forall a b,
          Py.contains_char "'" a = false -> Py.contains_char "'" b = false ->
          "Create subtitle for banner: 'BannerForge's best'" = a +:+ "'" +:+ b ->
          key = Py.lower b)
    /\ (forall a b c,
          Py.contains_char "'" a = false -> Py.contains_char "'" b = false ->
          "Create subtitle for banner: 'BannerForge's best'"
          = a +:+ "'" +:+ b +:+ "'" +:+ c ->
          key = Py.lower b).
Proof.
  apply (@tagline_fallback_exact_key Ref.full_host
           "Create subtitle for banner: 'BannerForge's best'" 2);
    [reflexivity | lia].
Defined.

(** The text between the first two apostrophes decides: the list of
    "bannerforge" is chosen for a requested text that goes on after an
    apostrophe, and the generic list for one that only contains the key. *)
Example tagline_key_examples :
  @gemini_generate_taglines Ref.full_host
    "Create subtitle for banner: 'BannerForge's best'" 1 None
  = Ok ["Forge Your Visual Identity"]
  /\ @gemini_generate_taglines Ref.full_host
       "Create subtitle for banner: 'My BannerForge'" 1 None
     = Ok ["See What Others Miss"].
Proof. vm_compute. split; reflexivity. Qed.

(** ** Particles *)

Lemma lcg_laws : RandomLaws Ref.lcg.
Proof.
  constructor. intros a b g Hab. cbn.
  destruct (Z.ltb_spec b a) as [Hlt | _]; [lia |].
  eexists _, _. split; [reflexivity |].
  pose proof (Z.mod_pos_bound (Ref.lcg_next g) (b - a + 1)). lia.
Qed.

(** The loop appends the markup of the triples the generator yields. *)
Lemma particles_loop_draws `{R : Random} `{P : Pillow}
      (color : string) (opacity : Py.float) (width height : Z) (n : nat) :
  forall (acc : list string) (w : world),
    fst (particles_loop n width height color opacity acc w)
    = rmap (fun cs => acc ++ map (circle_markup color opacity) cs)
           (particle_draws n width height (w_rng w)).
Proof.
  induction n as [| n IH]; intros acc w.
  - cbn. now rewrite app_nil_r.
  - cbn [particles_loop particle_draws].
    unfold bind at 1. unfold particle, bind, randint, ret.
    destruct (random_randint 0 width (w_rng w)) as [[x g1] | e]; [| reflexivity].
    cbn [w_rng]. destruct (random_randint 0 height g1) as [[y g2] | e]; [| reflexivity].
    cbn [w_rng]. destruct (random_randint 2 8 g2) as [[r g3] | e]; [| reflexivity].
    rewrite IH. cbn [w_rng].
    destruct (particle_draws n width height g3) as [cs | e]; [| reflexivity].
    cbn [rmap map]. now rewrite <- app_assoc.
Qed.

(** The accent depends on the arguments only: the generator is seeded anew
    on entry. *)
Lemma svg_accent_particles_draws `{R : Random} `{P : Pillow}
      (width height : Z) (color : string) (opacity : Py.float) (w : world) :
  fst (svg_accent_particles width height color opacity w)
  = rmap (fun cs => Py.join (nl +:+ "  ") (map (circle_markup color opacity) cs))
         (particle_draws 30 width height (random_seed 42)).
Proof.
  unfold svg_accent_particles, bind at 1, seed.
  unfold bind.
  pose proof (particles_loop_draws color opacity width height 30 []
                (World R P (random_seed 42) (w_writes w) (w_stdout w))) as Hloop.
  destruct (particles_loop 30 width height color opacity [] _) as [[ps | e] w'];
    cbn [fst w_rng] in Hloop;
    destruct (particle_draws 30 width height (random_seed 42)) as [cs | e'];
    cbn [rmap] in *; try discriminate Hloop.
  - injection Hloop as ->. reflexivity.
  - injection Hloop as ->. reflexivity.
Qed.

Lemma particle_draws_lawful `{R : Random} {L : RandomLaws R} (width height : Z) (n : nat) :
  0 <= width -> 0 <= height ->
  forall g, exists cs,
    particle_draws n width height g = Ok cs
    /\ List.length cs = n /\ Forall (in_canvas width height) cs.
Proof.
  intros Hw Hh. induction n as [| n IH]; intros g.
  - exists []. repeat split. constructor.
  - cbn [particle_draws].
    destruct (randint_range 0 width g Hw) as (x & g1 & -> & Hx).
    destruct (randint_range 0 height g1 Hh) as (y & g2 & -> & Hy).
    destruct (randint_range 2 8 g2 ltac:(lia)) as (r & g3 & -> & Hr).
    destruct (IH g3) as (cs & -> & Hlen & Hall).
    exists ((x, y, r) :: cs). repeat split.
    + cbn. now rewrite Hlen.
    + constructor; [cbn; lia | assumption].
Qed.

(** C3. The particles accent is deterministic: whatever the state of the
    global generator when it is called, the result is the same. For a canvas
    with non-negative sides it is exactly 30 [<circle .../>] elements, one
    for each triple (x, y, r) that the generator seeded with 42 yields, in
    the order drawn, joined by a line break and two spaces; each center lies
    on the canvas and each radius between 2 and 8, and every circle carries
    the color and the opacity of the call, 0.08 by default. *)
Theorem svg_accent_particles_deterministic
        `{R : Random} {L : RandomLaws R} `{P : Pillow}
        (width height : Z) (color : string) (opacity : Py.float) :
  (forall w1 w2 : world,
      fst (svg_accent_particles width height color opacity w1)
      = fst (svg_accent_particles width height color opacity w2))
  /\ (0 <= width -> 0 <= height ->
      exists circles,
        particle_draws 30 width height (random_seed 42) = Ok circles
        /\ List.length circles = 30%nat
        /\ Forall (fun '(x, y, r) => 0 <= x <= width /\ 0 <= y <= height /\ 2 <= r <= 8)
                  circles
        /\ forall w : world,
             fst (svg_accent_particles width height color opacity w)
             = Ok (Py.join (String (ascii_of_nat 10) "  ")
                     (map (fun '(x, y, r) =>
                             "<circle cx=" +:+ (dq +:+ Py.str_of_int x +:+ dq)
                             +:+ " cy=" +:+ (dq +:+ Py.str_of_int y +:+ dq)
                             +:+ " r=" +:+ (dq +:+ Py.str_of_int r +:+ dq)
                             +:+ " fill=" +:+ (dq +:+ color +:+ dq)
                             +:+ " opacity=" +:+ (dq +:+ Py.repr_float opacity +:+ dq)
                             +:+ "/>")
                          circles)))
  /\ Py.repr_float particles_opacity = "0.08".
Proof.
  split; [| split; [| vm_compute; reflexivity]].
  - intros w1 w2. now rewrite !svg_accent_particles_draws.
  - intros Hw Hh.
    destruct (particle_draws_lawful width height 30 Hw Hh (random_seed 42))
      as (cs & Hcs & Hlen & Hall).
    exists cs. split; [exact Hcs |]. split; [exact Hlen |]. split.
    + eapply Forall_impl; [exact Hall |]. intros [[x y] r] Hin. exact Hin.
    + intros w. rewrite svg_accent_particles_draws, Hcs. reflexivity.
Qed.

Lemma svg_accent_particles_deterministic_witness :
  exists circles,
    @particle_draws Ref.lcg 30 120 110 (@random_seed Ref.lcg 42) = Ok circles
    /\ List.length circles = 30%nat
    /\ Forall (fun '(x, y, r) => 0 <= x <= 120 /\ 0 <= y <= 110 /\ 2 <= r <= 8) circles
    /\ forall w : @world Ref.lcg Ref.recorder,
         fst (svg_accent_particles 120 110 "#00ffff" particles_opacity w)
         = Ok (Py.join (String (ascii_of_nat 10) "  ")
                 (map (fun '(x, y, r) =>
                         "<circle cx=" +:+ (dq +:+ Py.str_of_int x +:+ dq)
                         +:+ " cy=" +:+ (dq +:+ Py.str_of_int y +:+ dq)
                         +:+ " r=" +:+ (dq +:+ Py.str_of_int r +:+ dq)
                         +:+ " fill=" +:+ (dq +:+ "#00ffff" +:+ dq)
                         +:+ " opacity=" +:+ (dq +:+ Py.repr_float particles_opacity +:+ dq)
                         +:+ "/>")
                      circles)).
Proof.
  apply (proj1 (proj2 (@svg_accent_particles_deterministic Ref.lcg lcg_laws Ref.recorder
                         120 110 "#00ffff" particles_opacity))); lia.
Defined.

(** With CPython's Mersenne Twister behind [random], the particles of a
    1200x300 canvas start with the circles (228, 12, 7), (563, 125, 3) and
    (285, 52, 7), and all 30 lie on the canvas with radii from 2 to 8. *)
Example particles_on_cpython :
  exists circles,
    @particle_draws mt19937 30 1200 300 (@random_seed mt19937 42) = Ok circles
    /\ firstn 3 circles = [(228, 12, 7); (563, 125, 3); (285, 52, 7)]
    /\ List.length circles = 30%nat
    /\ forallb (fun '(x, y, r) => (0 <=? x) && (x <=? 1200) && (0 <=? y) && (y <=? 300)
                                  && (2 <=? r) && (r <=? 8)) circles = true.
Proof.
  let r := eval vm_compute in
             (@particle_draws mt19937 30 1200 300 (@random_seed mt19937 42)) in
  match r with Ok ?cs => exists cs end.
  vm_compute. repeat split; reflexivity.
Qed.

(** ** Raster effects *)

Lemma requested_ext (e1 e2 : list string) :
  (forall e, In e e1 <-> In e e2) ->
  forall x, requested x e1 = requested x e2.
Proof.
  intros Hsame x. unfold requested. apply eq_true_iff_eq.
  rewrite !existsb_exists. split; intros (y & Hy & Heq); exists y;
    (split; [now apply Hsame | assumption]).
Qed.

Lemma render_png_image_ext `{P : Pillow} `{H : Host}
      (text : string) (subtitle : option string) (width height : Z)
      (pal : option palette) (font_path : option string) (e1 e2 : list string) :
  (forall x, requested x e1 = requested x e2) ->
  render_png_image text subtitle width height pal font_path (Some e1)
  = render_png_image text subtitle width height pal font_path (Some e2).
Proof.
  intros Hreq.
  unfold render_png_image, stage_gradient, stage_shadow, stage_glow, stage_stripe,
    stage_blur.
  cbn [default]. change (default [] (Some e1)) with e1.
  change (default [] (Some e2)) with e2.
  now rewrite !Hreq.
Qed.

Section Trace.
Context `{H : Host}.

(** On the recording Pillow an image is the list of the calls made so far;
    the lemmas below give what each stage appends to it. *)

Lemma gradient_row_rec (pal : palette) (acc : string) (r g b : Z) (y alpha : Z) :
  pal !! "accent" = Some acc ->
  _hex_to_rgb acc = Ok (r, g, b) ->
  forall (xs : list Z) (img : list Ref.draw_cmd),
    @gradient_row Ref.recorder img xs y alpha pal
    = Ok (img ++ map (fun px => Ref.PutPixel (px, y) (r, g, b, alpha)) xs).
Proof.
  intros Hacc Hrgb. induction xs as [| x xs IH]; intros img; cbn [gradient_row map].
  - now rewrite app_nil_r.
  - unfold getitem. rewrite Hacc. cbn [rbind]. rewrite Hrgb. cbn [rbind].
    change (@putpixel Ref.recorder img (x, y) (r, g, b, alpha))
      with (@Ok (list Ref.draw_cmd) (img ++ [Ref.PutPixel (x, y) (r, g, b, alpha)])).
    cbn [rbind]. rewrite IH, <- app_assoc. reflexivity.
Qed.

Lemma gradient_rows_rec (pal : palette) (acc : string) (r g b : Z) (width height : Z) :
  pal !! "accent" = Some acc ->
  _hex_to_rgb acc = Ok (r, g, b) ->
  forall (ys : list Z) (img img' : list Ref.draw_cmd),
    @gradient_rows Ref.recorder img ys width height pal = Ok img' ->
    exists alphas,
      Forall2 (fun py a =>
                 exists ratio,
                   Num.truediv py height = Ok ratio
                   /\ Py.int_of_float
                        (Py.fmul (Py.float_of_int_raw 50)
                           (Py.fsub (Py.float_of_int_raw 1) ratio)) = Ok a)
              ys alphas
      /\ img' = img ++ concat (map (fun ya => map (fun px => Ref.PutPixel (px, fst ya)
                                                               (r, g, b, snd ya))
                                                 (Py.range width))
                                  (combine ys alphas)).
Proof.
  intros Hacc Hrgb. induction ys as [| y ys IH]; intros img img'; cbn [gradient_rows].
  - intros [= <-]. exists []. split; [constructor | now rewrite app_nil_r].
  - destruct (Num.truediv y height) as [ratio |] eqn:Hratio; [| discriminate].
    cbn [rbind].
    destruct (Py.int_of_float _) as [alpha |] eqn:Halpha; [| discriminate].
    cbn [rbind]. rewrite (gradient_row_rec pal acc r g b y alpha Hacc Hrgb).
    cbn [rbind]. intros Hrest.
    destruct (IH _ _ Hrest) as (alphas & Hall & ->).
    exists (alpha :: alphas). split.
    + constructor; [| assumption]. now exists ratio.
    + cbn [combine map concat fst snd]. now rewrite <- app_assoc.
Qed.

Lemma stage_gradient_rec (pal : palette) (acc : string) (r g b : Z)
      (effects : list string) (width height : Z) (img img' : list Ref.draw_cmd) :
  pal !! "accent" = Some acc ->
  _hex_to_rgb acc = Ok (r, g, b) ->
  @stage_gradient Ref.recorder effects width height pal img = Ok img' ->
  exists alphas,
    (existsb (String.eqb "gradient") effects = true ->
     Forall2 (fun py a =>
                exists ratio,
                  Num.truediv py height = Ok ratio
                  /\ Py.int_of_float
                       (Py.fmul (Py.float_of_int_raw 50)
                          (Py.fsub (Py.float_of_int_raw 1) ratio)) = Ok a)
             (Py.range height) alphas)
    /\ img' = img ++ (if existsb (String.eqb "gradient") effects
                     then concat (map (fun ya => map (fun px => Ref.PutPixel (px, fst ya)
                                                                  (r, g, b, snd ya))
                                                    (Py.range width))
                                     (combine (Py.range height) alphas))
                     else []).
Proof.
  intros Hacc Hrgb. unfold stage_gradient, requested.
  destruct (existsb (String.eqb "gradient") effects).
  - intros Hrows.
    destruct (gradient_rows_rec pal acc r g b width height Hacc Hrgb _ _ _ Hrows)
      as (alphas & Hall & ->).
    exists alphas. now split.
  - intros [= <-]. exists []. split; [discriminate | now rewrite app_nil_r].
Qed.

Lemma stage_shadow_rec (effects : list string) (text : string) (tf : string * Z)
      (x y : Py.float) (img : list Ref.draw_cmd) :
  @stage_shadow Ref.recorder effects text tf x y img
  = Ok (img ++ if existsb (String.eqb "shadow") effects
               then [Ref.Text (Py.fadd x (Py.float_of_int_raw 4),
                               Py.fadd y (Py.float_of_int_raw 4))
                       text tf (FillRGBA 0 0 0 128)]
               else []).
Proof.
  unfold stage_shadow, requested.
  destruct (existsb (String.eqb "shadow") effects); [| now rewrite app_nil_r].
  reflexivity.
Qed.

Lemma glow_pass_rec (text : string) (tf : string * Z) (x y : Py.float) (c : fill)
      (img : list Ref.draw_cmd) (o : Z) :
  In o [3; 2; 1] ->
  @glow_pass Ref.recorder text tf x y c img o
  = Ok (img ++ [Ref.Text (Py.fsub x (Py.float_of_int_raw o), y) text tf c;
                Ref.Text (Py.fadd x (Py.float_of_int_raw o), y) text tf c;
                Ref.Text (x, Py.fsub y (Py.float_of_int_raw o)) text tf c;
                Ref.Text (x, Py.fadd y (Py.float_of_int_raw o)) text tf c]).
Proof.
  intros Ho.
  transitivity
    (@Ok (list Ref.draw_cmd)
       ((((img ++ [Ref.Text (Py.fsub x (Py.float_of_int_raw o), y) text tf c])
          ++ [Ref.Text (Py.fadd x (Py.float_of_int_raw o), y) text tf c])
         ++ [Ref.Text (x, Py.fsub y (Py.float_of_int_raw o)) text tf c])
        ++ [Ref.Text (x, Py.fadd y (Py.float_of_int_raw o)) text tf c])).
  - destruct Ho as [<- | [<- | [<- | []]]]; reflexivity.
  - now rewrite <- !app_assoc.
Qed.

Lemma stage_glow_rec (pal : palette) (acc : string) (r g b : Z)
      (effects : list string) (text : string) (tf : string * Z)
      (x y : Py.float) (img : list Ref.draw_cmd) :
  pal !! "accent" = Some acc ->
  _hex_to_rgb acc = Ok (r, g, b) ->
  @stage_glow Ref.recorder effects text tf x y pal img
  = Ok (img ++ if existsb (String.eqb "glow") effects
               then flat_map
                      (fun o =>
                         [Ref.Text (Py.fsub x (Py.float_of_int_raw o), y) text tf
                            (FillRGBA r g b 80);
                          Ref.Text (Py.fadd x (Py.float_of_int_raw o), y) text tf
                            (FillRGBA r g b 80);
                          Ref.Text (x, Py.fsub y (Py.float_of_int_raw o)) text tf
                            (FillRGBA r g b 80);
                          Ref.Text (x, Py.fadd y (Py.float_of_int_raw o)) text tf
                            (FillRGBA r g b 80)])
                      [3; 2; 1]
               else []).
Proof.
  intros Hacc Hrgb. unfold stage_glow, requested, getitem.
  destruct (existsb (String.eqb "glow") effects); [| now rewrite app_nil_r].
  rewrite Hacc. cbn [rbind]. rewrite Hrgb. cbn [rbind glow_passes].
  rewrite glow_pass_rec by (cbn; tauto). cbn [rbind].
  rewrite glow_pass_rec by (cbn; tauto). cbn [rbind].
  rewrite glow_pass_rec by (cbn; tauto). cbn [rbind flat_map app].
  now rewrite <- !app_assoc.
Qed.

Lemma stage_subtitle_rec (subtitle : option string) (sf : string * Z)
      (width height : Z) (pal : palette) (img img' : list Ref.draw_cmd) :
  @stage_subtitle Ref.recorder subtitle sf width height pal img = Ok img' ->
  exists under,
    img' = img ++ under
    /\ ((Py.truthy subtitle = false /\ under = [])
        \/ exists s pos muted,
             subtitle = Some s /\ s <> EmptyString
             /\ pal !! "muted" = Some muted
             /\ under = [Ref.Text pos s sf (FillColor muted)]).
Proof.
  unfold stage_subtitle, getitem.
  destruct subtitle as [[| c s] |]; cbn [Py.truthy default from_option id].
  - intros [= <-]. exists []. rewrite app_nil_r. split; [reflexivity | now left].
  - cbv beta iota delta [textbbox draw_text Ref.recorder]. cbn [rbind].
    match goal with
    | |- context [centered width height ?a ?bb] =>
        destruct (centered width height a bb) as [pos |]; [| discriminate]
    end.
    cbn [rbind]. destruct (pal !! "muted") as [muted |]; [| discriminate].
    cbn [rbind]. intros [= <-].
    exists [Ref.Text pos (String c s) sf (FillColor muted)].
    split; [reflexivity | right].
    exists (String c s), pos, muted. repeat split. discriminate.
  - intros [= <-]. exists []. rewrite app_nil_r. split; [reflexivity | now left].
Qed.

Lemma stage_stripe_rec (pal : palette) (acc : string) (r g b : Z)
      (effects : list string) (width height : Z) (img img' : list Ref.draw_cmd) :
  pal !! "accent" = Some acc ->
  _hex_to_rgb acc = Ok (r, g, b) ->
  @stage_stripe Ref.recorder effects width height pal img = Ok img' ->
  exists top,
    (existsb (String.eqb "stripe") effects = true ->
     Num.int_mul height (Py.lit 85 100) = Ok top)
    /\ img' = img ++ (if existsb (String.eqb "stripe") effects
                     then [Ref.Rectangle (0, top) (width, height) (FillRGBA r g b 68)]
                     else []).
Proof.
  intros Hacc Hrgb. unfold stage_stripe, requested, getitem.
  destruct (existsb (String.eqb "stripe") effects).
  - rewrite Hacc. cbn [rbind]. rewrite Hrgb. cbn [rbind].
    destruct (Num.int_mul height (Py.lit 85 100)) as [top |]; [| discriminate].
    cbn [rbind]. intros [= <-]. exists top. now split.
  - intros [= <-]. exists 0. split; [discriminate | now rewrite app_nil_r].
Qed.

Lemma stage_blur_rec (effects : list string) (img : list Ref.draw_cmd) :
  has_Pillow = true ->
  @stage_blur Ref.recorder H effects img
  = Ok (img ++ if existsb (String.eqb "blur") effects then [Ref.Blur 1] else []).
Proof.
  intros Hpil. unfold stage_blur, requested. rewrite Hpil, andb_true_r.
  destruct (existsb (String.eqb "blur") effects); [reflexivity | now rewrite app_nil_r].
Qed.

(** The calls of one request, in the order they were made. *)
Lemma render_png_image_trace
      (text : string) (subtitle : option string) (width height : Z) (pal : palette)
      (acc : string) (r g b : Z) (font_path : option string) (effects : list string)
      (img : list Ref.draw_cmd) :
  pal !! "accent" = Some acc ->
  _hex_to_rgb acc = Ok (r, g, b) ->
  @render_png_image Ref.recorder H text subtitle width height (Some pal) font_path
    (Some effects) = Ok img ->
  exists bg tcolor tf sf x y alphas under top,
    pal !! "bg" = Some bg
    /\ pal !! "text" = Some tcolor
    /\ (existsb (String.eqb "gradient") effects = true ->
        Forall2 (fun py a =>
                   exists ratio,
                     Num.truediv py height = Ok ratio
                     /\ Py.int_of_float
                          (Py.fmul (Py.float_of_int_raw 50)
                             (Py.fsub (Py.float_of_int_raw 1) ratio)) = Ok a)
                (Py.range height) alphas)
    /\ ((Py.truthy subtitle = false /\ under = [])
        \/ exists s pos muted,
             subtitle = Some s /\ s <> EmptyString
             /\ pal !! "muted" = Some muted
             /\ under = [Ref.Text pos s sf (FillColor muted)])
    /\ (existsb (String.eqb "stripe") effects = true ->
        Num.int_mul height (Py.lit 85 100) = Ok top)
    /\ img
       = [Ref.New width height bg]
         ++ (if existsb (String.eqb "gradient") effects
             then concat (map (fun ya => map (fun px => Ref.PutPixel (px, fst ya)
                                                          (r, g, b, snd ya))
                                            (Py.range width))
                             (combine (Py.range height) alphas))
             else [])
         ++ (if existsb (String.eqb "shadow") effects
             then [Ref.Text (Py.fadd x (Py.float_of_int_raw 4),
                             Py.fadd y (Py.float_of_int_raw 4))
                     text tf (FillRGBA 0 0 0 128)]
             else [])
         ++ (if existsb (String.eqb "glow") effects
             then flat_map
                    (fun o =>
                       [Ref.Text (Py.fsub x (Py.float_of_int_raw o), y) text tf
                          (FillRGBA r g b 80);
                        Ref.Text (Py.fadd x (Py.float_of_int_raw o), y) text tf
                          (FillRGBA r g b 80);
                        Ref.Text (x, Py.fsub y (Py.float_of_int_raw o)) text tf
                          (FillRGBA r g b 80);
                        Ref.Text (x, Py.fadd y (Py.float_of_int_raw o)) text tf
                          (FillRGBA r g b 80)])
                    [3; 2; 1]
             else [])
         ++ [Ref.Text (x, y) text tf (FillColor tcolor)]
         ++ under
         ++ (if existsb (String.eqb "stripe") effects
             then [Ref.Rectangle (0, top) (width, height) (FillRGBA r g b 68)]
             else [])
         ++ (if existsb (String.eqb "blur") effects then [Ref.Blur 1] else []).
Proof.
  intros Hacc Hrgb. unfold render_png_image.
  destruct has_Pillow eqn:Hpil; [| discriminate]. cbn [negb rbind default from_option id].
  unfold getitem at 1. destruct (pal !! "bg") as [bg |]; [| cbn [rbind]; discriminate].
  cbn [rbind].
  change (@Image_new Ref.recorder width height bg)
    with (@Ok (list Ref.draw_cmd) [Ref.New width height bg]).
  cbn [rbind].
  destruct (@stage_gradient Ref.recorder effects width height pal
              [Ref.New width height bg]) as [img1 |] eqn:Hgrad; [| cbn [rbind]; discriminate].
  destruct (stage_gradient_rec pal acc r g b effects width height _ _ Hacc Hrgb Hgrad)
    as (alphas & Halphas & ->).
  cbn [rbind].
  destruct (Num.int_mul height (Py.lit 22 100)) as [title_size |]; [| cbn [rbind]; discriminate].
  cbn [rbind].
  destruct (@load_font Ref.recorder H font_path title_size) as [tf |]; [| cbn [rbind]; discriminate].
  cbn [rbind].
  destruct (Num.int_mul height (Py.lit 7 100)) as [subtitle_size |]; [| cbn [rbind]; discriminate].
  cbn [rbind].
  destruct (@load_font Ref.recorder H font_path subtitle_size) as [sf |];
    [| cbn [rbind]; discriminate].
  cbn [rbind].
  match goal with
  | |- context [@textbbox Ref.recorder ?i text tf] =>
      change (@textbbox Ref.recorder i text tf)
        with (@Ok (Z * Z * Z * Z)
                (0, 0, Z.of_nat (String.length text) * (snd tf / 2), snd tf))
  end.
  cbn [rbind].
  match goal with
  | |- context [centered width height ?a ?bb] =>
      destruct (centered width height a bb) as [[x y] |]; [| cbn [rbind]; discriminate]
  end.
  cbn [rbind].
  rewrite stage_shadow_rec. cbn [rbind].
  rewrite (stage_glow_rec pal acc r g b effects text tf x y _ Hacc Hrgb). cbn [rbind].
  unfold stage_main_text, getitem.
  destruct (pal !! "text") as [tcolor |]; [| cbn [rbind]; discriminate].
  cbn [rbind].
  match goal with
  | |- context [@draw_text Ref.recorder ?i (x, y) text tf (FillColor tcolor)] =>
      change (@draw_text Ref.recorder i (x, y) text tf (FillColor tcolor))
        with (@Ok (list Ref.draw_cmd) (i ++ [Ref.Text (x, y) text tf (FillColor tcolor)]))
  end.
  cbn [rbind].
  match goal with
  | |- context [@stage_subtitle Ref.recorder subtitle sf width height pal ?i] =>
      destruct (@stage_subtitle Ref.recorder subtitle sf width height pal i)
        as [img4 |] eqn:Hsub; [| cbn [rbind]; discriminate]
  end.
  destruct (stage_subtitle_rec _ _ _ _ _ _ _ Hsub) as (under & -> & Hunder).
  cbn [rbind].
  match goal with
  | |- context [@stage_stripe Ref.recorder effects width height pal ?i] =>
      destruct (@stage_stripe Ref.recorder effects width height pal i)
        as [img5 |] eqn:Hstripe; [| cbn [rbind]; discriminate]
  end.
  destruct (stage_stripe_rec pal acc r g b _ _ _ _ _ Hacc Hrgb Hstripe)
    as (top & Htop & ->).
  cbn [rbind]. rewrite (stage_blur_rec _ _ Hpil). cbn [rbind].
  intros [= <-].
  exists bg, tcolor, tf, sf, x, y, alphas, under, top.
  do 5 (split; [first [reflexivity | assumption] |]).
  rewrite <- !app_assoc. reflexivity.
Qed.

End Trace.

(** C4. The raster pipeline does not depend on the order in which effects
    are requested: [["glow"; "shadow"]] and [["shadow"; "glow"]] give the
    same outcome for every request, and so do any two lists that request the
    same effects, because each stage only asks whether its effect occurs in
    the list.  The stages run in one order: on the recording Pillow the
    calls of every request that returns are the canvas, then the gradient
    pixels row by row, the shadow, the twelve glow passes at the offsets 3,
    2, 1, the main text, the subtitle, the stripe and the blur, each of the
    effects only when it was requested. *)
Theorem render_png_text_effect_order
        `{R : Random} `{P : Pillow} `{H : Host}
        (path text : string) (subtitle : option string) (width height : Z)
        (pal : option palette) (font_path : option string) (w : world) :
  render_png_text path text subtitle width height pal font_path
                  (Some ["glow"; "shadow"]) w
  = render_png_text path text subtitle width height pal font_path
                    (Some ["shadow"; "glow"]) w
  /\ (forall e1 e2 : list string,
        (forall e, In e e1 <-> In e e2) ->
        render_png_text path text subtitle width height pal font_path (Some e1) w
        = render_png_text path text subtitle width height pal font_path (Some e2) w)
  /\ (forall (text : string) (subtitle : option string) (width height : Z)
             (pal : palette) (acc : string) (r g b : Z) (font_path : option string)
             (effects : list string) (img : list Ref.draw_cmd),
        pal !! "accent" = Some acc ->
        _hex_to_rgb acc = Ok (r, g, b) ->
        @render_png_image Ref.recorder H text subtitle width height (Some pal) font_path
          (Some effects) = Ok img ->
        exists bg tcolor tf sf x y alphas under top,
           pal !! "bg" = Some bg
           /\ pal !! "text" = Some tcolor
           /\ (existsb (String.eqb "gradient") effects = true ->
               Forall2 (fun py a =>
                          exists ratio,
                            Num.truediv py height = Ok ratio
                            /\ Py.int_of_float
                                 (Py.fmul (Py.float_of_int_raw 50)
                                    (Py.fsub (Py.float_of_int_raw 1) ratio)) = Ok a)
                       (Py.range height) alphas)
           /\ ((Py.truthy subtitle = false /\ under = [])
               \/ exists s pos muted,
                    subtitle = Some s /\ s <> EmptyString
                    /\ pal !! "muted" = Some muted
                    /\ under = [Ref.Text pos s sf (FillColor muted)])
           /\ (existsb (String.eqb "stripe") effects = true ->
               Num.int_mul height (Py.lit 85 100) = Ok top)
           /\ img
              = [Ref.New width height bg]
                ++ (if existsb (String.eqb "gradient") effects
                    then concat (map (fun ya => map (fun px => Ref.PutPixel (px, fst ya)
                                                                 (r, g, b, snd ya))
                                                   (Py.range width))
                                    (combine (Py.range height) alphas))
                    else [])
                ++ (if existsb (String.eqb "shadow") effects
                    then [Ref.Text (Py.fadd x (Py.float_of_int_raw 4),
                                    Py.fadd y (Py.float_of_int_raw 4))
                            text tf (FillRGBA 0 0 0 128)]
                    else [])
                ++ (if existsb (String.eqb "glow") effects
                    then flat_map
                           (fun o =>
                              [Ref.Text (Py.fsub x (Py.float_of_int_raw o), y) text tf
                                 (FillRGBA r g b 80);
                               Ref.Text (Py.fadd x (Py.float_of_int_raw o), y) text tf
                                 (FillRGBA r g b 80);
                               Ref.Text (x, Py.fsub y (Py.float_of_int_raw o)) text tf
                                 (FillRGBA r g b 80);
                               Ref.Text (x, Py.fadd y (Py.float_of_int_raw o)) text tf
                                 (FillRGBA r g b 80)])
                           [3; 2; 1]
                    else [])
                ++ [Ref.Text (x, y) text tf (FillColor tcolor)]
                ++ under
                ++ (if existsb (String.eqb "stripe") effects
                    then [Ref.Rectangle (0, top) (width, height) (FillRGBA r g b 68)]
                    else [])
                ++ (if existsb (String.eqb "blur") effects then [Ref.Blur 1] else [])).
Proof.
  assert (Hgen : forall e1 e2 : list string,
             (forall e, In e e1 <-> In e e2) ->
             render_png_text path text subtitle width height pal font_path (Some e1) w
             = render_png_text path text subtitle width height pal font_path (Some e2) w).
  { intros e1 e2 Hsame. unfold render_png_text.
    now rewrite (render_png_image_ext text subtitle width height pal font_path e1 e2
                   (requested_ext e1 e2 Hsame)). }
  split; [| split; [exact Hgen |]].
  - apply Hgen. intros e. cbn. tauto.
  - intros text' subtitle' width' height' pal' acc r g b font_path' effects img.
    apply render_png_image_trace.
Qed.

Lemma render_png_text_effect_order_witness :
  @render_png_text Ref.lcg Ref.recorder Ref.full_host
    "out.png" "Test" (Some "Sub") 2 2 None None (Some ["blur"; "glow"]) Ref.world0
  = @render_png_text Ref.lcg Ref.recorder Ref.full_host
      "out.png" "Test" (Some "Sub") 2 2 None None (Some ["glow"; "blur"; "glow"]) Ref.world0
  /\ exists bg tcolor tf sf x y alphas under top,
           Ref.stealth_palette !! "bg" = Some bg
           /\ Ref.stealth_palette !! "text" = Some tcolor
           /\ (existsb (String.eqb "gradient") ["blur"; "stripe"; "glow"; "shadow"; "gradient"] = true ->
               Forall2 (fun py a =>
                          exists ratio,
                            Num.truediv py 1 = Ok ratio
                            /\ Py.int_of_float
                                 (Py.fmul (Py.float_of_int_raw 50)
                                    (Py.fsub (Py.float_of_int_raw 1) ratio)) = Ok a)
                       (Py.range 1) alphas)
           /\ ((Py.truthy (Some "Sub") = false /\ under = [])
               \/ exists s pos muted,
                    (Some "Sub") = Some s /\ s <> EmptyString
                    /\ Ref.stealth_palette !! "muted" = Some muted
                    /\ under = [Ref.Text pos s sf (FillColor muted)])
           /\ (existsb (String.eqb "stripe") ["blur"; "stripe"; "glow"; "shadow"; "gradient"] = true ->
               Num.int_mul 1 (Py.lit 85 100) = Ok top)
           /\ Ref.traced_image
              = [Ref.New 2 1 bg]
                ++ (if existsb (String.eqb "gradient") ["blur"; "stripe"; "glow"; "shadow"; "gradient"]
                    then concat (map (fun ya => map (fun px => Ref.PutPixel (px, fst ya)
                                                                 (0, 255, 255, snd ya))
                                                   (Py.range 2))
                                    (combine (Py.range 1) alphas))
                    else [])
                ++ (if existsb (String.eqb "shadow") ["blur"; "stripe"; "glow"; "shadow"; "gradient"]
                    then [Ref.Text (Py.fadd x (Py.float_of_int_raw 4),
                                    Py.fadd y (Py.float_of_int_raw 4))
                            "Test" tf (FillRGBA 0 0 0 128)]
                    else [])
                ++ (if existsb (String.eqb "glow") ["blur"; "stripe"; "glow"; "shadow"; "gradient"]
                    then flat_map
                           (fun o =>
                              [Ref.Text (Py.fsub x (Py.float_of_int_raw o), y) "Test" tf
                                 (FillRGBA 0 255 255 80);
                               Ref.Text (Py.fadd x (Py.float_of_int_raw o), y) "Test" tf
                                 (FillRGBA 0 255 255 80);
                               Ref.Text (x, Py.fsub y (Py.float_of_int_raw o)) "Test" tf
                                 (FillRGBA 0 255 255 80);
                               Ref.Text (x, Py.fadd y (Py.float_of_int_raw o)) "Test" tf
                                 (FillRGBA 0 255 255 80)])
                           [3; 2; 1]
                    else [])
                ++ [Ref.Text (x, y) "Test" tf (FillColor tcolor)]
                ++ under
                ++ (if existsb (String.eqb "stripe") ["blur"; "stripe"; "glow"; "shadow"; "gradient"]
                    then [Ref.Rectangle (0, top) (2, 1) (FillRGBA 0 255 255 68)]
                    else [])
                ++ (if existsb (String.eqb "blur") ["blur"; "stripe"; "glow"; "shadow"; "gradient"] then [Ref.Blur 1] else []).
Proof.
  split.
  - apply (proj1 (proj2 (@render_png_text_effect_order Ref.lcg Ref.recorder Ref.full_host
                           "out.png" "Test" (Some "Sub") 2 2 None None Ref.world0))).
    intros e. cbn. tauto.
  - apply (proj2 (proj2 (@render_png_text_effect_order Ref.lcg Ref.recorder Ref.full_host
                           "out.png" "Test" (Some "Sub") 2 2 None None Ref.world0))
             "Test" (Some "Sub") 2 1 Ref.stealth_palette "#00ffff" 0 255 255 None
             ["blur"; "stripe"; "glow"; "shadow"; "gradient"] Ref.traced_image);
      vm_compute; reflexivity.
Defined.

(** On the recording Pillow, a request for all five effects, listed in the
    reverse of the pipeline order, still draws canvas, gradient, shadow,
    twelve glow passes, title, subtitle, stripe and blur in that order. *)
Example render_png_stage_order :
  rmap (map Ref.stage_label)
       (@render_png_image Ref.recorder Ref.full_host "Test" (Some "Sub") 1 1
          (Some Ref.stealth_palette) None
          (Some ["blur"; "stripe"; "glow"; "shadow"; "gradient"]))
  = Ok (["canvas"; "gradient"; "shadow"] ++ repeat "glow" 12
        ++ ["#ffffff"; "#9aa4ad"; "stripe"; "blur"]).
Proof. vm_compute. reflexivity. Qed.

(** ** Vector documents *)

Lemma append_assoc (a b c : string) : (a +:+ b) +:+ c = a +:+ (b +:+ c).
Proof.
  induction a as [| x a IH]; [reflexivity |].
  change (String x ((a +:+ b) +:+ c) = String x (a +:+ (b +:+ c))). now f_equal.
Qed.

Lemma lines_app (a b : list string) : lines (a ++ b) = lines a +:+ lines b.
Proof.
  induction a as [| l a IH]; [reflexivity |].
  cbn [app lines]. now rewrite IH, !append_assoc.
Qed.

(** Splits the lines of a template after the first [n]. *)
Ltac split_lines n :=
  match goal with
  | |- exists head, lines ?L = head +:+ _ =>
      exists (lines (firstn n L));
      change L with (firstn n L ++ skipn n L);
      rewrite lines_app; reflexivity
  end.

Lemma subtitle_tag_cases (subtitle : option string) (width height : Z) (pal : palette)
      (sub : string) :
  subtitle_tag subtitle width height pal = Ok sub ->
  (Py.truthy subtitle = false /\ sub = EmptyString)
  \/ (exists s y size muted,
         subtitle = Some s /\ s <> EmptyString
         /\ Num.int_mul height (Py.lit 78 100) = Ok y
         /\ Num.int_mul height (Py.lit 75 1000) = Ok size
         /\ pal !! "muted" = Some muted
         /\ sub = subtitle_element s width y size muted).
Proof.
  unfold subtitle_tag, getitem.
  destruct subtitle as [[| c s] |]; cbn [Py.truthy].
  - intros [= <-]. now left.
  - destruct (Num.int_mul height (Py.lit 78 100)) as [y |]; [| discriminate].
    destruct (Num.int_mul height (Py.lit 75 1000)) as [size |]; [| discriminate].
    destruct (pal !! "muted") as [muted |]; [| discriminate].
    cbn [rbind]. intros [= <-]. right.
    exists (String c s), y, size, muted. repeat split. discriminate.
  - intros [= <-]. now left.
Qed.

(** Every document ends with the subtitle slot, filled with what
    [subtitle_tag] built. *)
Lemma svg_document_tail `{R : Random} `{P : Pillow}
      (text : string) (subtitle : option string) (width height : Z) (pal : palette)
      (style : string) (animated : bool) (w w' : world) (doc : string) :
  svg_document text subtitle width height (Some pal) style animated w = (Ok doc, w') ->
  exists sub, subtitle_tag subtitle width height pal = Ok sub
              /\ exists head, doc = head +:+ svg_tail animated sub.
Proof.
  unfold svg_document, bind, lift.
  destruct (getitem pal "accent") as [color |]; [| discriminate].
  destruct (accent_func style width height color w) as [[accent |] w1]; [| discriminate].
  destruct (subtitle_tag subtitle width height pal) as [sub |]; [| discriminate].
  destruct (getitem pal "bg") as [bg |];
    [| destruct animated; discriminate].
  destruct (getitem pal "gradient_start") as [gs |];
    [| destruct animated; discriminate].
  destruct (getitem pal "gradient_end") as [ge |];
    [| destruct animated; discriminate].
  destruct (Num.int_mul height (Py.lit 55 100)) as [y |];
    [| destruct animated; discriminate].
  destruct (Num.int_mul height (Py.lit 2 10)) as [size |];
    [| destruct animated; discriminate].
  destruct animated; cbn [rbind].
  - intros [= <- <-]. exists sub. split; [reflexivity |].
    unfold SVG_ANIMATED_TEMPLATE, svg_tail. split_lines 17%nat.
  - destruct (getitem pal "text") as [fill_ |]; [| discriminate].
    cbn [rbind]. intros [= <- <-]. exists sub. split; [reflexivity |].
    unfold SVG_TEMPLATE_SIMPLE, svg_tail. split_lines 14%nat.
Qed.

(** What a composed document is made of: the template of its kind with
    every slot filled from the request and the palette. *)
Lemma svg_document_shape `{R : Random} `{P : Pillow}
      (text : string) (subtitle : option string) (width height : Z) (pal : palette)
      (style : string) (animated : bool) (w w' : world) (doc : string) :
  svg_document text subtitle width height (Some pal) style animated w = (Ok doc, w') ->
  exists color accent sub bg gs ge y fs,
    pal !! "accent" = Some color
    /\ fst (accent_func style width height color w) = Ok accent
    /\ subtitle_tag subtitle width height pal = Ok sub
    /\ pal !! "bg" = Some bg
    /\ pal !! "gradient_start" = Some gs
    /\ pal !! "gradient_end" = Some ge
    /\ Num.int_mul height (Py.lit 55 100) = Ok y
    /\ Num.int_mul height (Py.lit 2 10) = Ok fs
    /\ if animated
       then doc = SVG_ANIMATED_TEMPLATE (Py.str_of_int width) (Py.str_of_int height)
                    bg gs ge accent (Py.str_of_int (width / 2)) (Py.str_of_int y)
                    "Orbitron,Inter,Arial" (Py.str_of_int fs) text sub
       else exists fill_,
              pal !! "text" = Some fill_
              /\ doc = SVG_TEMPLATE_SIMPLE (Py.str_of_int width) (Py.str_of_int height)
                         text bg gs ge glow_filter accent (Py.str_of_int (width / 2))
                         (Py.str_of_int y) "Orbitron,Inter,Arial" (Py.str_of_int fs)
                         fill_
                         (if String.eqb style "glow"
                          then "filter=" +:+ (dq +:+ "url(#glow)" +:+ dq) else "")
                         text sub "".
Proof.
  unfold svg_document, bind, lift, getitem.
  destruct (pal !! "accent") as [color |]; [| discriminate].
  destruct (accent_func style width height color w) as [[accent |] w1] eqn:Hacc;
    [| discriminate].
  destruct (subtitle_tag subtitle width height pal) as [sub |]; [| discriminate].
  destruct (pal !! "bg") as [bg |]; [| destruct animated; discriminate].
  destruct (pal !! "gradient_start") as [gs |]; [| destruct animated; discriminate].
  destruct (pal !! "gradient_end") as [ge |]; [| destruct animated; discriminate].
  destruct (Num.int_mul height (Py.lit 55 100)) as [y |];
    [| destruct animated; discriminate].
  destruct (Num.int_mul height (Py.lit 2 10)) as [fs |];
    [| destruct animated; discriminate].
  intros Hdoc. exists color, accent, sub, bg, gs, ge, y, fs.
  rewrite Hacc. repeat (split; [reflexivity |]).
  destruct animated; cbn [rbind] in Hdoc.
  - now injection Hdoc as <- <-.
  - destruct (pal !! "text") as [fill_ |]; [| discriminate].
    cbn [rbind] in Hdoc. injection Hdoc as <- <-. now exists fill_.
Qed.

(** C7, as stated, fails: for the height 300 of its own example the claim
    gives the subtitle the font size 0.075 * 300 = 22.5, while the document
    the code composes for text="Test", subtitle="Sub", 1200x300, "stealth",
    "wave" carries the truncated size 22 and no size 22.5 anywhere. *)
Lemma subtitle_size_counterexample :
  fst (@svg_document Ref.lcg Ref.recorder "Test" (Some "Sub") 1200 300
         (Some Ref.stealth_palette) "wave" false Ref.world0)
  = Ok Ref.subtitled_document
  /\ Py.repr_float (spec_subtitle_font_size 300) = "22.5"
  /\ Num.int_mul 300 (Py.lit 75 1000) = Ok 22
  /\ contains (" font-size=" +:+ dq +:+ "22" +:+ dq +:+ " fill=" +:+ dq +:+ "#9aa4ad" +:+ dq)
       Ref.subtitled_document = true
  /\ contains (" font-size=" +:+ dq +:+ "22.5" +:+ dq) Ref.subtitled_document = false.
Proof. vm_compute. repeat split; reflexivity. Qed.

(** C7, amended. The request text="Test", 1200x300, palette "stealth",
    style "wave", no subtitle, yields a document that holds the title
    element with text-anchor "middle", exactly one [<text] element, and an
    empty subtitle slot.  In general a composed document is the template of
    its kind, plain or animated, with every slot filled from the request
    and the palette, and it ends with the subtitle slot; that slot is empty
    when the subtitle is absent or empty, and otherwise holds exactly one
    [<text>] element with x = width // 2, y = int(height * 0.78), font size
    int(height * 0.075), both truncated, the fill of the palette's muted
    color and text-anchor "middle", around the subtitle. *)
Theorem svg_subtitle_only_when_given `{R : Random} `{P : Pillow} :
  (forall w : world,
      exists pal doc,
        get_palette "stealth" = Ok pal
        /\ svg_document "Test" None 1200 300 (Some pal) "wave" false w = (Ok doc, w)
        /\ contains test_title_element doc = true
        /\ occurrences "<text" doc = 1%nat
        /\ exists head, doc = head +:+ svg_tail false EmptyString)
  /\ (forall text subtitle width height pal style animated (w : world) doc,
        fst (svg_document text subtitle width height (Some pal) style animated w) = Ok doc ->
        exists color accent sub bg gs ge y fs,
          pal !! "accent" = Some color
          /\ fst (accent_func style width height color w) = Ok accent
          /\ pal !! "bg" = Some bg
          /\ pal !! "gradient_start" = Some gs
          /\ pal !! "gradient_end" = Some ge
          /\ Num.int_mul height (Py.lit 55 100) = Ok y
          /\ Num.int_mul height (Py.lit 2 10) = Ok fs
          /\ (if animated
              then doc = SVG_ANIMATED_TEMPLATE (Py.str_of_int width) (Py.str_of_int height)
                           bg gs ge accent (Py.str_of_int (width / 2)) (Py.str_of_int y)
                           "Orbitron,Inter,Arial" (Py.str_of_int fs) text sub
              else exists fill_,
                     pal !! "text" = Some fill_
                     /\ doc = SVG_TEMPLATE_SIMPLE (Py.str_of_int width)
                                (Py.str_of_int height) text bg gs ge glow_filter accent
                                (Py.str_of_int (width / 2)) (Py.str_of_int y)
                                "Orbitron,Inter,Arial" (Py.str_of_int fs) fill_
                                (if String.eqb style "glow"
                                 then "filter=" +:+ (dq +:+ "url(#glow)" +:+ dq) else "")
                                text sub "")
          /\ (exists head, doc = head +:+ svg_tail animated sub)
          /\ ((Py.truthy subtitle = false /\ sub = EmptyString)
              \/ (exists s sy size muted,
                     subtitle = Some s /\ s <> EmptyString
                     /\ Num.int_mul height (Py.lit 78 100) = Ok sy
                     /\ Num.int_mul height (Py.lit 75 1000) = Ok size
                     /\ pal !! "muted" = Some muted
                     /\ sub = "<text x=" +:+ (dq +:+ Py.str_of_int (width / 2) +:+ dq)
                              +:+ " y=" +:+ (dq +:+ Py.str_of_int sy +:+ dq)
                              +:+ " font-family=" +:+ (dq +:+ "Inter,Arial,Helvetica" +:+ dq)
                              +:+ " font-size=" +:+ (dq +:+ Py.str_of_int size +:+ dq)
                              +:+ " fill=" +:+ (dq +:+ muted +:+ dq)
                              +:+ " text-anchor=" +:+ (dq +:+ "middle" +:+ dq)
                              +:+ ">" +:+ s +:+ "</text>")))
  /\ Num.int_mul 300 (Py.lit 78 100) = Ok 234
  /\ Num.int_mul 300 (Py.lit 75 1000) = Ok 22.
Proof.
  split; [| split; [| vm_compute; split; reflexivity]].
  - intros w.
    let r := eval vm_compute in (get_palette "stealth") in
    match r with
    | Ok ?p =>
        exists p;
        let d := eval vm_compute in
                   (svg_document "Test" None 1200 300 (Some p) "wave" false w) in
        match d with
        | (Ok ?doc, _) =>
            exists doc;
            assert (Hdoc : svg_document "Test" None 1200 300 (Some p) "wave" false w
                           = (Ok doc, w)) by (vm_compute; reflexivity)
        end
    end.
    split; [vm_compute; reflexivity |].
    split; [exact Hdoc |].
    split; [vm_compute; reflexivity |].
    split; [vm_compute; reflexivity |].
    destruct (svg_document_tail _ _ _ _ _ _ _ _ _ _ Hdoc) as (sub & Hsub & head & Hhead).
    injection Hsub as <-. now exists head.
  - intros text subtitle width height pal style animated w doc Hdoc.
    destruct (svg_document text subtitle width height (Some pal) style animated w)
      as [r w'] eqn:Hrun.
    cbn [fst] in Hdoc. subst r.
    destruct (svg_document_shape _ _ _ _ _ _ _ _ _ _ Hrun)
      as (color & accent & sub & bg & gs & ge & y & fs
          & Hcolor & Hacc & Hsub & Hbg & Hgs & Hge & Hy & Hfs & Hshape).
    destruct (svg_document_tail _ _ _ _ _ _ _ _ _ _ Hrun) as (sub' & Hsub' & Htail).
    rewrite Hsub in Hsub'. injection Hsub' as <-.
    exists color, accent, sub, bg, gs, ge, y, fs.
    do 8 (split; [assumption |]).
    split; [exact Htail |].
    destruct (subtitle_tag_cases subtitle width height pal sub Hsub)
      as [Hnone | (s & sy & size & muted & Hs & Hne & Hsy & Hsize & Hmuted & Helem)];
      [now left | right].
    exists s, sy, size, muted. do 5 (split; [assumption |]). exact Helem.
Qed.

Lemma svg_subtitle_only_when_given_witness :
  exists color accent sub bg gs ge y fs,
    Ref.stealth_palette !! "accent" = Some color
    /\ fst (@accent_func Ref.lcg Ref.recorder "wave" 1200 300 color Ref.world0) = Ok accent
    /\ Ref.stealth_palette !! "bg" = Some bg
    /\ Ref.stealth_palette !! "gradient_start" = Some gs
    /\ Ref.stealth_palette !! "gradient_end" = Some ge
    /\ Num.int_mul 300 (Py.lit 55 100) = Ok y
    /\ Num.int_mul 300 (Py.lit 2 10) = Ok fs
    /\ (if false
        then Ref.subtitled_document
             = SVG_ANIMATED_TEMPLATE (Py.str_of_int 1200) (Py.str_of_int 300)
                 bg gs ge accent (Py.str_of_int (1200 / 2)) (Py.str_of_int y)
                 "Orbitron,Inter,Arial" (Py.str_of_int fs) "Test" sub
        else exists fill_,
               Ref.stealth_palette !! "text" = Some fill_
               /\ Ref.subtitled_document
                  = SVG_TEMPLATE_SIMPLE (Py.str_of_int 1200) (Py.str_of_int 300) "Test"
                      bg gs ge glow_filter accent (Py.str_of_int (1200 / 2))
                      (Py.str_of_int y) "Orbitron,Inter,Arial" (Py.str_of_int fs) fill_
                      (if String.eqb "wave" "glow"
                       then "filter=" +:+ (dq +:+ "url(#glow)" +:+ dq) else "")
                      "Test" sub "")
    /\ (exists head, Ref.subtitled_document = head +:+ svg_tail false sub)
    /\ ((Py.truthy (Some "Sub") = false /\ sub = EmptyString)
        \/ (exists s sy size muted,
               Some "Sub" = Some s /\ s <> EmptyString
               /\ Num.int_mul 300 (Py.lit 78 100) = Ok sy
               /\ Num.int_mul 300 (Py.lit 75 1000) = Ok size
               /\ Ref.stealth_palette !! "muted" = Some muted
               /\ sub = "<text x=" +:+ (dq +:+ Py.str_of_int (1200 / 2) +:+ dq)
                        +:+ " y=" +:+ (dq +:+ Py.str_of_int sy +:+ dq)
                        +:+ " font-family=" +:+ (dq +:+ "Inter,Arial,Helvetica" +:+ dq)
                        +:+ " font-size=" +:+ (dq +:+ Py.str_of_int size +:+ dq)
                        +:+ " fill=" +:+ (dq +:+ muted +:+ dq)
                        +:+ " text-anchor=" +:+ (dq +:+ "middle" +:+ dq)
                        +:+ ">" +:+ s +:+ "</text>")).
Proof.
  apply (proj1 (proj2 (@svg_subtitle_only_when_given Ref.lcg Ref.recorder))
           "Test" (Some "Sub") 1200 300 Ref.stealth_palette "wave" false
           Ref.world0 Ref.subtitled_document).
  vm_compute. reflexivity.
Defined.

(** With a subtitle the same request yields two [<text] elements, the
    second at y = 234 with font size 22 in the muted color. *)
Example subtitled_document_elements :
  contains Ref.subtitled_element Ref.subtitled_document = true
  /\ occurrences "<text" Ref.subtitled_document = 2%nat
  /\ Num.int_mul 300 (Py.lit 78 100) = Ok 234
  /\ Num.int_mul 300 (Py.lit 75 1000) = Ok 22.
Proof. vm_compute. repeat split; reflexivity. Qed.

(** ** Batch processing *)

Section Writes.
Context `{R : Random} `{P : Pillow}.

Lemma adds_ret {A} (a : A) : adds_writes 0 (ret a).
Proof. intros w. cbn. lia. Qed.

Lemma adds_raise {A} (k : nat) (e : exn) : adds_writes k (@raise R P A e).
Proof. intros w. exact I. Qed.

Lemma adds_lift {A} (r : result A) : adds_writes 0 (lift r).
Proof. intros w. unfold lift. destruct r; [cbn; lia | exact I]. Qed.

Lemma adds_echo (line : string) : adds_writes 0 (echo line).
Proof. intros w. cbn. lia. Qed.

Lemma adds_seed (n : Z) : adds_writes 0 (seed n).
Proof. intros w. cbn. lia. Qed.

Lemma adds_randint (a b : Z) : adds_writes 0 (randint a b).
Proof.
  intros w. unfold randint.
  destruct (random_randint a b (w_rng w)) as [[v g] |]; [cbn; lia | exact I].
Qed.

Lemma adds_write_file (path : string) (a : artifact) : adds_writes 1 (write_file path a).
Proof. intros w. cbn. rewrite length_app. cbn. lia. Qed.

Lemma adds_bind {A B} (j k : nat) (m : M A) (f : A -> M B) :
  adds_writes j m -> (forall a, adds_writes k (f a)) -> adds_writes (j + k) (bind m f).
Proof.
  intros Hm Hf w. unfold bind. specialize (Hm w).
  destruct (m w) as [[a |] w1]; [| exact I].
  specialize (Hf a w1). destruct (f a w1) as [[b |] w2]; [lia | exact I].
Qed.

Lemma adds_particles_loop (color : string) (opacity : Py.float) (width height : Z)
      (n : nat) :
  forall acc, adds_writes 0 (particles_loop n width height color opacity acc).
Proof.
  induction n as [| n IH]; intros acc; cbn [particles_loop].
  - apply adds_ret.
  - apply (adds_bind 0 0); [| intros p; apply IH].
    unfold particle.
    apply (adds_bind 0 0); [apply adds_randint | intros x].
    apply (adds_bind 0 0); [apply adds_randint | intros y].
    apply (adds_bind 0 0); [apply adds_randint | intros r].
    apply adds_ret.
Qed.

Lemma adds_accent_func (style : string) (width height : Z) (color : string) :
  adds_writes 0 (accent_func style width height color).
Proof.
  unfold accent_func.
  repeat (match goal with |- context [String.eqb ?a ?b] => destruct (String.eqb a b) end);
    try apply adds_lift.
  unfold svg_accent_particles.
  apply (adds_bind 0 0); [apply adds_seed | intros _].
  apply (adds_bind 0 0); [apply adds_particles_loop | intros ps; apply adds_ret].
Qed.

Lemma adds_svg_document (text : string) (subtitle : option string) (width height : Z)
      (pal : option palette) (style : string) (animated : bool) :
  adds_writes 0 (svg_document text subtitle width height pal style animated).
Proof.
  unfold svg_document.
  apply (adds_bind 0 0); [apply adds_lift | intros p].
  apply (adds_bind 0 0); [apply adds_lift | intros color].
  apply (adds_bind 0 0); [apply adds_accent_func | intros accent].
  apply (adds_bind 0 0); [apply adds_lift | intros sub].
  destruct animated; apply adds_lift.
Qed.

Lemma adds_write_svg (path text : string) (subtitle : option string) (width height : Z)
      (pal : option palette) (style : string) (animated : bool) :
  adds_writes 1 (write_svg path text subtitle width height pal style animated).
Proof.
  unfold write_svg.
  apply (adds_bind 0 1); [apply adds_svg_document | intros doc; apply adds_write_file].
Qed.

Lemma adds_render_png_text `{H : Host} (path text : string) (subtitle : option string)
      (width height : Z) (pal : option palette) (font_path : option string)
      (effects : option (list string)) :
  adds_writes 1 (render_png_text path text subtitle width height pal font_path effects).
Proof.
  unfold render_png_text.
  apply (adds_bind 0 1); [apply adds_lift | intros img; apply adds_write_file].
Qed.

End Writes.

Section Batch.
Context `{R : Random} `{P : Pillow} `{F : Figlet} `{H : Host}.

(** A record of a known kind, when it is processed without error, leaves
    exactly one more file. *)
Lemma adds_batch_item (outdir : string) (total idx : nat) (it : item)
      (path : option string) :
  known_kind it = true ->
  adds_writes 1 (batch_item outdir total idx it path).
Proof.
  unfold known_kind, batch_item. intros Hkind.
  apply (adds_bind 0 1); [apply adds_lift | intros text].
  apply (adds_bind 0 1); [apply adds_echo | intros _].
  apply (adds_bind 1 0).
  - destruct (String.eqb (default "svg" (i_kind it)) "ascii").
    { destruct (ascii_banner _ _ _ _).
      - apply (adds_bind 1 0); [apply adds_write_file | intros _; apply adds_ret].
      - apply (adds_bind 1 0); [apply adds_write_file | intros _; apply adds_raise]. }
    destruct (String.eqb (default "svg" (i_kind it)) "svg").
    { apply (adds_bind 0 1); [apply adds_lift | intros pal].
      apply (adds_bind 1 0); [apply adds_write_svg | intros _; apply adds_ret]. }
    destruct (String.eqb (default "svg" (i_kind it)) "png"); [| discriminate Hkind].
    apply (adds_bind 0 1); [apply adds_lift | intros pal].
    apply (adds_bind 1 0); [apply adds_render_png_text | intros _; apply adds_ret].
  - intros [p |]; [| apply adds_raise].
    apply (adds_bind 0 0); [apply adds_echo | intros _; apply adds_ret].
Qed.

Lemma adds_batch_loop (outdir : string) (total : nat) (data : list item) :
  forallb known_kind data = true ->
  forall idx path,
    adds_writes (List.length data) (batch_loop outdir total idx data path).
Proof.
  induction data as [| it rest IH]; intros Hkinds idx path; cbn [batch_loop List.length].
  - apply adds_ret.
  - cbn [forallb] in Hkinds. apply andb_prop in Hkinds as [Hit Hrest].
    apply (adds_bind 1 (List.length rest)).
    + now apply adds_batch_item.
    + intros path'. now apply IH.
Qed.

(** A record without [text] raises before it has any effect. *)
Lemma batch_item_missing_text (outdir : string) (total idx : nat) (it : item)
      (path : option string) (w : world) :
  i_text it = None ->
  batch_item outdir total idx it path w = (Err (KeyError "text"), w).
Proof. intros Hnone. unfold batch_item. rewrite Hnone. reflexivity. Qed.

(** The loop is decided by the records before the first one without
    [text]: their failure is the outcome, and otherwise the [KeyError]. *)
Lemma batch_loop_stops (outdir : string) (total : nat) (bad : item) (post : list item) :
  i_text bad = None ->
  forall (pre : list item) (idx : nat) (path : option string) (w : world),
    batch_loop outdir total idx (pre ++ bad :: post) path w
    = match batch_loop outdir total idx pre path w with
      | (Ok _, w') => (Err (KeyError "text"), w')
      | (Err e, w') => (Err e, w')
      end.
Proof.
  intros Hbad. induction pre as [| it pre IH]; intros idx path w.
  - cbn [app batch_loop]. unfold bind at 1.
    now rewrite batch_item_missing_text.
  - cbn [app batch_loop]. unfold bind.
    destruct (batch_item outdir total idx it path w) as [[path' |] w1];
      [apply IH | reflexivity].
Qed.

(** C2, amended. [batch] handles the records in order and has no recovery:
    when the records before the first one without [text] are of a known
    kind and are processed without error, each of them has left one file,
    and the record without [text] then raises [KeyError "text"], which ends
    the command: the records after it are not processed and nothing more is
    written or echoed. *)
Theorem batch_stops_at_missing_text
        (spec outdir : string) (pre post : list item) (bad : item) (w : world) :
  i_text bad = None ->
  (Py.endswith spec ".yaml" || Py.endswith spec ".yml") && negb has_yaml = false ->
  forallb known_kind pre = true ->
  fst (batch_loop outdir (List.length (pre ++ bad :: post)) 1 pre None w) = Ok tt ->
  fst (batch spec (pre ++ bad :: post) outdir w) = Err (KeyError "text")
  /\ snd (batch spec (pre ++ bad :: post) outdir w)
     = snd (batch_loop outdir (List.length (pre ++ bad :: post)) 1 pre None w)
  /\ List.length (w_writes (snd (batch spec (pre ++ bad :: post) outdir w)))
     = (List.length (w_writes w) + List.length pre)%nat.
Proof.
  intros Hbad Hyaml Hkinds Hpre.
  assert (Hrun : batch spec (pre ++ bad :: post) outdir w
                 = (Err (KeyError "text"),
                    snd (batch_loop outdir (List.length (pre ++ bad :: post)) 1 pre None w))).
  { unfold batch. rewrite Hyaml.
    unfold bind at 1. cbn [ret]. unfold bind at 1. cbn [ensure_dir ret].
    unfold bind at 1. rewrite (batch_loop_stops outdir _ bad post Hbad).
    destruct (batch_loop outdir _ 1 pre None w) as [[[] |] w1]; [reflexivity |].
    discriminate Hpre. }
  rewrite Hrun. cbn [fst snd]. repeat split.
  pose proof (adds_batch_loop outdir (List.length (pre ++ bad :: post)) pre Hkinds 1 None w)
    as Hadds.
  destruct (batch_loop outdir _ 1 pre None w) as [[[] |] w1]; [exact Hadds |].
  discriminate Hpre.
Qed.

End Batch.

(** C2, as stated, fails: on a batch of two valid records around one
    without [text], the command ends with [KeyError "text"]; only the first
    record has left a file, the third is never reached, and no completion
    line is echoed. *)
Lemma batch_partial_failure_counterexample :
  let run := @batch Ref.lcg Ref.recorder Ref.plain_figlet Ref.full_host
               "spec.json" Ref.batch_with_gap "out" Ref.world0 in
  fst run = Err (KeyError "text")
  /\ map fst (w_writes (snd run)) = ["out/Alpha.svg"]
  /\ List.length (w_writes (snd run)) <> 2%nat
  /\ w_stdout (snd run) = ["[1/3] Generating svg: Alpha"; "  ✓ out/Alpha.svg"].
Proof. vm_compute. repeat split; try reflexivity. discriminate. Qed.

Lemma batch_stops_at_missing_text_witness :
  fst (@batch Ref.lcg Ref.recorder Ref.plain_figlet Ref.full_host "spec.json"
         ([Ref.record (Some "svg") (Some "Alpha")]
          ++ Ref.record (Some "svg") None :: [Ref.record None (Some "Beta")])
         "out" Ref.world0)
  = Err (KeyError "text")
  /\ snd (@batch Ref.lcg Ref.recorder Ref.plain_figlet Ref.full_host "spec.json"
            ([Ref.record (Some "svg") (Some "Alpha")]
             ++ Ref.record (Some "svg") None :: [Ref.record None (Some "Beta")])
            "out" Ref.world0)
     = snd (@batch_loop Ref.lcg Ref.recorder Ref.plain_figlet Ref.full_host "out"
              (List.length ([Ref.record (Some "svg") (Some "Alpha")]
                            ++ Ref.record (Some "svg") None
                               :: [Ref.record None (Some "Beta")]))
              1 [Ref.record (Some "svg") (Some "Alpha")] None Ref.world0)
  /\ List.length
       (w_writes
          (snd (@batch Ref.lcg Ref.recorder Ref.plain_figlet Ref.full_host "spec.json"
                  ([Ref.record (Some "svg") (Some "Alpha")]
                   ++ Ref.record (Some "svg") None :: [Ref.record None (Some "Beta")])
                  "out" Ref.world0)))
     = (List.length (w_writes Ref.world0)
        + List.length [Ref.record (Some "svg") (Some "Alpha")])%nat.
Proof.
  apply (@batch_stops_at_missing_text Ref.lcg Ref.recorder Ref.plain_figlet Ref.full_host
           "spec.json" "out" [Ref.record (Some "svg") (Some "Alpha")]
           [Ref.record None (Some "Beta")] (Ref.record (Some "svg") None) Ref.world0);
    vm_compute; reflexivity.
Defined.

(** * Further properties *)

(** ** [strip_ansi] *)

Lemma match_params_shorter (s rest : string) :
  match_params s = Some rest -> (String.length rest < String.length s)%nat.
Proof.
  revert rest. induction s as [| c s IH]; intros rest; [discriminate |].
  cbn [match_params String.length].
  destruct (is_param c).
  - intros H. apply IH in H. lia.
  - destruct (Ascii.eqb c "m"); [| discriminate]. intros [= <-]. lia.
Qed.

Lemma match_ansi_shorter (s rest : string) :
  match_ansi s = Some rest -> (String.length rest < String.length s)%nat.
Proof.
  destruct s as [| e [| b [| c s]]]; try discriminate.
  cbn [match_ansi String.length].
  destruct (Ascii.eqb e ESC && Ascii.eqb b "[" && is_param c); [| discriminate].
  intros H. apply match_params_shorter in H. lia.
Qed.

Lemma sub_ansi_length (fuel : nat) :
  forall s, (String.length (sub_ansi fuel s) <= String.length s)%nat.
Proof.
  induction fuel as [| fuel IH]; intros s; [cbn; lia |].
  cbn [sub_ansi]. destruct (match_ansi s) as [rest |] eqn:Hm.
  - apply match_ansi_shorter in Hm. specialize (IH rest). lia.
  - destruct s as [| c s]; [cbn; lia |].
    cbn [String.length]. specialize (IH s). lia.
Qed.

Lemma sub_ansi_clean_fixed (fuel : nat) :
  forall s, contains_ansi s = false -> sub_ansi fuel s = s.
Proof.
  induction fuel as [| fuel IH]; intros s Hclean; [reflexivity |].
  destruct s as [| c s]; [reflexivity |].
  cbn [contains_ansi] in Hclean. cbn [sub_ansi].
  destruct (match_ansi (String c s)); [discriminate |].
  now rewrite IH.
Qed.

Lemma sub_ansi_dirty_shorter (fuel : nat) :
  forall s, (String.length s <= fuel)%nat -> contains_ansi s = true ->
            (String.length (sub_ansi fuel s) < String.length s)%nat.
Proof.
  induction fuel as [| fuel IH]; intros s Hfuel Hdirty.
  - destruct s; [discriminate Hdirty | cbn in Hfuel; lia].
  - destruct s as [| c s]; [discriminate Hdirty |].
    cbn [contains_ansi] in Hdirty. cbn [sub_ansi].
    destruct (match_ansi (String c s)) as [rest |] eqn:Hm.
    + apply match_ansi_shorter in Hm.
      pose proof (sub_ansi_length fuel rest). lia.
    + cbn [String.length] in *. specialize (IH s ltac:(lia) Hdirty). lia.
Qed.

(** X1. [strip_ansi] never lengthens a text, and it changes a text exactly
    when a color sequence starts somewhere in it. *)
Theorem strip_ansi_changes_iff (s : string) :
  (String.length (strip_ansi s) <= String.length s)%nat
  /\ (strip_ansi s = s <-> contains_ansi s = false).
Proof.
  unfold strip_ansi. split; [apply sub_ansi_length |]. split.
  - intros Hfix. destruct (contains_ansi s) eqn:Hc; [| reflexivity].
    pose proof (sub_ansi_dirty_shorter (String.length s) s (Nat.le_refl _) Hc) as Hlt.
    rewrite Hfix in Hlt. lia.
  - apply sub_ansi_clean_fixed.
Qed.

Lemma strip_ansi_changes_iff_witness :
  strip_ansi "plain text" = "plain text".
Proof.
  apply (proj2 (proj2 (strip_ansi_changes_iff "plain text"))). reflexivity.
Defined.

Lemma sub_ansi_step_keep (fuel : nat) (c : ascii) (s : string) :
  match_ansi (String c s) = None ->
  sub_ansi (S fuel) (String c s) = String c (sub_ansi fuel s).
Proof. intros H. cbn [sub_ansi]. now rewrite H. Qed.

Lemma match_ansi_not_esc (c : ascii) (s : string) :
  Ascii.eqb c ESC = false -> match_ansi (String c s) = None.
Proof.
  intros Hc. destruct s as [| b [| p s]]; try reflexivity.
  cbn [match_ansi]. now rewrite Hc.
Qed.

Lemma sub_ansi_step_match (fuel : nat) (s rest : string) :
  match_ansi s = Some rest -> sub_ansi (S fuel) s = sub_ansi fuel rest.
Proof. intros H. cbn [sub_ansi]. now rewrite H. Qed.

(** Fuel beyond the length of the text changes nothing. *)
Lemma sub_ansi_fuel (f1 : nat) :
  forall f2 s, (String.length s <= f1)%nat -> (String.length s <= f2)%nat ->
               sub_ansi f1 s = sub_ansi f2 s.
Proof.
  induction f1 as [| f1 IH]; intros f2 s H1 H2.
  - destruct s; [| cbn in H1; lia]. destruct f2; reflexivity.
  - destruct f2 as [| f2].
    { destruct s; [reflexivity | cbn in H2; lia]. }
    cbn [sub_ansi]. destruct (match_ansi s) as [rest |] eqn:Hm.
    + apply match_ansi_shorter in Hm. apply IH; lia.
    + destruct s as [| c s]; [reflexivity |].
      cbn [String.length] in *. f_equal. apply IH; lia.
Qed.

(** X2. Stripping is a single pass: when a color sequence is wrapped around
    another one, removing the inner one leaves the outer one behind, so the
    result of [strip_ansi] still holds a color sequence. *)
Theorem strip_ansi_single_pass (s : string) :
  strip_ansi (nested_code +:+ s) = reset_code +:+ strip_ansi s
  /\ contains_ansi (strip_ansi (nested_code +:+ s)) = true.
Proof.
  assert (Hstrip : strip_ansi (nested_code +:+ s) = reset_code +:+ strip_ansi s).
  { unfold strip_ansi.
    change (nested_code +:+ s)
      with (String ESC (String "[" (String ESC (String "[" (String "0" (String "m"
             (String "0" (String "m" s)))))))).
    cbn [String.length].
    rewrite sub_ansi_step_keep by reflexivity.
    rewrite sub_ansi_step_keep by reflexivity.
    rewrite (sub_ansi_step_match _ _ (String "0" (String "m" s))) by reflexivity.
    rewrite sub_ansi_step_keep by now apply match_ansi_not_esc.
    rewrite sub_ansi_step_keep by now apply match_ansi_not_esc.
    rewrite (sub_ansi_fuel _ (String.length s) s) by lia.
    reflexivity. }
  split; [exact Hstrip |].
  rewrite Hstrip. reflexivity.
Qed.

(** ** [_hex_to_rgb] *)

Lemma hex_val_is_hex (c : ascii) (v : Z) : hex_val c = Some v -> is_hex c = true.
Proof. unfold is_hex. now intros ->. Qed.

Lemma int16_two_digits_value (a b : ascii) (x y : Z) :
  hex_val a = Some x -> hex_val b = Some y ->
  PyInt.int16 (String a (String b EmptyString)) = Ok (16 * x + y).
Proof.
  intros Ha Hb.
  pose proof (is_hex_in a (hex_val_is_hex a x Ha)) as Hina.
  pose proof (is_hex_in b (hex_val_is_hex b y Hb)) as Hinb.
  pose proof field_reads_all as Hall.
  rewrite forallb_forall in Hall. specialize (Hall a Hina).
  rewrite forallb_forall in Hall. specialize (Hall b Hinb).
  unfold field_reads in Hall. rewrite Ha, Hb in Hall.
  destruct (PyInt.int16 _) as [v |]; [| discriminate].
  apply andb_prop in Hall as [Hall _]. apply andb_prop in Hall as [Hv _].
  apply Z.eqb_eq in Hv. now subst.
Qed.

Lemma lstrip_hashes (k : nat) (a : ascii) (rest : string) :
  is_hex a = true ->
  Py.lstrip_char "#" (hashes k +:+ String a rest) = String a rest.
Proof.
  intros Ha. induction k as [| k IH].
  - change (hashes 0 +:+ String a rest) with (String a rest).
    cbn [Py.lstrip_char].
    rewrite (is_hex_not_hash a Ha). reflexivity.
  - change (hashes (S k) +:+ String a rest)
      with (String "#" (hashes k +:+ String a rest)).
    cbn [Py.lstrip_char]. change (Ascii.eqb "#" "#") with true. exact IH.
Qed.

(** X3. A color of six hexadecimal digits converts to the three values
    [16 * hi + lo] of its digit pairs, in either letter case, however many
    hash signs lead it and whatever follows the sixth digit. *)
Theorem hex_to_rgb_value (k : nat) (a b c d e f : ascii) (tail : string)
        (va vb vc vd ve vf : Z) :
  hex_val a = Some va -> hex_val b = Some vb -> hex_val c = Some vc ->
  hex_val d = Some vd -> hex_val e = Some ve -> hex_val f = Some vf ->
  _hex_to_rgb (hashes k +:+ String a (String b (String c (String d (String e
                 (String f tail))))))
  = Ok (16 * va + vb, 16 * vc + vd, 16 * ve + vf).
Proof.
  intros Ha Hb Hc Hd He Hf. unfold _hex_to_rgb.
  rewrite (lstrip_hashes k a _ (hex_val_is_hex a va Ha)).
  cbn [Py.drop Py.take].
  rewrite (int16_two_digits_value a b va vb Ha Hb).
  rewrite (int16_two_digits_value c d vc vd Hc Hd).
  rewrite (int16_two_digits_value e f ve vf He Hf).
  reflexivity.
Qed.

Lemma hex_to_rgb_value_witness :
  _hex_to_rgb (hashes 2 +:+ String "F" (String "f" (String "8" (String "A" (String "3"
                 (String "b" "; trailing"))))))
  = Ok (16 * 15 + 15, 16 * 8 + 10, 16 * 3 + 11).
Proof.
  apply (hex_to_rgb_value 2 "F" "f" "8" "A" "3" "b" "; trailing" 15 15 8 10 3 11);
    reflexivity.
Defined.

Lemma int16_outcome (s : string) :
  (exists v, PyInt.int16 s = Ok v)
  \/ PyInt.int16 s = Err (ValueError "invalid literal for int() with base 16").
Proof.
  unfold PyInt.int16.
  destruct (PyInt.skip_sign (PyInt.lstrip_space s)) as [neg s1].
  destruct (PyInt.scan16 0 false false (PyInt.skip_prefix16 s1)) as [[v rest] |];
    [| now right].
  destruct (PyInt.all_space rest); [left; eauto | now right].
Qed.

(** X4. A color with fewer than five characters after its leading hash
    signs, such as the empty string or the short form [#fff], makes
    [_hex_to_rgb] raise [ValueError]: there is no third field to read. *)
Theorem hex_to_rgb_short (s : string) :
  (String.length (Py.lstrip_char "#" s) <= 4)%nat ->
  _hex_to_rgb s = Err (ValueError "invalid literal for int() with base 16").
Proof.
  intros Hlen. unfold _hex_to_rgb.
  destruct (Py.lstrip_char "#" s) as [| c1 [| c2 [| c3 [| c4 [| c5 t]]]]];
    cbn [Py.drop Py.take]; try (cbn in Hlen; lia);
    change (PyInt.int16 EmptyString)
      with (@Err Z (ValueError "invalid literal for int() with base 16"));
    try reflexivity;
    repeat match goal with
           | |- context [match PyInt.int16 ?x with _ => _ end] =>
               let H := fresh "H" in
               destruct (int16_outcome x) as [[? H] | H]; rewrite H; try reflexivity
           end.
Qed.

Lemma hex_to_rgb_short_witness :
  _hex_to_rgb "#fff" = Err (ValueError "invalid literal for int() with base 16").
Proof. apply (hex_to_rgb_short "#fff"). cbn. lia. Defined.

(** ** Templates *)

(** X5. Every template names a built-in palette, a style that has an accent
    generator and known effects only: applying a template never falls back
    to the default palette or to the default accent. *)
Theorem templates_name_builtins (name : string) (tmpl : template) :
  TEMPLATES !! name = Some tmpl ->
  (exists p, PALETTES !! t_palette tmpl = Some p /\ get_palette (t_palette tmpl) = Ok p)
  /\ In (t_style tmpl) accent_styles
  /\ Forall (fun e => In e known_effects) (t_effects tmpl).
Proof.
  intros Hname.
  assert (Hall : map_Forall (fun _ t => template_ok t = true) TEMPLATES)
    by (apply table_check; vm_compute; reflexivity).
  pose proof (Hall name tmpl Hname) as Hok. cbn beta in Hok.
  unfold template_ok in Hok.
  apply andb_prop in Hok as [Hok Heffects]. apply andb_prop in Hok as [Hpal Hstyle].
  split; [| split].
  - destruct (PALETTES !! t_palette tmpl) as [p |] eqn:Hp; [| discriminate].
    exists p. split; [reflexivity |].
    destruct PALETTES_stealth as [st Hst].
    unfold get_palette, getitem. now rewrite Hst, Hp.
  - apply existsb_exists in Hstyle as (x & Hx & Heq).
    apply String.eqb_eq in Heq. now subst.
  - apply Forall_forall. intros e He. apply list_elem_of_In in He.
    rewrite forallb_forall in Heffects. specialize (Heffects e He).
    apply existsb_exists in Heffects as (x & Hx & Heq).
    apply String.eqb_eq in Heq. now subst.
Qed.

Lemma templates_name_builtins_witness :
  (exists p, PALETTES !! t_palette (Template "particles" "cyberpunk" ["glow"; "shadow"])
             = Some p
             /\ get_palette (t_palette (Template "particles" "cyberpunk" ["glow"; "shadow"]))
                = Ok p)
  /\ In (t_style (Template "particles" "cyberpunk" ["glow"; "shadow"])) accent_styles
  /\ Forall (fun e => In e known_effects)
            (t_effects (Template "particles" "cyberpunk" ["glow"; "shadow"])).
Proof.
  apply (templates_name_builtins "cyberpunk"). vm_compute. reflexivity.
Defined.

(** ** What the renderers do to the world *)

Section Quiet.
Context `{R : Random} `{P : Pillow}.

Lemma quiet_ret {A} (a : A) : quiet (ret a).
Proof. intros w. now split. Qed.

Lemma quiet_raise {A} (e : exn) : quiet (@raise R P A e).
Proof. intros w. now split. Qed.

Lemma quiet_lift {A} (r : result A) : quiet (lift r).
Proof. intros w. now split. Qed.

Lemma quiet_seed (n : Z) : quiet (seed n).
Proof. intros w. now split. Qed.

Lemma quiet_randint (a b : Z) : quiet (randint a b).
Proof.
  intros w. unfold randint.
  destruct (random_randint a b (w_rng w)) as [[v g] |]; now split.
Qed.

Lemma quiet_bind {A B} (m : M A) (f : A -> M B) :
  quiet m -> (forall a, quiet (f a)) -> quiet (bind m f).
Proof.
  intros Hm Hf w. unfold bind. specialize (Hm w).
  destruct (m w) as [[a |] w1]; cbn [snd] in Hm; [| exact Hm].
  specialize (Hf a w1). destruct Hm as [Hw Hs]. destruct Hf as [Hw' Hs'].
  split; congruence.
Qed.

Lemma quiet_particles_loop (color : string) (opacity : Py.float) (width height : Z)
      (n : nat) :
  forall acc, quiet (particles_loop n width height color opacity acc).
Proof.
  induction n as [| n IH]; intros acc; cbn [particles_loop].
  - apply quiet_ret.
  - apply quiet_bind; [| intros p; apply IH].
    unfold particle.
    repeat (apply quiet_bind; [apply quiet_randint | intros ?]).
    apply quiet_ret.
Qed.

Lemma quiet_accent_func (style : string) (width height : Z) (color : string) :
  quiet (accent_func style width height color).
Proof.
  unfold accent_func.
  repeat (match goal with |- context [String.eqb ?a ?b] => destruct (String.eqb a b) end);
    try apply quiet_lift.
  unfold svg_accent_particles.
  apply quiet_bind; [apply quiet_seed | intros _].
  apply quiet_bind; [apply quiet_particles_loop | intros ps; apply quiet_ret].
Qed.

Lemma quiet_svg_document (text : string) (subtitle : option string) (width height : Z)
      (pal : option palette) (style : string) (animated : bool) :
  quiet (svg_document text subtitle width height pal style animated).
Proof.
  unfold svg_document.
  apply quiet_bind; [apply quiet_lift | intros p].
  apply quiet_bind; [apply quiet_lift | intros color].
  apply quiet_bind; [apply quiet_accent_func | intros accent].
  apply quiet_bind; [apply quiet_lift | intros sub].
  destruct animated; apply quiet_lift.
Qed.

(** X6. [write_svg] composes the whole document before it opens the file:
    when composing raises, the same exception leaves [write_svg] and no
    file has been written; when [write_svg] returns, it has written one
    file, at [path], holding the document that was composed.  Nothing is
    echoed either way. *)
Theorem write_svg_composes_first
        (path text : string) (subtitle : option string) (width height : Z)
        (pal : option palette) (style : string) (animated : bool) (w : world) :
  (forall e,
      fst (svg_document text subtitle width height pal style animated w) = Err e ->
      fst (write_svg path text subtitle width height pal style animated w) = Err e
      /\ w_writes (snd (write_svg path text subtitle width height pal style animated w))
         = w_writes w)
  /\ (fst (write_svg path text subtitle width height pal style animated w) = Ok tt ->
      exists doc,
        fst (svg_document text subtitle width height pal style animated w) = Ok doc
        /\ w_writes (snd (write_svg path text subtitle width height pal style animated w))
           = w_writes w ++ [(path, TextFile doc)])
  /\ w_stdout (snd (write_svg path text subtitle width height pal style animated w))
     = w_stdout w.
Proof.
  pose proof (quiet_svg_document text subtitle width height pal style animated w)
    as [Hw Hs].
  unfold write_svg, bind.
  destruct (svg_document text subtitle width height pal style animated w)
    as [[doc | e'] w1]; cbn [fst snd] in *.
  - split; [discriminate |]. split; [| exact Hs].
    intros _. exists doc. split; [reflexivity |].
    unfold write_file. cbn [snd w_writes]. now rewrite Hw.
  - split; [| split; [discriminate | exact Hs]].
    intros e [= ->]. now split.
Qed.

End Quiet.

Lemma write_svg_composes_first_witness :
  (fst (@write_svg Ref.lcg Ref.recorder "out.svg" "Test" None 1200 300 (Some ∅)
          "wave" false Ref.world0)
   = Err (KeyError "accent")
   /\ w_writes (snd (@write_svg Ref.lcg Ref.recorder "out.svg" "Test" None 1200 300
                       (Some ∅) "wave" false Ref.world0))
      = w_writes Ref.world0)
  /\ exists doc,
       fst (@svg_document Ref.lcg Ref.recorder "Test" None 1200 300
              (Some Ref.stealth_palette) "wave" false Ref.world0) = Ok doc
       /\ w_writes (snd (@write_svg Ref.lcg Ref.recorder "out.svg" "Test" None 1200 300
                           (Some Ref.stealth_palette) "wave" false Ref.world0))
          = w_writes Ref.world0 ++ [("out.svg", TextFile doc)].
Proof.
  split.
  - apply (proj1 (@write_svg_composes_first Ref.lcg Ref.recorder "out.svg" "Test" None
                    1200 300 (Some ∅) "wave" false Ref.world0)).
    vm_compute. reflexivity.
  - apply (proj1 (proj2 (@write_svg_composes_first Ref.lcg Ref.recorder "out.svg" "Test"
                           None 1200 300 (Some Ref.stealth_palette) "wave" false
                           Ref.world0))).
    vm_compute. reflexivity.
Defined.

(** ** Styles *)

Lemma existsb_cons_false {A} (f : A -> bool) (x : A) (l : list A) :
  existsb f (x :: l) = false -> f x = false /\ existsb f l = false.
Proof. cbn. apply orb_false_elim. Qed.

(** X7. A style without an accent generator of its own is drawn as "wave":
    any unknown style gives the very document of "wave", and so does "glow"
    when the banner is animated, where the glow filter is not used. *)
Theorem svg_document_style_fallback `{R : Random} `{P : Pillow}
        (text : string) (subtitle : option string) (width height : Z)
        (pal : option palette) (style : string) (animated : bool) (w : world) :
  existsb (String.eqb style) accent_styles = false ->
  (String.eqb style "glow" = false \/ animated = true) ->
  svg_document text subtitle width height pal style animated w
  = svg_document text subtitle width height pal "wave" animated w.
Proof.
  intros Hstyle Hglow. unfold accent_styles in Hstyle.
  apply existsb_cons_false in Hstyle as [Hwave Hstyle].
  apply existsb_cons_false in Hstyle as [Hgeo Hstyle].
  apply existsb_cons_false in Hstyle as [Hgrid Hstyle].
  apply existsb_cons_false in Hstyle as [Hpart _].
  unfold svg_document, accent_func.
  rewrite Hwave, Hgeo, Hgrid, Hpart.
  change (String.eqb "wave" "wave") with true.
  change (String.eqb "wave" "glow") with false.
  destruct Hglow as [-> | ->]; reflexivity.
Qed.

Lemma svg_document_style_fallback_witness :
  @svg_document Ref.lcg Ref.recorder "Test" None 1200 300 None "neon-tubes" false Ref.world0
  = @svg_document Ref.lcg Ref.recorder "Test" None 1200 300 None "wave" false Ref.world0.
Proof.
  apply (@svg_document_style_fallback Ref.lcg Ref.recorder); [reflexivity | now left].
Defined.

(** ** The global generator *)

Section Generator.
Context `{R : Random} `{P : Pillow}.

















End Generator.


(** ** Fonts and effects of the raster compositor *)

Section Fonts.
Context `{P : Pillow} `{H : Host}.

Lemma first_candidate_none (candidates : list string) (size : Z) :
  (forall c, In c candidates ->
             isfile c = false \/ exists e, truetype c size = Err e) ->
  first_candidate candidates size = load_default.
Proof.
  induction candidates as [| c rest IH]; intros Hnone; [reflexivity |].
  cbn [first_candidate].
  destruct (Hnone c (or_introl eq_refl)) as [-> | [e ->]].
  - apply IH. intros c' Hc'. apply Hnone. now right.
  - destruct (isfile c); apply IH; intros c' Hc'; apply Hnone; now right.
Qed.

Lemma first_candidate_walk (pre : list string) (c : string) (post : list string)
      (size : Z) (f : font) :
  (forall p, In p pre -> isfile p = false \/ exists e, truetype p size = Err e) ->
  isfile c = true ->
  truetype c size = Ok f ->
  first_candidate (pre ++ c :: post) size = f.
Proof.
  intros Hpre Hfile Hload. induction pre as [| p pre IH]; cbn [app first_candidate].
  - now rewrite Hfile, Hload.
  - assert (Hrest : first_candidate (pre ++ c :: post) size = f).
    { apply IH. intros p' Hp'. apply Hpre. now right. }
    destruct (Hpre p (or_introl eq_refl)) as [-> | [e ->]]; [assumption |].
    now destruct (isfile p).
Qed.

(** X9. The font resolver gives an explicit font file precedence and lets
    its loading error through. Without a usable explicit path it never
    raises: it returns the first platform candidate that exists and loads,
    passing over the candidates before it that are missing or fail to load,
    and the built-in default font when no candidate is usable. *)
Theorem load_font_fallback (size : Z) :
  (forall c rest, isfile (String c rest) = true ->
     load_font (Some (String c rest)) size = truetype (String c rest) size)
  /\ (forall p, isfile p = false ->
        load_font (Some p) size = load_font None size)
  /\ load_font (Some EmptyString) size = load_font None size
  /\ (forall pre c post f,
        font_candidates = pre ++ c :: post ->
        (forall p, In p pre -> isfile p = false \/ exists e, truetype p size = Err e) ->
        isfile c = true ->
        truetype c size = Ok f ->
        load_font None size = Ok f)
  /\ ((forall c, In c font_candidates ->
                 isfile c = false \/ exists e, truetype c size = Err e) ->
      load_font None size = Ok load_default)
  /\ exists f, load_font None size = Ok f.
Proof.
  unfold load_font. split; [| split; [| split; [| split; [| split]]]].
  - intros c rest Hfile. cbn [Py.truthy andb]. now rewrite Hfile.
  - intros p Hfile. rewrite Hfile. now rewrite andb_false_r.
  - reflexivity.
  - intros pre c post f -> Hpre Hfile Hload.
    now rewrite (first_candidate_walk pre c post size f Hpre Hfile Hload).
  - intros Hnone. now rewrite first_candidate_none.
  - now eexists.
Qed.

End Fonts.

Lemma load_font_fallback_witness :
  @load_font Ref.recorder Ref2.host_with_files (Some "my.ttf") 66
  = @truetype Ref.recorder "my.ttf" 66
  /\ @load_font Ref.recorder Ref.full_host (Some "my.ttf") 66
     = @load_font Ref.recorder Ref.full_host None 66
  /\ @load_font Ref.recorder Ref2.host_with_liberation None 66
     = Ok ("/usr/share/fonts/truetype/liberation/LiberationSans-Bold.ttf", 66)
  /\ @load_font Ref.recorder Ref.full_host None 66 = Ok (@load_default Ref.recorder).
Proof.
  split; [| split; [| split]].
  - apply (proj1 (@load_font_fallback Ref.recorder Ref2.host_with_files 66)).
    reflexivity.
  - apply (proj1 (proj2 (@load_font_fallback Ref.recorder Ref.full_host 66))).
    reflexivity.
  - apply (proj1 (proj2 (proj2 (proj2
             (@load_font_fallback Ref.recorder Ref2.host_with_liberation 66))))
             ["/usr/share/fonts/truetype/dejavu/DejaVuSans-Bold.ttf"]
             "/usr/share/fonts/truetype/liberation/LiberationSans-Bold.ttf"
             ["/System/Library/Fonts/Helvetica.ttc"; "C:\Windows\Fonts\arialbd.ttf";
              "/usr/share/fonts/TTF/DejaVuSans-Bold.ttf"]).
    + reflexivity.
    + intros p [<- | []]. now left.
    + reflexivity.
    + reflexivity.
  - apply (proj1 (proj2 (proj2 (proj2 (proj2
             (@load_font_fallback Ref.recorder Ref.full_host 66)))))).
    intros c _. now left.
Defined.

Lemma requested_filter_known (x : string) (effects : list string) :
  is_known_effect x = true ->
  requested x (List.filter is_known_effect effects) = requested x effects.
Proof.
  intros Hx. unfold requested. induction effects as [| e rest IH]; [reflexivity |].
  cbn [List.filter existsb]. destruct (is_known_effect e) eqn:He.
  - cbn [existsb]. now rewrite IH.
  - rewrite IH. destruct (String.eqb_spec x e) as [-> | _]; [congruence | reflexivity].
Qed.

(** X10. Effect names the compositor does not know are ignored: a request
    gives the same outcome as the request without them. *)
Theorem render_png_text_unknown_effects
        `{R : Random} `{P : Pillow} `{H : Host}
        (path text : string) (subtitle : option string) (width height : Z)
        (pal : option palette) (font_path : option string) (effects : list string)
        (w : world) :
  render_png_text path text subtitle width height pal font_path (Some effects) w
  = render_png_text path text subtitle width height pal font_path
      (Some (List.filter is_known_effect effects)) w.
Proof.
  unfold render_png_text. f_equal. f_equal.
  unfold render_png_image, stage_gradient, stage_shadow, stage_glow, stage_stripe,
    stage_blur.
  change (default [] (Some effects)) with effects.
  change (default [] (Some (List.filter is_known_effect effects)))
    with (List.filter is_known_effect effects).
  rewrite !requested_filter_known by reflexivity.
  reflexivity.
Qed.

(** ** Tagline suggestions: totality and the credential *)

Lemma slice_to_length3 {A} (n : Z) (l : list A) :
  List.length l = 3%nat ->
  List.length (Py.slice_to n l) = Z.to_nat (if n <? 0 then 3 + n else Z.min n 3).
Proof.
  intros Hl. unfold Py.slice_to. rewrite Hl.
  destruct (Z.ltb_spec n 0); rewrite length_firstn, Hl; lia.
Qed.

(** The answer to a tagline request is one of three lists, cut. *)
Lemma taglines_source `{H : Host} (prompt : string) (n : Z) (api_key : option string) :
  exists src,
    In src [bannerforge_taglines; generic_taglines; canned_taglines]
    /\ gemini_generate_taglines prompt n api_key = Ok (Py.slice_to n src).
Proof.
  unfold gemini_generate_taglines.
  destruct (negb _).
  - destruct (fallback_key_total prompt) as [key ->]. cbn [rbind].
    unfold getitem. rewrite !fallbacks_lookup.
    cbn [String.eqb Ascii.eqb Bool.eqb rbind default].
    destruct (String.eqb key "bannerforge").
    + exists bannerforge_taglines. cbn [In default]. auto.
    + exists generic_taglines. cbn [In]. split; [auto |].
      destruct (String.eqb key "default"); reflexivity.
  - exists canned_taglines. cbn [In]. split; [auto | reflexivity].
Qed.

(** X11. A tagline request never raises, whatever the prompt, the count and
    the credential: the index into the split prompt cannot be out of range.
    The answer is one of three fixed lists cut by [[:n]], so it has
    [min n 3] entries for a count [n >= 0] and [max 0 (3 + n)] for a
    negative one. *)
Theorem taglines_never_raise `{H : Host}
        (prompt : string) (n : Z) (api_key : option string) :
  exists src,
    In src [bannerforge_taglines; generic_taglines; canned_taglines]
    /\ gemini_generate_taglines prompt n api_key = Ok (Py.slice_to n src)
    /\ List.length (Py.slice_to n src)
       = Z.to_nat (if n <? 0 then 3 + n else Z.min n 3).
Proof.
  destruct (taglines_source prompt n api_key) as (src & Hin & Hrun).
  exists src. repeat split; try assumption.
  apply slice_to_length3.
  destruct Hin as [<- | [<- | [<- | []]]]; reflexivity.
Qed.

(** X12. The credential of a tagline request: a non-empty key passed by
    the caller, or found in the environment when the caller passes none,
    selects the canned list whatever the prompt; a key passed as the empty
    string hides the one of the environment, and the request is answered as
    on a host that has none. *)
Theorem taglines_credential_precedence (H1 H2 : Host)
        (prompt : string) (n : Z) (c : ascii) (k : string) :
  Py.truthy (@env_GEMINI_API_KEY H2) = false ->
  @gemini_generate_taglines H1 prompt n (Some (String c k))
  = Ok (Py.slice_to n canned_taglines)
  /\ (@env_GEMINI_API_KEY H1 = Some (String c k) ->
      @gemini_generate_taglines H1 prompt n None = Ok (Py.slice_to n canned_taglines))
  /\ @gemini_generate_taglines H1 prompt n (Some EmptyString)
     = @gemini_generate_taglines H2 prompt n None.
Proof.
  intros Hnone. unfold gemini_generate_taglines. repeat split.
  - intros ->. reflexivity.
  - rewrite Hnone. reflexivity.
Qed.

Lemma taglines_credential_precedence_witness :
  @gemini_generate_taglines Ref2.host_with_key "Create subtitle for: 'BannerForge'" 2
    (Some "k")
  = Ok (Py.slice_to 2 canned_taglines)
  /\ @gemini_generate_taglines Ref2.host_with_key "Create subtitle for: 'BannerForge'" 2
       (Some EmptyString)
     = @gemini_generate_taglines Ref.full_host "Create subtitle for: 'BannerForge'" 2 None.
Proof.
  pose proof (taglines_credential_precedence Ref2.host_with_key Ref.full_host
                "Create subtitle for: 'BannerForge'" 2 "k" EmptyString eq_refl)
    as (Hkey & _ & Hempty).
  split; [exact Hkey | exact Hempty].
Defined.

(** The first entries of the three lists. *)
Lemma slice_one_head (src : list string) :
  In src [bannerforge_taglines; generic_taglines; canned_taglines] ->
  exists idea,
    Py.slice_to 1 src = [idea]
    /\ In idea ["Forge Your Visual Identity"; "See What Others Miss"; "Creative Tagline 1"].
Proof.
  intros [<- | [<- | [<- | []]]]; eexists; (split; [reflexivity |]); cbn [In]; auto.
Qed.

(** X13. The [--ai] block of [svg] and [png] keeps a subtitle the caller
    gave, the empty one too, and asks for nothing. Without a subtitle and
    with the flag set it never raises: it echoes one line and returns one
    of three fixed subtitles. Without the flag it returns no subtitle. *)
Theorem ai_subtitle_outcome `{R : Random} `{P : Pillow} `{H : Host}
        (ai : bool) (subtitle : option string) (prompt : string) (w : world) :
  match subtitle, ai with
  | Some s, _ => ai_subtitle ai subtitle prompt w = (Ok (Some s), w)
  | None, false => ai_subtitle ai subtitle prompt w = (Ok None, w)
  | None, true =>
      exists idea,
        In idea ["Forge Your Visual Identity"; "See What Others Miss";
                 "Creative Tagline 1"]
        /\ ai_subtitle ai subtitle prompt w
           = (Ok (Some idea),
              World R P (w_rng w) (w_writes w)
                (w_stdout w ++ ["AI suggestion: " +:+ idea]))
  end.
Proof.
  destruct subtitle as [s |]; [reflexivity |].
  destruct ai; [| reflexivity].
  destruct (taglines_source prompt 1 None) as (src & Hin & Hrun).
  destruct (slice_one_head src Hin) as (idea & Hslice & Hidea).
  exists idea. split; [assumption |].
  unfold ai_subtitle, bind, lift. rewrite Hrun, Hslice. reflexivity.
Qed.

(** ** File names *)

Lemma take_length (n : nat) (s : string) : (String.length (Py.take n s) <= n)%nat.
Proof.
  revert s. induction n as [| n IH]; intros [| c s]; cbn [Py.take String.length]; try lia.
  specialize (IH s). lia.
Qed.

Lemma take_replace (a b : ascii) (n : nat) (s : string) :
  Py.take n (Py.replace_char a b s) = Py.replace_char a b (Py.take n s).
Proof.
  revert s. induction n as [| n IH]; intros [| c s]; cbn [Py.take Py.replace_char];
    try reflexivity.
  now rewrite IH.
Qed.

Lemma take_take (n : nat) (s : string) : Py.take n (Py.take n s) = Py.take n s.
Proof.
  revert s. induction n as [| n IH]; intros [| c s]; cbn [Py.take]; try reflexivity.
  now rewrite IH.
Qed.

Lemma replace_char_gone (a b : ascii) (s : string) :
  Ascii.eqb a b = false -> Py.contains_char a (Py.replace_char a b s) = false.
Proof.
  intros Hab. induction s as [| c s IH]; [reflexivity |].
  cbn [Py.replace_char Py.contains_char]. rewrite IH, orb_false_r.
  destruct (Ascii.eqb_spec c a) as [-> | Hc]; [assumption |].
  destruct (Ascii.eqb_spec a c) as [-> | _]; [congruence | reflexivity].
Qed.

Lemma replace_char_absent (a b : ascii) (s : string) :
  Py.contains_char a s = false -> Py.replace_char a b s = s.
Proof.
  induction s as [| c s IH]; [reflexivity |].
  cbn [Py.replace_char Py.contains_char]. intros Hc.
  apply orb_false_elim in Hc as [Hac Hs].
  rewrite (Ascii.eqb_sym c a), Hac, (IH Hs). reflexivity.
Qed.

Lemma contains_char_take (a : ascii) (n : nat) (s : string) :
  Py.contains_char a s = false -> Py.contains_char a (Py.take n s) = false.
Proof.
  revert s. induction n as [| n IH]; intros [| c s]; cbn [Py.take Py.contains_char];
    try reflexivity.
  intros Hc. apply orb_false_elim in Hc as [-> Hs]. now rewrite (IH s Hs).
Qed.

Lemma take_append_exact (s more : string) :
  Py.take (String.length s) (s +:+ more) = Py.take (String.length s) s.
Proof.
  induction s as [| c s IH]; [now destruct more |].
  change (String c s +:+ more) with (String c (s +:+ more)).
  cbn [String.length Py.take]. now rewrite IH.
Qed.

Lemma safe_name_clean (text : string) : Py.contains_char " " (safe_name text) = false.
Proof. unfold safe_name. apply contains_char_take. now apply replace_char_gone. Qed.

(** X14. The file stem the commands derive from a text has at most thirty
    characters and no space, and deriving it again changes nothing. It is
    decided by the first thirty characters of the text with its spaces read
    as underscores: texts that agree there are given the same stem, and
    with it the same file. *)
Theorem safe_name_stem (text : string) :
  (String.length (safe_name text) <= 30)%nat
  /\ Py.contains_char " " (safe_name text) = false
  /\ safe_name (safe_name text) = safe_name text
  /\ (forall other, Py.take 30 other = Py.take 30 text ->
                    safe_name other = safe_name text)
  /\ safe_name (Py.replace_char " " "_" text) = safe_name text
  /\ (forall more, String.length text = 30%nat ->
                   safe_name (text +:+ more) = safe_name text).
Proof.
  repeat split.
  - apply take_length.
  - apply safe_name_clean.
  - unfold safe_name at 1.
    rewrite (replace_char_absent _ _ _ (safe_name_clean text)).
    unfold safe_name. apply take_take.
  - intros other Hsame. unfold safe_name. now rewrite !take_replace, Hsame.
  - unfold safe_name. f_equal. apply replace_char_absent. now apply replace_char_gone.
  - intros more Hlen. unfold safe_name. rewrite !take_replace, <- Hlen.
    now rewrite take_append_exact.
Qed.

Lemma safe_name_stem_witness :
  safe_name ("The quick brown fox jumps over" +:+ " the lazy dog")
  = safe_name "The quick brown fox jumps over".
Proof.
  apply (proj2 (proj2 (proj2 (proj2 (proj2
           (safe_name_stem "The quick brown fox jumps over")))))).
  reflexivity.
Defined.

(** ** Records of a batch *)

Section BatchItems.
Context `{R : Random} `{P : Pillow} `{F : Figlet} `{H : Host}.

Lemma join_absolute (outdir rest ext : string) :
  Path.join outdir (safe_name (String "/" rest) +:+ ext)
  = safe_name (String "/" rest) +:+ ext.
Proof. reflexivity. Qed.

(** X15. A record whose text starts with a slash escapes the output
    directory: the file name derived from the text is an absolute path,
    [os.path.join] then drops the directory, and the record is handled in
    the same way whatever directory was asked for. *)
Theorem batch_item_absolute_text
        (outdir other : string) (total idx : nat) (it : item) (rest : string)
        (path : option string) (w : world) :
  i_text it = Some (String "/" rest) ->
  (forall ext, Path.join outdir (safe_name (String "/" rest) +:+ ext)
               = String "/" (Py.take 29 (Py.replace_char " " "_" rest)) +:+ ext)
  /\ batch_item outdir total idx it path w = batch_item other total idx it path w.
Proof.
  intros Htext. split; [reflexivity |].
  unfold batch_item. rewrite Htext.
  unfold bind at 1. unfold lift at 1. cbv beta iota zeta.
  symmetry. unfold bind at 1. unfold lift at 1. cbv beta iota zeta. symmetry.
  unfold bind at 1. unfold echo at 1. cbv beta iota.
  symmetry. unfold bind at 1. unfold echo at 1. cbv beta iota. symmetry.
  destruct (String.eqb (default "svg" (i_kind it)) "ascii"); [reflexivity |].
  destruct (String.eqb (default "svg" (i_kind it)) "svg"); [reflexivity |].
  destruct (String.eqb (default "svg" (i_kind it)) "png"); reflexivity.
Qed.

(** X16. A record of a kind other than ascii, svg and png writes nothing.
    As the first record it ends the command with [UnboundLocalError], after
    its progress line; later in the batch it is reported as done, under the
    path of the record before it. *)
Theorem batch_item_unknown_kind
        (outdir : string) (total idx : nat) (it : item) (text : string)
        (path : option string) (w : world) :
  known_kind it = false ->
  i_text it = Some text ->
  batch_item outdir total idx it path w
  = match path with
    | None =>
        (Err (UnboundLocalError "path"),
         World R P (w_rng w) (w_writes w)
           (w_stdout w ++ [progress_line total idx it text]))
    | Some p =>
        (Ok (Some p),
         World R P (w_rng w) (w_writes w)
           ((w_stdout w ++ [progress_line total idx it text]) ++ ["  ✓ " +:+ p]))
    end.
Proof.
  unfold known_kind, batch_item, progress_line. intros Hkind Htext. rewrite Htext.
  apply orb_false_elim in Hkind as [Hkind Hpng].
  apply orb_false_elim in Hkind as [Hascii Hsvg].
  cbv zeta. rewrite Hascii, Hsvg, Hpng.
  destruct path as [p |]; reflexivity.
Qed.

Lemma batch_item_ascii_err
      (outdir : string) (total idx : nat) (it : item) (text : string)
      (path : option string) (e : exn) (w : world) :
  i_kind it = Some "ascii" ->
  i_text it = Some text ->
  ascii_banner text (default "standard" (i_font it)) false "cyan" = Err e ->
  batch_item outdir total idx it path w
  = (Err e,
     World R P (w_rng w)
       (w_writes w ++ [(Path.join outdir (safe_name text +:+ ".txt"), TextFile "")])
       (w_stdout w ++ [progress_line total idx it text])).
Proof.
  intros Hkind Htext Hbanner. unfold batch_item, progress_line. rewrite Hkind, Htext.
  unfold bind at 1. unfold lift at 1. cbv beta iota zeta.
  unfold bind at 1. unfold echo at 1. cbv beta iota.
  cbn [default String.eqb Ascii.eqb Bool.eqb].
  rewrite Hbanner. reflexivity.
Qed.

(** X17. An ascii record whose banner cannot be rendered, because pyfiglet
    is missing or the font is unknown, still leaves a file: the file is
    opened before the banner is rendered, so an empty [.txt] stays behind
    when the record ends the command with the rendering error. *)
Theorem batch_item_ascii_failure
        (outdir : string) (total idx : nat) (it : item) (text : string)
        (path : option string) (e : exn) (w : world) :
  i_kind it = Some "ascii" ->
  i_text it = Some text ->
  ascii_banner text (default "standard" (i_font it)) false "cyan" = Err e ->
  fst (batch_item outdir total idx it path w) = Err e
  /\ w_writes (snd (batch_item outdir total idx it path w))
     = w_writes w ++ [(Path.join outdir (safe_name text +:+ ".txt"), TextFile "")]
  /\ (has_pyfiglet = false ->
      e = RuntimeError "pyfiglet is required. Install: pip install pyfiglet").
Proof.
  intros Hkind Htext Hbanner. split; [| split].
  - rewrite (batch_item_ascii_err outdir total idx it text path e w Hkind Htext Hbanner).
    reflexivity.
  - rewrite (batch_item_ascii_err outdir total idx it text path e w Hkind Htext Hbanner).
    reflexivity.
  - intros Hmissing. unfold ascii_banner in Hbanner. rewrite Hmissing in Hbanner.
    cbn [negb] in Hbanner. congruence.
Qed.

(** A record of an unknown kind, when it is passed over, leaves no file. *)
Lemma adds_batch_item_unknown (outdir : string) (total idx : nat) (it : item)
      (path : option string) :
  known_kind it = false ->
  adds_writes 0 (batch_item outdir total idx it path).
Proof.
  intros Hkind w. destruct (i_text it) as [text |] eqn:Htext.
  - unfold known_kind in Hkind. unfold batch_item. rewrite Htext.
    apply orb_false_elim in Hkind as [Hkind Hpng].
    apply orb_false_elim in Hkind as [Hascii Hsvg].
    cbv zeta. rewrite Hascii, Hsvg, Hpng.
    destruct path; cbn [bind lift echo ret raise w_writes]; [lia | exact I].
  - unfold batch_item. rewrite Htext. exact I.
Qed.

(** The loop, when it returns, has left one file for each record of a known
    kind. *)
Lemma adds_batch_loop_known (outdir : string) (total : nat) (data : list item) :
  forall idx path,
    adds_writes (List.length (List.filter known_kind data))
      (batch_loop outdir total idx data path).
Proof.
  induction data as [| it rest IH]; intros idx path; cbn [batch_loop List.filter].
  - apply adds_ret.
  - destruct (known_kind it) eqn:Hkind.
    + cbn [List.length].
      apply (adds_bind 1 (List.length (List.filter known_kind rest)));
        [now apply adds_batch_item | intros path'; apply IH].
    + apply (adds_bind 0 (List.length (List.filter known_kind rest)));
        [now apply adds_batch_item_unknown | intros path'; apply IH].
Qed.

(** X18. The closing line of [batch] counts records, not files: when the
    command returns, it has left one file for each record of a known kind,
    and its last line reports the number of records of the spec. *)
Theorem batch_reports_records
        (spec outdir : string) (data : list item) (w : world) :
  fst (batch spec data outdir w) = Ok tt ->
  List.length (w_writes (snd (batch spec data outdir w)))
  = (List.length (w_writes w) + List.length (List.filter known_kind data))%nat
  /\ exists out,
       w_stdout (snd (batch spec data outdir w))
       = out ++ [nl +:+ "Batch complete: " +:+ Py.str_of_int (Z.of_nat (List.length data))
                 +:+ " banners in " +:+ outdir].
Proof.
  unfold batch.
  destruct ((Py.endswith spec ".yaml" || Py.endswith spec ".yml") && negb has_yaml);
    [cbn [bind raise fst]; discriminate |].
  unfold bind, ensure_dir, ret. cbv beta iota.
  pose proof (adds_batch_loop_known outdir (List.length data) data 1 None w) as Hadds.
  destruct (batch_loop outdir (List.length data) 1 data None w) as [[[] |] w1];
    [| cbv beta iota; cbn [fst]; discriminate].
  intros _. cbv beta iota. cbn [echo fst snd w_writes w_stdout]. split; [exact Hadds | now eexists].
Qed.

End BatchItems.

Lemma batch_item_absolute_text_witness :
  (forall ext, Path.join "out" (safe_name (String "/" "tmp/x") +:+ ext)
               = String "/" (Py.take 29 (Py.replace_char " " "_" "tmp/x")) +:+ ext)
  /\ @batch_item Ref.lcg Ref.recorder Ref.plain_figlet Ref.full_host "out" 1 1
       (Ref.record (Some "svg") (Some "/tmp/x")) None Ref.world0
     = @batch_item Ref.lcg Ref.recorder Ref.plain_figlet Ref.full_host "elsewhere" 1 1
         (Ref.record (Some "svg") (Some "/tmp/x")) None Ref.world0.
Proof.
  apply (@batch_item_absolute_text Ref.lcg Ref.recorder Ref.plain_figlet Ref.full_host
           "out" "elsewhere" 1 1 (Ref.record (Some "svg") (Some "/tmp/x")) "tmp/x"
           None Ref.world0).
  reflexivity.
Defined.

Lemma batch_item_unknown_kind_witness :
  @batch_item Ref.lcg Ref.recorder Ref.plain_figlet Ref.full_host "out" 2 2
    (Ref.record (Some "gif") (Some "Beta")) (Some "out/Alpha.svg") Ref.world0
  = (Ok (Some "out/Alpha.svg"),
     @World Ref.lcg Ref.recorder (w_rng Ref.world0) (w_writes Ref.world0)
       ((w_stdout Ref.world0
         ++ [progress_line 2 2 (Ref.record (Some "gif") (Some "Beta")) "Beta"])
        ++ ["  ✓ " +:+ "out/Alpha.svg"])).
Proof.
  apply (@batch_item_unknown_kind Ref.lcg Ref.recorder Ref.plain_figlet Ref.full_host
           "out" 2 2 (Ref.record (Some "gif") (Some "Beta")) "Beta"
           (Some "out/Alpha.svg") Ref.world0);
    reflexivity.
Defined.

Lemma batch_item_ascii_failure_witness :
  fst (@batch_item Ref.lcg Ref.recorder Ref.plain_figlet Ref2.host_without_pyfiglet
         "out" 1 1 (Ref.record (Some "ascii") (Some "Alpha")) None Ref.world0)
  = Err (RuntimeError "pyfiglet is required. Install: pip install pyfiglet")
  /\ w_writes (snd (@batch_item Ref.lcg Ref.recorder Ref.plain_figlet
                      Ref2.host_without_pyfiglet "out" 1 1
                      (Ref.record (Some "ascii") (Some "Alpha")) None Ref.world0))
     = w_writes Ref.world0
       ++ [(Path.join "out" (safe_name "Alpha" +:+ ".txt"), TextFile "")].
Proof.
  pose proof (@batch_item_ascii_failure Ref.lcg Ref.recorder Ref.plain_figlet
                Ref2.host_without_pyfiglet "out" 1 1
                (Ref.record (Some "ascii") (Some "Alpha")) "Alpha" None
                (RuntimeError "pyfiglet is required. Install: pip install pyfiglet")
                Ref.world0 eq_refl eq_refl eq_refl) as (Hfst & Hwrites & _).
  split; [exact Hfst | exact Hwrites].
Defined.

Lemma batch_reports_records_witness :
  List.length
    (w_writes (snd (@batch Ref.lcg Ref.recorder Ref.plain_figlet Ref.full_host "spec.json"
                      [Ref.record (Some "svg") (Some "Alpha");
                       Ref.record (Some "gif") (Some "Beta")] "out" Ref.world0)))
  = (List.length (w_writes Ref.world0)
     + List.length (List.filter known_kind
                      [Ref.record (Some "svg") (Some "Alpha");
                       Ref.record (Some "gif") (Some "Beta")]))%nat
  /\ exists out,
       w_stdout (snd (@batch Ref.lcg Ref.recorder Ref.plain_figlet Ref.full_host
                        "spec.json"
                        [Ref.record (Some "svg") (Some "Alpha");
                         Ref.record (Some "gif") (Some "Beta")] "out" Ref.world0))
       = out ++ [nl +:+ "Batch complete: "
                 +:+ Py.str_of_int
                       (Z.of_nat (List.length [Ref.record (Some "svg") (Some "Alpha");
                                               Ref.record (Some "gif") (Some "Beta")]))
                 +:+ " banners in " +:+ "out"].
Proof.
  apply (@batch_reports_records Ref.lcg Ref.recorder Ref.plain_figlet Ref.full_host
           "spec.json" "out"
           [Ref.record (Some "svg") (Some "Alpha"); Ref.record (Some "gif") (Some "Beta")]
           Ref.world0).
  vm_compute. reflexivity.
Defined.

(** ** The files a command leaves *)

Section Files.
Context `{R : Random} `{P : Pillow} `{F : Figlet} `{FF : FigletFonts} `{H : Host}.

Lemma writes_to_quiet {A} (m : M A) : quiet m -> writes_to [] m.
Proof.
  intros Hq w. destruct (Hq w) as [Hw _]. exists []. rewrite app_nil_r.
  split; [assumption |]. split; [now exists [] | reflexivity].
Qed.

Lemma writes_to_ret {A} (a : A) : writes_to [] (ret a).
Proof. apply writes_to_quiet, quiet_ret. Qed.

Lemma writes_to_raise {A} (e : exn) : writes_to [] (@raise R P A e).
Proof. apply writes_to_quiet, quiet_raise. Qed.

Lemma writes_to_lift {A} (r : result A) : writes_to [] (lift r).
Proof. apply writes_to_quiet, quiet_lift. Qed.

Lemma writes_to_echo (line : string) : writes_to [] (echo line).
Proof.
  intros w. exists []. cbn [echo snd w_writes]. rewrite app_nil_r.
  split; [reflexivity |]. split; [now exists [] | reflexivity].
Qed.

Lemma writes_to_write_file (path : string) (a : artifact) :
  writes_to [path] (write_file path a).
Proof.
  intros w. exists [(path, a)]. cbn [write_file snd w_writes map fst].
  split; [reflexivity |]. split; [now exists [] | reflexivity].
Qed.

Lemma writes_to_bind {A B} (p1 p2 : list string) (m : M A) (f : A -> M B) :
  writes_to p1 m -> (forall a, writes_to p2 (f a)) -> writes_to (p1 ++ p2) (bind m f).
Proof.
  intros Hm Hf w. destruct (Hm w) as (a1 & Hw1 & [r1 Hr1] & Hok1).
  unfold bind. destruct (m w) as [[a | e] w1]; cbn [fst snd is_ok] in *.
  - specialize (Hok1 eq_refl).
    destruct (Hf a w1) as (a2 & Hw2 & [r2 Hr2] & Hok2).
    exists (a1 ++ a2). rewrite Hw2, Hw1, map_app, Hok1, <- app_assoc.
    split; [reflexivity |]. split.
    + exists r2. now rewrite Hr2, <- app_assoc.
    + intros Hok. now rewrite (Hok2 Hok).
  - exists a1. split; [assumption |]. split; [| discriminate].
    exists (r1 ++ p2). now rewrite Hr1, <- app_assoc.
Qed.

Lemma writes_to_write_svg (path text : string) (subtitle : option string)
      (width height : Z) (pal : option palette) (style : string) (animated : bool) :
  writes_to [path] (write_svg path text subtitle width height pal style animated).
Proof.
  unfold write_svg. apply (writes_to_bind [] [path]).
  - apply writes_to_quiet, quiet_svg_document.
  - intros doc. apply writes_to_write_file.
Qed.

Lemma writes_to_render_png_text (path text : string) (subtitle : option string)
      (width height : Z) (pal : option palette) (font_path : option string)
      (effects : option (list string)) :
  writes_to [path]
    (render_png_text path text subtitle width height pal font_path effects).
Proof.
  unfold render_png_text. apply (writes_to_bind [] [path]).
  - apply writes_to_lift.
  - intros img. apply writes_to_write_file.
Qed.

Lemma writes_to_ai_subtitle (ai : bool) (subtitle : option string) (prompt : string) :
  writes_to [] (ai_subtitle ai subtitle prompt).
Proof.
  unfold ai_subtitle. destruct subtitle; [apply writes_to_ret |].
  destruct ai; [| apply writes_to_ret].
  apply (writes_to_bind [] []); [apply writes_to_lift |].
  intros [| idea ideas]; [apply writes_to_raise |].
  apply (writes_to_bind [] []); [apply writes_to_echo | intros _; apply writes_to_ret].
Qed.

Lemma writes_to_svg (text : string) (subtitle : option string) (width height : Z)
      (palette style : string) (animated : bool) (template out : option string)
      (ai : bool) :
  writes_to [default_out out text ".svg"]
    (svg text subtitle width height palette style animated template out ai).
Proof.
  unfold svg.
  apply (writes_to_bind [] [_]); [apply writes_to_lift | intros [style' palette']].
  apply (writes_to_bind [] [_]); [apply writes_to_lift | intros pal].
  apply (writes_to_bind [] [_]); [apply writes_to_ai_subtitle | intros sub].
  apply (writes_to_bind [] [_]); [apply writes_to_ret | intros _].
  apply (writes_to_bind [_] []); [apply writes_to_write_svg | intros _].
  apply writes_to_echo.
Qed.

Lemma writes_to_png (text : string) (subtitle : option string) (width height : Z)
      (palette : string) (effects : list string) (template out font : option string)
      (ai : bool) :
  writes_to [default_out out text ".png"]
    (png text subtitle width height palette effects template out font ai).
Proof.
  unfold png.
  apply (writes_to_bind [] [_]); [apply writes_to_lift | intros [palette' effects']].
  apply (writes_to_bind [] [_]); [apply writes_to_lift | intros pal].
  apply (writes_to_bind [] [_]); [apply writes_to_ai_subtitle | intros sub].
  apply (writes_to_bind [] [_]); [apply writes_to_ret | intros _].
  apply (writes_to_bind [_] []); [apply writes_to_render_png_text | intros _].
  apply writes_to_echo.
Qed.

(** X19. The commands [svg] and [png] touch one path only: the one given
    with [--out], or else the default name made of the file stem of the
    text and the time stamp. The file is written when the command returns
    and, when it raises, at most that file has been written. *)
Theorem svg_png_write_only_out
        (text : string) (subtitle : option string) (width height : Z)
        (palette style : string) (animated : bool) (effects : list string)
        (template out font : option string) (ai : bool) (w : world) :
  let run_svg := svg text subtitle width height palette style animated template out ai w in
  let run_png := png text subtitle width height palette effects template out font ai w in
  (exists added,
      w_writes (snd run_svg) = w_writes w ++ added
      /\ (map fst added = [] \/ map fst added = [default_out out text ".svg"])
      /\ (fst run_svg = Ok tt -> map fst added = [default_out out text ".svg"]))
  /\ (exists added,
        w_writes (snd run_png) = w_writes w ++ added
        /\ (map fst added = [] \/ map fst added = [default_out out text ".png"])
        /\ (fst run_png = Ok tt -> map fst added = [default_out out text ".png"]))
  /\ default_out None text ".svg"
     = "banner_" +:+ safe_name text +:+ "_" +:+ utcnow_stamp +:+ ".svg".
Proof.
  cbv zeta. split; [| split; [| reflexivity]].
  - destruct (writes_to_svg text subtitle width height palette style animated
                template out ai w) as (added & Hw & [rest Hrest] & Hok).
    exists added. split; [assumption |]. split.
    + destruct (map fst added) as [| p [| p' l]]; [now left | right | discriminate].
      injection Hrest as <- _. reflexivity.
    + intros Hrun. apply Hok. now rewrite Hrun.
  - destruct (writes_to_png text subtitle width height palette effects
                template out font ai w) as (added & Hw & [rest Hrest] & Hok).
    exists added. split; [assumption |]. split.
    + destruct (map fst added) as [| p [| p' l]]; [now left | right | discriminate].
      injection Hrest as <- _. reflexivity.
    + intros Hrun. apply Hok. now rewrite Hrun.
Qed.



End Files.

(** ** The [ascii] and [quick] commands *)

Section MoreCommands.
Context `{R : Random} `{P : Pillow} `{F : Figlet} `{FF : FigletFonts} `{H : Host}.

Lemma echo_all_run (ls : list string) (w : world) :
  Cli.echo_all ls w = (Ok tt, World R P (w_rng w) (w_writes w) (w_stdout w ++ ls)).
Proof.
  revert w. induction ls as [| l ls IH]; intros w.
  - destruct w. cbn [Cli.echo_all ret w_rng w_writes w_stdout]. now rewrite app_nil_r.
  - cbn [Cli.echo_all]. unfold bind, echo. rewrite IH.
    cbn [w_rng w_writes w_stdout]. now rewrite <- app_assoc.
Qed.

Lemma insert_length (s : string) (l : list string) :
  List.length (PyList.insert s l) = S (List.length l).
Proof.
  induction l as [| h t IH]; [reflexivity |].
  cbn [PyList.insert]. destruct (String.leb s h); cbn [List.length]; [reflexivity |].
  now rewrite IH.
Qed.

Lemma sorted_length (l : list string) : List.length (PyList.sorted l) = List.length l.
Proof.
  induction l as [| h t IH]; [reflexivity |].
  unfold PyList.sorted in *. cbn [fold_right List.length].
  now rewrite insert_length, IH.
Qed.

(** X21. Listing the fonts never fails and writes nothing, with or without
    pyfiglet: it echoes a header with the number of all fonts, then at most
    fifty of them, then the closing line, which is echoed also when every
    font was shown; without pyfiglet the header reports no font. *)
Theorem ascii_list_fonts
        (text font color : string) (colorize : bool) (out : option string) (w : world) :
  let fonts := list_figlet_fonts in
  let shown := map (fun f => "  - " +:+ f) (firstn 50 (PyList.sorted fonts)) in
  Cli.ascii text font color colorize out true w
  = (Ok tt,
     World R P (w_rng w) (w_writes w)
       (((w_stdout w
          ++ ["Available fonts (" +:+ Py.str_of_int (Z.of_nat (List.length fonts)) +:+ "):"])
         ++ shown)
        ++ [nl +:+ "... and more. Use --font <name> to select."]))
  /\ List.length shown = Nat.min 50 (List.length fonts)
  /\ (has_pyfiglet = false -> fonts = []).
Proof.
  cbv zeta. split; [| split].
  - unfold Cli.ascii, bind. cbn [echo]. rewrite echo_all_run. reflexivity.
  - now rewrite length_map, length_firstn, sorted_length.
  - intros Hmissing. unfold list_figlet_fonts. now rewrite Hmissing.
Qed.

(** X22. With [--out] the banner is written without its color codes: for a
    rendered banner that holds no color sequence the file is that banner,
    whether [--colorize] is set or not and whatever the color, and one line
    is echoed. An empty [--out] is no [--out]: the banner goes to the
    terminal. *)
Theorem ascii_out_file_plain
        (text font color : string) (colorize : bool) (c : ascii) (path banner : string)
        (w : world) :
  has_pyfiglet = true ->
  renderText font text = Ok banner ->
  contains_ansi banner = false ->
  Cli.ascii text font color colorize (Some (String c path)) false w
  = (Ok tt,
     World R P (w_rng w) (w_writes w ++ [(String c path, TextFile banner)])
       (w_stdout w ++ ["✓ Wrote ASCII banner to " +:+ String c path]))
  /\ Cli.ascii text font color colorize (Some EmptyString) false w
     = Cli.ascii text font color colorize None false w.
Proof.
  intros Hfig Hrender Hclean. split; [| reflexivity].
  unfold Cli.ascii, ascii_banner. rewrite Hfig, Hrender. cbn [negb rbind].
  assert (Hstrip : forall colored,
             (if colorize then colorized color banner else Ok banner) = Ok colored ->
             strip_ansi colored = banner).
  { intros colored. destruct colorize.
    - now apply strip_ansi_colorized.
    - intros [= <-]. unfold strip_ansi. now apply sub_ansi_clean_fixed. }
  destruct (if colorize then colorized color banner else Ok banner) as [colored | e] eqn:Hcol.
  - unfold bind, lift. cbn [Py.truthy default write_file echo w_rng w_writes w_stdout].
    now rewrite (Hstrip colored eq_refl).
  - destruct colorize; [| discriminate].
    destruct (colorized_shape color banner) as (code & _ & Heq). congruence.
Qed.

(** The document of [quick]. *)
Lemma quick_document (text : string) (w : world) :
  exists doc,
    svg_document text None 1200 300 (Some Ref.stealth_palette) "wave" false w = (Ok doc, w).
Proof.
  let d := eval vm_compute in
             (svg_document text None 1200 300 (Some Ref.stealth_palette) "wave" false w) in
  match d with
  | (Ok ?doc, _) => exists doc; vm_compute; reflexivity
  end.
Qed.

(** X23. [quick] with its default type, svg, needs none of the optional
    libraries: for every text and on every host the document of the
    "stealth" wave banner of 1200 by 300 is composed without error and
    without touching the generator, so that only writing the file is left
    to go wrong; when the command returns, it has written that document to
    [<stem>_quick.svg] and echoed one line. *)
Theorem quick_svg_any_host (text : string) (w : world) :
  exists pal doc,
    get_palette "stealth" = Ok pal
    /\ svg_document text None 1200 300 (Some pal) "wave" false w = (Ok doc, w)
    /\ (fst (Cli.quick text "svg" w) = Ok tt ->
        snd (Cli.quick text "svg" w)
        = World R P (w_rng w)
            (w_writes w ++ [(safe_name text +:+ "_quick.svg", TextFile doc)])
            (w_stdout w ++ ["✓ SVG: " +:+ safe_name text +:+ "_quick.svg"])).
Proof.
  destruct (quick_document text w) as [doc Hdoc].
  assert (Hpal : get_palette "stealth" = Ok Ref.stealth_palette) by (vm_compute; reflexivity).
  exists Ref.stealth_palette, doc. split; [exact Hpal |]. split; [exact Hdoc |].
  intros _.
  unfold Cli.quick. cbn [String.eqb Ascii.eqb Bool.eqb orb].
  unfold bind at 1. cbn [ret].
  unfold bind at 1.
  rewrite Hpal. unfold bind at 1. unfold lift at 1. cbv beta iota.
  unfold write_svg. unfold bind. rewrite Hdoc. reflexivity.
Qed.

(** X24. The files of [quick], by type: "ascii" leaves none, "svg" and
    "png" leave one, "all" leaves a text file, then the svg, then the png,
    each named by the stem of the text; a type that is none of these leaves
    nothing. When the command raises, as it does at the png without Pillow,
    the files before the failing step stay. *)
Theorem quick_files (text type : string) (w : world) :
  let paths :=
    (if String.eqb type "all" then [safe_name text +:+ "_quick.txt"] else [])
    ++ (if String.eqb type "svg" || String.eqb type "all"
        then [safe_name text +:+ "_quick.svg"] else [])
    ++ (if String.eqb type "png" || String.eqb type "all"
        then [safe_name text +:+ "_quick.png"] else []) in
  exists added,
    w_writes (snd (Cli.quick text type w)) = w_writes w ++ added
    /\ (exists rest, paths = map fst added ++ rest)
    /\ (fst (Cli.quick text type w) = Ok tt -> map fst added = paths).
Proof.
  cbv zeta.
  assert (Hfiles : writes_to
            ((if String.eqb type "all" then [safe_name text +:+ "_quick.txt"] else [])
             ++ (if String.eqb type "svg" || String.eqb type "all"
                 then [safe_name text +:+ "_quick.svg"] else [])
             ++ (if String.eqb type "png" || String.eqb type "all"
                 then [safe_name text +:+ "_quick.png"] else []))
            (Cli.quick text type)).
  { unfold Cli.quick. cbv zeta.
    apply writes_to_bind; [| intros _; apply writes_to_bind; [| intros _]].
    - destruct (String.eqb type "all"), (String.eqb type "ascii");
        cbn [orb]; cbv iota; try apply writes_to_ret.
      + apply (writes_to_bind [] [_]); [apply writes_to_lift | intros banner].
        apply (writes_to_bind [] [_]); [apply writes_to_echo | intros _].
        apply writes_to_write_file.
      + apply (writes_to_bind [] [_]); [apply writes_to_lift | intros banner].
        apply (writes_to_bind [] [_]); [apply writes_to_echo | intros _].
        apply writes_to_write_file.
      + apply (writes_to_bind [] []); [apply writes_to_lift | intros banner].
        apply (writes_to_bind [] []); [apply writes_to_echo | intros _].
        apply writes_to_ret.
    - destruct (String.eqb type "svg" || String.eqb type "all");
        [| apply writes_to_ret].
      apply (writes_to_bind [] [_]); [apply writes_to_lift | intros pal].
      apply (writes_to_bind [_] []); [apply writes_to_write_svg | intros _].
      apply writes_to_echo.
    - destruct (String.eqb type "png" || String.eqb type "all");
        [| apply writes_to_ret].
      apply (writes_to_bind [] [_]); [apply writes_to_lift | intros pal].
      apply (writes_to_bind [_] []); [apply writes_to_render_png_text | intros _].
      apply writes_to_echo. }
  destruct (Hfiles w) as (added & Hw & Hrest & Hok).
  exists added. repeat split; try assumption.
  intros Hrun. apply Hok. now rewrite Hrun.
Qed.

Lemma fallback_key_lead (lead text : string) :
  Py.contains_char "'" lead = false ->
  fallback_key (lead +:+ String "'" (text +:+ "'"))
  = fallback_key (String "'" (text +:+ "'")).
Proof.
  intros Hlead. unfold fallback_key.
  rewrite contains_char_append.
  change (Py.contains_char "'" (String "'" (text +:+ "'"))) with true.
  rewrite lower_append.
  change (Py.lower (String "'" (text +:+ "'")))
    with (String "'" (Py.lower (text +:+ "'"))).
  rewrite split_char_piece by now rewrite contains_char_lower.
  cbn [Py.split_char Ascii.eqb Bool.eqb nth_error]. reflexivity.
Qed.

Lemma taglines_lead (lead text : string) (n : Z) (api_key : option string) :
  Py.contains_char "'" lead = false ->
  gemini_generate_taglines (lead +:+ String "'" (text +:+ "'")) n api_key
  = gemini_generate_taglines (String "'" (text +:+ "'")) n api_key.
Proof.
  intros Hlead. unfold gemini_generate_taglines. now rewrite fallback_key_lead.
Qed.

(** X25. The suggestion of the [--ai] block depends on the prompt only
    through the requested text: [svg] and [png] word their prompts
    differently and are given the same subtitle, so the two files of a
    [combo] agree on it. *)
Theorem ai_subtitle_same_suggestion
        (ai : bool) (subtitle : option string) (text : string) (w : world) :
  ai_subtitle ai subtitle ("Create subtitle for banner: '" +:+ text +:+ "'") w
  = ai_subtitle ai subtitle ("Create subtitle for: '" +:+ text +:+ "'") w.
Proof.
  unfold ai_subtitle. destruct subtitle; [reflexivity |]. destruct ai; [| reflexivity].
  change ("Create subtitle for banner: '" +:+ text +:+ "'")
    with ("Create subtitle for banner: " +:+ String "'" (text +:+ "'")).
  change ("Create subtitle for: '" +:+ text +:+ "'")
    with ("Create subtitle for: " +:+ String "'" (text +:+ "'")).
  unfold bind, lift. now rewrite !taglines_lead by reflexivity.
Qed.

(** X26. An empty subtitle is no subtitle for the renderers, yet it is one
    for the [--ai] block: [svg] and [png] called with the empty subtitle
    ask for no suggestion, echo none, and write the banner they write
    without subtitle and without [--ai]. *)
Theorem empty_subtitle_disables_ai
        (text : string) (width height : Z) (palette style : string) (animated : bool)
        (effects : list string) (template out font : option string) (ai : bool)
        (w : world) :
  svg text (Some EmptyString) width height palette style animated template out ai w
  = svg text None width height palette style animated template out false w
  /\ png text (Some EmptyString) width height palette effects template out font ai w
     = png text None width height palette effects template out font false w.
Proof. split; reflexivity. Qed.

End MoreCommands.

Lemma quick_svg_any_host_witness :
  exists pal doc,
    get_palette "stealth" = Ok pal
    /\ @svg_document Ref.lcg Ref.recorder "My App" None 1200 300 (Some pal) "wave" false
         Ref.world0
       = (Ok doc, Ref.world0)
    /\ snd (@Cli.quick Ref.lcg Ref.recorder Ref.plain_figlet Ref2.host_without_pyfiglet
              "My App" "svg" Ref.world0)
       = @World Ref.lcg Ref.recorder (w_rng Ref.world0)
           (w_writes Ref.world0 ++ [(safe_name "My App" +:+ "_quick.svg", TextFile doc)])
           (w_stdout Ref.world0 ++ ["✓ SVG: " +:+ safe_name "My App" +:+ "_quick.svg"]).
Proof.
  destruct (@quick_svg_any_host Ref.lcg Ref.recorder Ref.plain_figlet
              Ref2.host_without_pyfiglet "My App" Ref.world0)
    as (pal & doc & Hpal & Hdoc & Hrun).
  exists pal, doc. split; [exact Hpal |]. split; [exact Hdoc |].
  apply Hrun. vm_compute. reflexivity.
Defined.

Lemma ascii_out_file_plain_witness :
  @Cli.ascii Ref.lcg Ref.recorder Ref.plain_figlet Ref2.some_fonts Ref.full_host
    "Hi" "standard" "red" true (Some "hi.txt") false Ref.world0
  = (Ok tt,
     @World Ref.lcg Ref.recorder (w_rng Ref.world0)
       (w_writes Ref.world0 ++ [("hi.txt", TextFile ("Hi" +:+ nl))])
       (w_stdout Ref.world0 ++ ["✓ Wrote ASCII banner to " +:+ "hi.txt"])).
Proof.
  apply (proj1 (@ascii_out_file_plain Ref.lcg Ref.recorder Ref.plain_figlet
                  Ref2.some_fonts Ref.full_host "Hi" "standard" "red" true
                  "h" "i.txt" ("Hi" +:+ nl) Ref.world0 eq_refl eq_refl eq_refl)).
Defined.
